(** * txt2image.py: the generation orchestrator of mlx-chroma

    A shallow embedding of [src/txt2image.py]: the latent-size resolver
    [to_latent_size], the staged pull of the lazy latent sequence, the
    batched decoding loop, the peak-memory and timing bookkeeping and the
    two output assemblers (raw files, padded grid).

    Python integers are [Z] ([//] is [Z.div], which floors like Python for
    the positive divisors used here), strings are [string], a batch of
    per-image tensors is a list along its axis 0, and the effects of the
    script (pulls, evaluations, counter reads, saves, prints) are recorded
    in an event trace threaded through a small state-and-exception monad.

    The pipeline ([ChromaPipeline]) and the array library are outside the
    file: the decoder, the memory counter, the duration of every step and
    what PIL makes of an array and a file name (it writes the file or
    raises) are parameters, pixel values are abstract, and the readings
    [bytes / 1024**3] are kept as exact rationals, which order the same
    way as the floats the script compares.  The progress bars of [tqdm]
    only wrap the two iterables and are left out. *)

From Stdlib Require Import ZArith Lia List Bool Arith PeanoNat.
From Stdlib Require Import Strings.String Strings.Ascii Numbers.DecimalString.
From Stdlib Require Import Numbers.DecimalZ.
From Stdlib Require Import QArith Lqa.
Import ListNotations.

Close Scope Q_scope.
Close Scope Z_scope.
Open Scope nat_scope.

Set Implicit Arguments.

(* ================================================================== *)
(** ** Python built-ins used by the script *)
(* ================================================================== *)

Module Py.

Local Open Scope Z_scope.

(** [str(i)] for an integer. *)
Definition str (z : Z) : string := NilZero.string_of_int (Z.to_int z).

(** [s.split(sep)] for a one-character separator: every occurrence of
    [sep] cuts, so the result is never empty. *)
Fixpoint split (sep : ascii) (s : string) : list string :=
  match s with
  | EmptyString => [EmptyString]
  | String c r =>
      if Ascii.eqb c sep then EmptyString :: split sep r
      else match split sep r with
           | h :: t => String c h :: t
           | [] => [String c EmptyString]
           end
  end.

(** [c in s] for a character. *)
Fixpoint contains (c : ascii) (s : string) : bool :=
  match s with
  | EmptyString => false
  | String d r => Ascii.eqb d c || contains c r
  end.

(** [sep.join(parts)]. *)
Definition join (sep : string) (parts : list string) : string :=
  String.concat sep parts.

(** [*init, last = xs]: fails ([None], a ValueError) on the empty list. *)
Definition unpack_star_last {A} (xs : list A) : option (list A * A) :=
  match rev xs with
  | [] => None
  | l :: ini => Some (rev ini, l)
  end.

(** [range(start, stop, step)] as the list it iterates over; [None] is
    the ValueError raised for [step = 0]. *)
Definition range_len (start stop step : Z) : Z :=
  if 0 <? step then
    (if start <? stop then (stop - start - 1) / step + 1 else 0)
  else
    (if stop <? start then (start - stop - 1) / (- step) + 1 else 0).

Definition range (start stop step : Z) : option (list Z) :=
  if step =? 0 then None
  else Some (map (fun j => start + Z.of_nat j * step)
                 (seq 0 (Z.to_nat (range_len start stop step)))).

(** A slice bound clamped the way [PySlice_AdjustIndices] does for a
    step of one. *)
Definition clamp_index (len i : Z) : Z :=
  if i <? 0 then Z.max (i + len) 0 else Z.min i len.

(** [xs[a:b]]. *)
Definition slice {A} (xs : list A) (a b : Z) : list A :=
  let len := Z.of_nat (List.length xs) in
  let lo := clamp_index len a in
  let hi := clamp_index len b in
  firstn (Z.to_nat (hi - lo)) (skipn (Z.to_nat lo) xs).

(** [max(a, b, c)] on numbers: the first maximal argument wins. *)
Definition Qltb (a b : Q) : bool := negb (Qle_bool b a).

Definition max3 (a b c : Q) : Q :=
  let m := if Qltb a b then b else a in
  if Qltb m c then c else m.

End Py.

(* ================================================================== *)
(** ** The latent-size resolver (lines 14-25) *)
(* ================================================================== *)

Module Resolver.

Local Open Scope Z_scope.

(** The text printed when the size is corrected. *)
Definition warning (w h : Z) : string :=
  ("Warning: The image dimensions need to be divisible by 16px. "
     ++ "Changing size to " ++ Py.str w ++ "x" ++ Py.str h ++ ".")%string.

(** [((d + 15) // 16) * 16] *)
Definition round16 (d : Z) : Z := ((d + 15) / 16) * 16.

(** Equality of two integer pairs, as [(h, w) != image_size] tests it. *)
Definition pair_eqb (p q : Z * Z) : bool :=
  (fst p =? fst q) && (snd p =? snd q).

(** [to_latent_size(image_size)]: the returned pair and the lines it
    prints. *)
Definition to_latent_size (image_size : Z * Z) : (Z * Z) * list string :=
  let '(w, h) := image_size in
  let h := round16 h in
  let w := round16 w in
  let printed :=
    if negb (pair_eqb (h, w) image_size) then [warning w h] else [] in
  ((h / 8, w / 8), printed).

End Resolver.

(* ================================================================== *)
(** ** Arrays: a shape and an element for every index *)
(* ================================================================== *)

Module Tensor.

Record tensor (A : Type) : Type :=
  mk { shape : list nat; get : list nat -> A }.

Arguments mk {A} _ _.
Arguments shape {A} _.
Arguments get {A} _ _.

(** Number of elements of an array of shape [sh]. *)
Definition size (sh : list nat) : nat := fold_right Nat.mul 1%nat sh.

(** Row-major position of an index, and the index at a position. *)
Fixpoint ravel (sh idx : list nat) : nat :=
  match sh, idx with
  | _ :: sh', i :: idx' => i * size sh' + ravel sh' idx'
  | _, _ => 0
  end.

Fixpoint unravel (sh : list nat) (k : nat) : list nat :=
  match sh with
  | [] => []
  | _ :: sh' => (k / size sh') :: unravel sh' (k mod size sh')
  end.

(** [idx] is a valid index of an array of shape [sh]. *)
Fixpoint in_bounds (sh idx : list nat) : Prop :=
  match sh, idx with
  | [], [] => True
  | d :: sh', i :: idx' => i < d /\ in_bounds sh' idx'
  | _, _ => False
  end.

Section Ops.
Context {A : Type}.

(** Elementwise map, for [(x * 255).astype(mx.uint8)]. *)
Definition tmap {B : Type} (f : A -> B) (t : tensor A) : tensor B :=
  mk (shape t) (fun idx => f (get t idx)).

(** [x[i]] on the first axis. *)
Definition row (t : tensor A) (i : nat) : tensor A :=
  mk (tl (shape t)) (fun idx => get t (i :: idx)).

(** The shape a reshape request resolves to on an array of [n]
    elements: one [-1] is inferred, the element count must be kept.
    The library gives no meaning to dimensions below [-1]; they are
    refused here. *)
Definition infer_shape (requested : list Z) (n : Z) : option (list Z) :=
  let known :=
    fold_right Z.mul 1%Z
               (filter (fun d => negb (d =? -1)%Z) requested) in
  match count_occ Z.eq_dec requested (-1)%Z with
  | O => Some requested
  | S O =>
      if (0 <? known)%Z
      then Some (map (fun d => if (d =? -1)%Z then (n / known)%Z else d)
                     requested)
      else None
  | _ => None
  end.

Definition reshape_shape (requested : list Z) (n : nat)
  : option (list nat) :=
  if existsb (fun d => (d <? -1)%Z) requested then None
  else match infer_shape requested (Z.of_nat n) with
       | Some sh =>
           if (fold_right Z.mul 1%Z sh =? Z.of_nat n)%Z
           then Some (map Z.to_nat sh) else None
       | None => None
       end.

(** [x.reshape(requested)]: the row-major order of the elements is
    kept; [None] when the request does not fit. *)
Definition reshape (requested : list Z) (t : tensor A)
  : option (tensor A) :=
  match reshape_shape requested (size (shape t)) with
  | Some sh =>
      Some (mk sh (fun idx => get t (unravel (shape t) (ravel sh idx))))
  | None => None
  end.

(** Position of axis [j] in the permutation [axes]. *)
Fixpoint axis_pos (j : nat) (axes : list nat) : nat :=
  match axes with
  | [] => 0
  | a :: rest => if Nat.eqb a j then 0 else S (axis_pos j rest)
  end.

(** [x.transpose(axes)]: axis [i] of the result is axis [axes[i]] of
    [x]. *)
Definition transpose (axes : list nat) (t : tensor A) : tensor A :=
  mk (map (fun a => nth a (shape t) 0) axes)
     (fun idx =>
        get t (map (fun j => nth (axis_pos j axes) idx 0)
                   (seq 0 (List.length axes)))).

(** Where an index of the padded array lies in the original one, if it
    does. *)
Fixpoint unpad_index (sh : list nat) (widths : list (nat * nat))
         (idx : list nat) : option (list nat) :=
  match sh, widths, idx with
  | [], [], [] => Some []
  | d :: sh', (lo, _) :: widths', i :: idx' =>
      if (lo <=? i) && (i <? lo + d)
      then option_map (cons (i - lo)) (unpad_index sh' widths' idx')
      else None
  | _, _, _ => None
  end.

(** [mx.pad(x, widths)] with the constant [fill]. *)
Definition pad (fill : A) (widths : list (nat * nat)) (t : tensor A)
  : tensor A :=
  mk (map (fun dw => fst (snd dw) + fst dw + snd (snd dw))
          (combine (shape t) widths))
     (fun idx =>
        match unpad_index (shape t) widths idx with
        | Some j => get t j
        | None => fill
        end).

End Ops.

End Tensor.

(* ================================================================== *)
(** ** The orchestrator (the [__main__] block, lines 42-154) *)
(* ================================================================== *)

Module Orchestrator.

Import Tensor.

(** The exceptions the block can end with. *)
Inductive exn : Type :=
| StopIteration
| NameError (var : string)
| ValueError (msg : string)
| TypeError (msg : string)
| ZeroDivisionError.

(** The parsed command line, as far as the block itself reads it; the
    prompts, the seed, the guidance settings and the model paths only
    travel on to the pipeline. *)
Record args : Type := {
  n_images : Z;
  image_size : Z * Z;
  steps : Z;
  n_rows : Z;
  decoding_batch_size : Z;
  preload_models : bool;
  output : string;
  save_raw : bool;
  verbose : bool
}.

(** What the block measures. *)
Record telemetry : Type := {
  peak_mem_conditioning : Q;
  peak_mem_generation : Q;
  peak_mem_decoding : Q;
  peak_mem_overall : Q;
  elapsed_time : Z
}.

(** [bytes / 1024**3] *)
Definition GB (bytes : Z) : Q := Qmake bytes (2 ^ 30)%positive.

Section Run.

(** One image's latent, a decoded pixel value, the value [0] that
    [mx.pad] fills with, and [(v * 255).astype(mx.uint8)]. *)
Variable L : Type.
Variable px : Type.
Variable px0 : px.
Variable quantize : px -> Z.

(** The shape (height, width, channels) of the images the pipeline
    decodes to; an image is indexed by [[y; x; c]]. *)
Variables img_h img_w img_c : nat.

Definition image : Type := list nat -> px.

(** [chroma.decode(latent_batch, latent_size)]. *)
Variable decode : list L -> Z * Z -> list image.

(** [Image.fromarray(np.array(x))] followed by [im.save(name)] on a
    quantized array: PIL refuses some arrays (a TypeError) and some
    file names (a ValueError); [None] when the file is written, else
    the exception raised. *)
Variable pil_save : string -> tensor Z -> option exn.

(** A batch of images seen as the array of shape (B, H, W, C). *)
Definition as_tensor (imgs : list image) : tensor px :=
  mk [List.length imgs; img_h; img_w; img_c]
     (fun idx =>
        match idx with
        | b :: rest => nth b imgs (fun _ => px0) rest
        | [] => px0
        end).

(** The tile the grid is described to hold for an image: the image with
    a border of 4 pixels of [px0] on each side of its height and of its
    width.  Written from the description, to be compared with what
    [mx.pad] and the reshapes produce. *)
Definition padded_image (img : image) : image :=
  fun idx =>
    match idx with
    | [y; x; c] =>
        if (4 <=? y) && (y <? 4 + img_h) && (4 <=? x) && (x <? 4 + img_w)
        then img [y - 4; x - 4; c]
        else px0
    | _ => px0
    end.

Inductive evaluated : Type :=
| Latent (x : list L)
| Pixels (imgs : list image).

(** The observable steps of a run, in the order they happen. *)
Inductive event : Type :=
| EvPrint (line : string)
| EvPipeline
| EvEnsureLoaded
| EvGenerate (n num_steps : Z) (latent_size : Z * Z)
| EvNext (item : list L)
| EvEval (v : evaluated)
| EvGetPeak
| EvResetPeak
| EvDelT5
| EvDelFlow
| EvPerfCounter
| EvDecode (batch : list L)
| EvSave (name : string) (im : tensor Z)
| EvReport (t : telemetry).

(** The time every step takes, and the counter [mx.get_peak_memory()]
    reads after a given history. *)
Variable dur : event -> Z.
Variable peak_memory : list event -> Z.

(** The items the generator [latents] has still to yield, and the
    history so far. *)
Record world : Type := {
  latents : list (list L);
  trace : list event
}.

Definition M (X : Type) : Type := world -> (exn + X) * world.

Definition ret {X} (x : X) : M X := fun w => (inr x, w).

Definition bind {X Y} (m : M X) (k : X -> M Y) : M Y :=
  fun w =>
    match m w with
    | (inl e, w') => (inl e, w')
    | (inr x, w') => k x w'
    end.

Definition raise {X} (e : exn) : M X := fun w => (inl e, w).

(** The world after further events. *)
Definition extend (w : world) (evs : list event) : world :=
  {| latents := latents w; trace := trace w ++ evs |}.

Definition emit (e : event) : M unit := fun w => (inr tt, extend w [e]).

Definition lift {X} (msg : string) (o : option X) : M X :=
  match o with
  | Some x => ret x
  | None => raise (ValueError msg)
  end.

Notation "x <- m ;; k" := (bind m (fun x => k))
  (at level 100, m at next level, right associativity).
Notation "m ;; k" := (bind m (fun _ => k))
  (at level 100, right associativity).

(** [next(latents)] *)
Definition next_latents : M (list L) :=
  fun w =>
    match latents w with
    | [] => (inl StopIteration, w)
    | x :: rest =>
        (inr x, {| latents := rest; trace := trace w ++ [EvNext x] |})
    end.

Definition mx_eval (v : evaluated) : M unit := emit (EvEval v).

(** [mx.get_peak_memory() / 1024**3] *)
Definition get_peak_memory : M Q :=
  fun w =>
    (inr (GB (peak_memory (trace w))), extend w [EvGetPeak]).

(** The clock after a history, and [time.perf_counter()]. *)
Definition clock (tr : list event) : Z :=
  fold_right (fun e t => (dur e + t)%Z) 0%Z tr.

Definition perf_counter : M Z :=
  fun w =>
    (inr (clock (trace w)), extend w [EvPerfCounter]).

Fixpoint prints (lines : list string) : M unit :=
  match lines with
  | [] => ret tt
  | l :: rest => emit (EvPrint l) ;; prints rest
  end.

(** [for x_t in tqdm(latents, total=args.steps): mx.eval(x_t)]: the
    loop runs until the generator is exhausted ([pending] is what it
    has still to yield); [x_t] stays unbound when the body never ran. *)
Fixpoint for_latents (pending : list (list L)) (x_t : option (list L))
  : M (option (list L)) :=
  match pending with
  | [] => ret x_t
  | _ :: rest =>
      x <- next_latents ;;
      mx_eval (Latent x) ;;
      for_latents rest (Some x)
  end.

Definition denoising_loop : M (option (list L)) :=
  fun w => for_latents (latents w) None w.

(** The body of the decoding loop over the start indices [starts]. *)
Fixpoint decode_loop (x_t : option (list L)) (latent_size : Z * Z)
         (batch_size : Z) (starts : list Z)
         (decoded : list (list image)) : M (list (list image)) :=
  match starts with
  | [] => ret decoded
  | i :: rest =>
      match x_t with
      | None => raise (NameError "x_t")
      | Some x =>
          let batch := Py.slice x i (i + batch_size) in
          emit (EvDecode batch) ;;
          let d := decode batch latent_size in
          mx_eval (Pixels d) ;;
          decode_loop x_t latent_size batch_size rest (decoded ++ [d])
      end
  end.

(** [mx.concatenate(decoded, axis=0)] *)
Definition concatenate (parts : list (list image)) : M (list image) :=
  match parts with
  | [] => raise (ValueError "[concatenate] no arrays")
  | _ => ret (List.concat parts)
  end.

(** [im = Image.fromarray(np.array(x)); im.save(name)]: the file is
    written, an [EvSave], unless PIL raises. *)
Definition save_image (name : string) (x : tensor Z) : M unit :=
  match pil_save name x with
  | Some e => raise e
  | None => emit (EvSave name x)
  end.

(** The file name of image [i] in raw mode. *)
Definition raw_name (name suffix : string) (i : nat) : string :=
  Py.join "." [name; Py.str (Z.of_nat i); suffix].

Fixpoint save_each (name suffix : string) (x : tensor Z)
         (indices : list nat) : M unit :=
  match indices with
  | [] => ret tt
  | i :: rest =>
      save_image (raw_name name suffix i) (row x i) ;;
      save_each name suffix x rest
  end.

(** Lines 127-133. *)
Definition save_raw_files (out : string) (decoded : list (list image))
  : M unit :=
  match Py.unpack_star_last (Py.split "." out) with
  | None => raise (ValueError "not enough values to unpack")
  | Some (name, suffix) =>
      let name := Py.join "." name in
      imgs <- concatenate decoded ;;
      let x := tmap quantize (as_tensor imgs) in
      save_each name suffix x (seq 0 (hd 0 (shape x)))
  end.

(** Lines 137-141 on the concatenated batch: pad, split the batch
    axis into rows and columns, interleave, merge, quantize. *)
Definition grid (rows : Z) (imgs : list image) : exn + tensor Z :=
  let x := pad px0 [(0, 0); (4, 4); (4, 4); (0, 0)] (as_tensor imgs) in
  match shape x with
  | [B; H; W; C] =>
      if (rows =? 0)%Z then inl ZeroDivisionError
      else
        let cols := (Z.of_nat B / rows)%Z in
        match reshape [rows; cols; Z.of_nat H; Z.of_nat W; Z.of_nat C] x
        with
        | None => inl (ValueError "[reshape]")
        | Some x1 =>
            let x2 := transpose [0; 2; 1; 3; 4] x1 in
            match reshape [(rows * Z.of_nat H)%Z;
                           (cols * Z.of_nat W)%Z; Z.of_nat C] x2
            with
            | None => inl (ValueError "[reshape]")
            | Some x3 => inr (tmap quantize x3)
            end
      end
  | _ => inl (ValueError "not enough values to unpack")
  end.

(** Lines 136-145. *)
Definition save_grid (rows : Z) (out : string)
           (decoded : list (list image)) : M unit :=
  imgs <- concatenate decoded ;;
  match grid rows imgs with
  | inl e => raise e
  | inr x => save_image out x
  end.

(** Lines 96-108: the conditioning pull with its bookkeeping, the
    start of the timer, the denoising loop.  Returns the conditioning
    peak, the start time and the last latent, if any. *)
Definition controller : M (Q * Z * option (list L)) :=
  conditioning <- next_latents ;;
  mx_eval (Latent conditioning) ;;
  cond_peak <- get_peak_memory ;;
  emit EvResetPeak ;;
  emit EvDelT5 ;;
  start <- perf_counter ;;
  x_t <- denoising_loop ;;
  ret (cond_peak, start, x_t).

(** Lines 117-120. *)
Definition decoding (a : args) (latent_size : Z * Z)
           (x_t : option (list L)) : M (list (list image)) :=
  starts <- lift "range() arg 3 must not be zero"
                 (Py.range 0 (n_images a) (decoding_batch_size a)) ;;
  decode_loop x_t latent_size (decoding_batch_size a) starts [].

(** Lines 126-145. *)
Definition save_output (a : args) (decoded : list (list image))
  : M unit :=
  if save_raw a then save_raw_files (output a) decoded
  else save_grid (n_rows a) (output a) decoded.

(** The block, from the first print to the report. *)
Definition main (a : args) : M telemetry :=
  emit (EvPrint (Py.str (n_images a))) ;;
  emit EvPipeline ;;
  (if preload_models a then emit EvEnsureLoaded else ret tt) ;;
  let (latent_size, printed) := Resolver.to_latent_size (image_size a) in
  prints printed ;;
  emit (EvGenerate (n_images a) (steps a) latent_size) ;;
  r <- controller ;;
  let '(cond_peak, start, x_t) := r in
  emit EvDelFlow ;;
  gen_peak <- get_peak_memory ;;
  emit EvResetPeak ;;
  decoded <- decoding a latent_size x_t ;;
  dec_peak <- get_peak_memory ;;
  let overall := Py.max3 cond_peak gen_peak dec_peak in
  save_output a decoded ;;
  stop <- perf_counter ;;
  let t := {| peak_mem_conditioning := cond_peak;
              peak_mem_generation := gen_peak;
              peak_mem_decoding := dec_peak;
              peak_mem_overall := overall;
              elapsed_time := (stop - start)%Z |} in
  (if verbose a then emit (EvReport t) else ret tt) ;;
  ret t.

(** The events of one pass of the denoising loop and of the decoding
    loop. *)
Definition denoise_events (x : list L) : list event :=
  [EvNext x; EvEval (Latent x)].

Definition decode_events (x : list L) (latent_size : Z * Z)
           (batch_size : Z) (i : Z) : list event :=
  let batch := Py.slice x i (i + batch_size) in
  [EvDecode batch; EvEval (Pixels (decode batch latent_size))].

(** The items a history has pulled from the generator, in order. *)
Definition pulled (tr : list event) : list (list L) :=
  flat_map (fun e => match e with
                     | EvNext x => [x]
                     | _ => []
                     end) tr.

(** The part of a history between its first two readings of
    [time.perf_counter()]: what the elapsed time covers. *)
Definition is_perf_counter (e : event) : bool :=
  match e with EvPerfCounter => true | _ => false end.

Fixpoint after_perf_counter (tr : list event) : list event :=
  match tr with
  | [] => []
  | e :: rest => if is_perf_counter e then rest
                 else after_perf_counter rest
  end.

Fixpoint until_perf_counter (tr : list event) : list event :=
  match tr with
  | [] => []
  | e :: rest => if is_perf_counter e then []
                 else e :: until_perf_counter rest
  end.

Definition timed_window (tr : list event) : list event :=
  until_perf_counter (after_perf_counter tr).

(** A history without any reading of the clock. *)
Definition quiet (tr : list event) : Prop :=
  forallb (fun e => negb (is_perf_counter e)) tr = true.

Definition is_decode (e : event) : bool :=
  match e with EvDecode _ => true | _ => false end.

Definition is_save (e : event) : bool :=
  match e with EvSave _ _ => true | _ => false end.

(** The events of the conditioning phase, lines 96-103. *)
Definition conditioning_events (conditioning : list L) : list event :=
  [EvNext conditioning; EvEval (Latent conditioning);
   EvGetPeak; EvResetPeak; EvDelT5].

(** The events of the whole decoding loop: none when the loop does
    not run. *)
Definition decoding_events (x_t : option (list L)) (latent_size : Z * Z)
           (batch_size : Z) (starts : list Z) : list event :=
  match x_t with
  | Some x => flat_map (decode_events x latent_size batch_size) starts
  | None => []
  end.

(** The events before the conditioning pull. *)
Definition startup_events (a : args) : list event :=
  [EvPrint (Py.str (n_images a)); EvPipeline]
    ++ (if preload_models a then [EvEnsureLoaded] else [])
    ++ map EvPrint (snd (Resolver.to_latent_size (image_size a)))
    ++ [EvGenerate (n_images a) (steps a)
                   (fst (Resolver.to_latent_size (image_size a)))].

(** The saves of raw mode for a quantized batch [x]. *)
Definition raw_saves (name suffix : string) (x : tensor Z)
           (indices : list nat) : list event :=
  map (fun i => EvSave (raw_name name suffix i) (row x i)) indices.

(** Whether PIL takes a file. *)
Definition accepted (name : string) (x : tensor Z) : bool :=
  match pil_save name x with
  | None => true
  | Some _ => false
  end.

(** The images of raw mode written before PIL first refuses one, and
    the exception of that refusal, if there is one. *)
Fixpoint written (name suffix : string) (x : tensor Z)
         (indices : list nat) : list nat :=
  match indices with
  | [] => []
  | i :: rest =>
      if accepted (raw_name name suffix i) (row x i)
      then i :: written name suffix x rest
      else []
  end.

Fixpoint refusal (name suffix : string) (x : tensor Z)
         (indices : list nat) : option exn :=
  match indices with
  | [] => None
  | i :: rest =>
      match pil_save (raw_name name suffix i) (row x i) with
      | Some e => Some e
      | None => refusal name suffix x rest
      end
  end.

(** The events between the two readings of the clock in a run that
    reaches the second one. *)
Definition timed_events (rest : list (list L)) (latent_size : Z * Z)
           (batch_size : Z) (starts : list Z) (saves : list event)
  : list event :=
  flat_map denoise_events rest
    ++ [EvDelFlow; EvGetPeak; EvResetPeak]
    ++ decoding_events (last (map Some rest) None) latent_size
                       batch_size starts
    ++ [EvGetPeak]
    ++ saves.

(** A memory-tracking backend that returns one fixed value per
    phase: the first reading is [c], the second [g], any later one
    [d]. *)
Definition is_get_peak (e : event) : bool :=
  match e with EvGetPeak => true | _ => false end.

Definition fixed_phase_backend (c g d : Z) (tr : list event) : Z :=
  match List.length (filter is_get_peak tr) with
  | 0 => c
  | 1 => g
  | _ => d
  end.

(** The names of the files a history has written, in order. *)
Definition saved_names (tr : list event) : list string :=
  flat_map (fun e => match e with
                     | EvSave name _ => [name]
                     | _ => []
                     end) tr.

(** A run on a generator that yields [items]. *)
Definition run (a : args) (items : list (list L))
  : (exn + telemetry) * world :=
  main a {| latents := items; trace := [] |}.

(** Modelled from the spec: [chroma.generate_latents] is not part of
    the file; the spec describes the sequence it returns as item 0,
    the conditioning, followed by one latent estimate per denoising
    step, [num_steps] of them. *)
Definition generate_latents (conditioning : list L)
           (estimate : nat -> list L) (num_steps : nat)
  : list (list L) :=
  conditioning :: map estimate (seq 1 num_steps).

End Run.

Arguments EvPrint {L px} line.
Arguments EvPipeline {L px}.
Arguments EvEnsureLoaded {L px}.
Arguments EvGenerate {L px} n num_steps latent_size.
Arguments EvNext {L px} item.
Arguments EvEval {L px} v.
Arguments EvGetPeak {L px}.
Arguments EvResetPeak {L px}.
Arguments EvDelT5 {L px}.
Arguments EvDelFlow {L px}.
Arguments EvPerfCounter {L px}.
Arguments EvDecode {L px} batch.
Arguments EvSave {L px} name im.
Arguments EvReport {L px} t.
Arguments Latent {L px} x.
Arguments Pixels {L px} imgs.
Arguments denoise_events {L px} x.
Arguments conditioning_events {L px} conditioning.
Arguments raw_saves {L px} name suffix x indices.
Arguments startup_events {L px} a.

End Orchestrator.

(* ================================================================== *)
(** ** A small pipeline to run the block on *)
(* ================================================================== *)

Module Mock.

Import Tensor Orchestrator.

(** Latents are numbers, pixels are integers, and decoding turns the
    latent [n] into the image that is [n] everywhere; the images of
    the runs below are of one pixel and three channels. *)
Definition decode (xs : list nat) (_ : Z * Z) : list (image Z) :=
  map (fun n => fun _ : list nat => Z.of_nat n) xs.

Definition flat (n : nat) : image Z := fun _ => Z.of_nat n.

(** A stand-in for PIL with the PNG plugin only, for the arrays of
    three dimensions the script hands to it and file names without a
    directory part.  [Image.fromarray] takes a [uint8] array of shape
    (H, W, C) with 2, 3 or 4 channels and raises a TypeError on any
    other channel count, so on (H, W, 1).  [im.save] reads the format
    off the extension, the text from the last dot on unless only dots
    come before it, and raises a ValueError when it knows no format for
    it; the one it knows here is [.png], spelled in lower case. *)
Definition extension (name : string) : string :=
  match Py.unpack_star_last (Py.split "." name) with
  | Some (before, ext) =>
      if existsb (fun part => negb (String.eqb part "")) before
      then ("." ++ ext)%string
      else ""%string
  | None => ""%string
  end.

Definition pil (name : string) (x : tensor Z) : option exn :=
  match shape x with
  | [_; _; c] =>
      if (2 <=? c) && (c <=? 4) then
        if String.eqb (extension name) ".png" then None
        else Some (ValueError
                     ("unknown file extension: " ++ extension name))
      else Some (TypeError
                   ("Cannot handle this data type: (1, 1, "
                      ++ Py.str (Z.of_nat c) ++ "), |u1"))
  | _ => Some (TypeError "Cannot handle this data type")
  end.

(** A pull takes 1 tick, a decode call 5, a save 2, the rest none. *)
Definition dur (e : event nat Z) : Z :=
  match e with
  | EvNext _ => 1
  | EvDecode _ => 5
  | EvSave _ _ => 2
  | _ => 0
  end%Z.

(** Three images, two denoising steps. *)
Definition items : list (list nat) :=
  generate_latents [0; 0; 0] (fun k => [k; 10 + k; 20 + k]) 2.

Definition raw_args : args :=
  {| n_images := 3; image_size := (512, 512)%Z; steps := 2; n_rows := 1;
     decoding_batch_size := 2; preload_models := false;
     output := "result.png"; save_raw := true; verbose := true |}.

(** The run of [raw_args] with a backend reporting [c], [g] and [d]
    bytes for the three phases. *)
Definition run_raw (c g d : Z) : (exn + telemetry) * world nat Z :=
  run 0%Z (fun v => v) 1 1 3 decode pil dur (fixed_phase_backend c g d)
      raw_args items.

Definition no_telemetry : telemetry :=
  {| peak_mem_conditioning := 0; peak_mem_generation := 0;
     peak_mem_decoding := 0; peak_mem_overall := 0;
     elapsed_time := 0 |}.

Definition telemetry_of (r : (exn + telemetry) * world nat Z)
  : telemetry :=
  match fst r with
  | inr t => t
  | inl _ => no_telemetry
  end.

Definition start_world : world nat Z := {| latents := []; trace := [] |}.

(** The same three images on a grid of two rows, which three images do
    not fill, and on a grid of three rows, which they do. *)
Definition grid_args (rows : Z) : args :=
  {| n_images := 3; image_size := (512, 512)%Z; steps := 2; n_rows := rows;
     decoding_batch_size := 2; preload_models := true;
     output := "grid.png"; save_raw := false; verbose := false |}.

Definition run_grid (rows : Z) : (exn + telemetry) * world nat Z :=
  run 0%Z (fun v => v) 1 1 3 decode pil dur (fixed_phase_backend 6 15 21)
      (grid_args rows) items.

End Mock.

(* ================================================================== *)
(** ** The command-line parser of [--image-size] (line 55) *)
(* ================================================================== *)

Module Cli.

(** [s.count(c)] for a character. *)
Fixpoint count (c : ascii) (s : string) : nat :=
  match s with
  | EmptyString => 0
  | String d r => (if Ascii.eqb d c then 1 else 0) + count c r
  end.

Section Parser.

(** [int(s)] on a string; [None] is its ValueError. *)
Variable int_of : string -> option Z.

(** [tuple(map(int, parts))]: the first part that is no integer raises. *)
Fixpoint map_int (parts : list string) : option (list Z) :=
  match parts with
  | [] => Some []
  | p :: rest =>
      match int_of p with
      | None => None
      | Some z =>
          match map_int rest with
          | None => None
          | Some zs => Some (z :: zs)
          end
      end
  end.

(** [lambda x: tuple(map(int, x.split("x")))] *)
Definition parse_image_size (s : string) : option (list Z) :=
  map_int (Py.split "x" s).

End Parser.

(** [to_latent_size] on the tuple the parser returns: [w, h = image_size]
    raises a ValueError ([None]) unless the tuple has two components. *)
Definition resolve (image_size : list Z) : option ((Z * Z) * list string) :=
  match image_size with
  | [w; h] => Some (Resolver.to_latent_size (w, h))
  | _ => None
  end.

(** The size as the warning spells it, [f"{w}x{h}"]. *)
Definition size_text (w h : Z) : string :=
  (Py.str w ++ "x" ++ Py.str h)%string.

(** A reader of plain decimal numerals, to run the parser on. *)
Definition plain_int (s : string) : option Z :=
  option_map Z.of_int (NilZero.int_of_string s).

End Cli.

(* ================================================================== *)
(** ** The two helpers the block does not call (lines 28-39) *)
(* ================================================================== *)

Module Adapter.

Inductive error : Type :=
| AttributeError (attr : string)
| IndexError
| KeyError (key : string)
| IntValueError (text : string).

(** What [quantization_predicate] looks at in a module: whether it has a
    [to_quantized] attribute, and the shape of its [weight], if it has
    one. *)
Record layer : Type := {
  has_to_quantized : bool;
  weight_shape : option (list Z)
}.

(** [hasattr(m, "to_quantized") and m.weight.shape[1] % 512 == 0] *)
Definition quantization_predicate (name : string) (m : layer)
  : error + bool :=
  if has_to_quantized m then
    match weight_shape m with
    | None => inl (AttributeError "weight")
    | Some sh =>
        match nth_error sh 1 with
        | None => inl IndexError
        | Some d => inr ((d mod 512 =? 0)%Z)
        end
    end
  else inr false.

Section Load.

(** A weight array, and [int(s)] on a string ([None]: ValueError). *)
Variable W : Type.
Variable int_of : string -> option Z.

(** What [mx.load(adapter_file, return_metadata=True)] returns: the
    weights and the metadata, both in file order. *)
Record adapter : Type := {
  weights : list (string * W);
  lora_config : list (string * string)
}.

(** The calls made on the pipeline object. *)
Inductive call : Type :=
| LinearToLoraLayers (rank num_blocks : Z)
| LoadWeights (items : list (string * W)) (strict : bool)
| FuseLoraLayers.

(** [d[key]] on a dictionary given by its items. *)
Fixpoint lookup (key : string) (d : list (string * string))
  : option string :=
  match d with
  | [] => None
  | (k, v) :: rest => if String.eqb k key then Some v else lookup key rest
  end.

(** [int(lora_config[key])] *)
Definition int_field (key : string) (d : list (string * string))
  : error + Z :=
  match lookup key d with
  | None => inl (KeyError key)
  | Some text =>
      match int_of text with
      | None => inl (IntValueError text)
      | Some z => inr z
      end
  end.

(** [load_adapter(flux, adapter_file, fuse)] on the loaded file: the
    outcome and the calls made on [flux], in order. *)
Definition load_adapter (file : adapter) (fuse : bool)
  : (error + unit) * list call :=
  match int_field "lora_rank" (lora_config file) with
  | inl e => (inl e, [])
  | inr rank =>
      match int_field "lora_blocks" (lora_config file) with
      | inl e => (inl e, [])
      | inr num_blocks =>
          (inr tt,
           [LinearToLoraLayers rank num_blocks;
            LoadWeights (weights file) false]
             ++ (if fuse then [FuseLoraLayers] else []))
      end
  end.

End Load.

Arguments FuseLoraLayers {W}.
Arguments LinearToLoraLayers {W} rank num_blocks.

End Adapter.

(* ================================================================== *)
(** ** Reading a history *)
(* ================================================================== *)

Module History.

Import Tensor Orchestrator.

(** The same command line with another [--verbose]. *)
Definition with_verbose (a : args) (b : bool) : args :=
  {| n_images := n_images a; image_size := image_size a;
     steps := steps a; n_rows := n_rows a;
     decoding_batch_size := decoding_batch_size a;
     preload_models := preload_models a; output := output a;
     save_raw := save_raw a; verbose := b |}.

(** The kind of an event, without what it carries. *)
Inductive kind : Type :=
| KPrint | KPipeline | KEnsureLoaded | KGenerate | KNext | KEval
| KGetPeak | KResetPeak | KDelT5 | KDelFlow | KPerfCounter | KDecode
| KSave | KReport.

Definition kind_eqb (j k : kind) : bool :=
  match j, k with
  | KPrint, KPrint | KPipeline, KPipeline
  | KEnsureLoaded, KEnsureLoaded | KGenerate, KGenerate
  | KNext, KNext | KEval, KEval | KGetPeak, KGetPeak
  | KResetPeak, KResetPeak | KDelT5, KDelT5 | KDelFlow, KDelFlow
  | KPerfCounter, KPerfCounter | KDecode, KDecode | KSave, KSave
  | KReport, KReport => true
  | _, _ => false
  end.

Section Kinds.

Variables L px : Type.

Definition kind_of (e : event L px) : kind :=
  match e with
  | EvPrint _ => KPrint
  | EvPipeline => KPipeline
  | EvEnsureLoaded => KEnsureLoaded
  | EvGenerate _ _ _ => KGenerate
  | EvNext _ => KNext
  | EvEval _ => KEval
  | EvGetPeak => KGetPeak
  | EvResetPeak => KResetPeak
  | EvDelT5 => KDelT5
  | EvDelFlow => KDelFlow
  | EvPerfCounter => KPerfCounter
  | EvDecode _ => KDecode
  | EvSave _ _ => KSave
  | EvReport _ => KReport
  end.

(** The events of a history whose kind is among [ks], as kinds. *)
Definition select (ks : list kind) (tr : list (event L px)) : list kind :=
  filter (fun k => existsb (kind_eqb k) ks) (map kind_of tr).

(** The history up to the end of the generation phase, for a generator
    that yields [conditioning] and then [rest]. *)
Definition generated (a : args) (conditioning : list L)
           (rest : list (list L)) : list (event L px) :=
  startup_events a ++ conditioning_events conditioning
    ++ [EvPerfCounter] ++ flat_map denoise_events rest
    ++ [EvDelFlow; EvGetPeak; EvResetPeak].

(** The batches the decoding loop collects from the last latent [x_t]. *)
Definition decoded_batches (decode : list L -> Z * Z -> list (image px))
           (x_t : option (list L)) (latent_size : Z * Z) (batch_size : Z)
           (starts : list Z) : list (list (image px)) :=
  match x_t with
  | Some x =>
      map (fun i => decode (Py.slice x i (i + batch_size)) latent_size)
          starts
  | None => []
  end.

(** The measurements of a run whose decoding loop left the events
    [decodes] and whose output stage left [saves]. *)
Definition measured (dur : event L px -> Z)
           (peak_memory : list (event L px) -> Z) (a : args)
           (conditioning : list L) (rest : list (list L))
           (decodes saves : list (event L px)) : telemetry :=
  let c := GB (peak_memory
                 (startup_events a
                    ++ [EvNext conditioning; EvEval (Latent conditioning)])) in
  let g := GB (peak_memory
                 (startup_events a ++ conditioning_events conditioning
                    ++ [EvPerfCounter] ++ flat_map denoise_events rest
                    ++ [EvDelFlow])) in
  let d := GB (peak_memory (generated a conditioning rest ++ decodes)) in
  {| peak_mem_conditioning := c;
     peak_mem_generation := g;
     peak_mem_decoding := d;
     peak_mem_overall := Py.max3 c g d;
     elapsed_time :=
       (clock dur (generated a conditioning rest ++ decodes
                     ++ [EvGetPeak] ++ saves)
        - clock dur (startup_events a
                       ++ conditioning_events conditioning))%Z |}.

(** No event of the history is of kind [k]. *)
Definition free_of (k : kind) (tr : list (event L px)) : bool :=
  forallb (fun e => negb (kind_eqb (kind_of e) k)) tr.

(** The files a history has written, with their contents. *)
Definition saved_files (tr : list (event L px))
  : list (string * tensor Z) :=
  flat_map (fun e => match e with
                     | EvSave name im => [(name, im)]
                     | _ => []
                     end) tr.

End Kinds.

Arguments kind_of {L px} e.
Arguments free_of {L px} k tr.
Arguments generated {L px} a conditioning rest.
Arguments select {L px} ks tr.
Arguments saved_files {L px} tr.

End History.

(* ================================================================== *)
(** * Properties *)
(* ================================================================== *)

(** ** The resolver *)

Module ResolverFacts.

Import Resolver.
Local Open Scope Z_scope.

Lemma round16_multiple (d : Z) : (16 | round16 d).
Proof. exists ((d + 15) / 16). reflexivity. Qed.

Lemma round16_bounds (d : Z) : d <= round16 d < d + 16.
Proof. unfold round16. Z.to_euclidean_division_equations. lia. Qed.

Lemma round16_fixed (d : Z) : (16 | d) -> round16 d = d.
Proof.
  intros [q ->]. unfold round16.
  Z.to_euclidean_division_equations. lia.
Qed.

Lemma round16_fixed_inv (d : Z) : round16 d = d -> (16 | d).
Proof. intros <-. apply round16_multiple. Qed.

Lemma round16_eighth (d : Z) : 8 * (round16 d / 8) = round16 d.
Proof. unfold round16. Z.to_euclidean_division_equations. lia. Qed.

Lemma round16_eighth_pos (d : Z) : 0 < d -> 0 < round16 d / 8.
Proof. unfold round16. Z.to_euclidean_division_equations. lia. Qed.

Lemma pair_eqb_true (p q : Z * Z) : pair_eqb p q = true <-> p = q.
Proof.
  destruct p as [a b], q as [c d]. unfold pair_eqb. simpl.
  rewrite andb_true_iff, !Z.eqb_eq. split.
  - intros [-> ->]. reflexivity.
  - intros E. inversion E. auto.
Qed.

(** The returned pair, whatever is printed. *)
Lemma to_latent_size_value (w h : Z) :
  fst (to_latent_size (w, h)) = (round16 h / 8, round16 w / 8).
Proof. reflexivity. Qed.

(** The warning is printed unless the rounded (height, width) equals the
    given (width, height), i.e. unless the image is a square whose side
    is a multiple of 16. *)
Lemma to_latent_size_quiet_iff (w h : Z) :
  snd (to_latent_size (w, h)) = [] <-> (16 | w) /\ w = h.
Proof.
  unfold to_latent_size. cbn [snd].
  destruct (pair_eqb (round16 h, round16 w) (w, h)) eqn:E; cbn [negb].
  - apply pair_eqb_true in E.
    assert (Eh : round16 h = w) by exact (f_equal fst E).
    assert (Ew : round16 w = h) by exact (f_equal snd E).
    pose proof (round16_bounds h). pose proof (round16_bounds w).
    assert (Ewh : w = h) by lia.
    split; [intros _ | reflexivity].
    split; [apply round16_fixed_inv; lia | exact Ewh].
  - split; [discriminate |].
    intros [D <-]. rewrite (round16_fixed D) in E.
    assert (pair_eqb (w, w) (w, w) = true) by (apply pair_eqb_true; reflexivity).
    congruence.
Qed.

(** On sizes that need no correction but are not square the warning is
    printed all the same. *)
Lemma to_latent_size_warns_nonsquare (w h : Z) :
  (16 | w) -> (16 | h) -> w <> h ->
  to_latent_size (w, h) = ((h / 8, w / 8), [warning w h]).
Proof.
  intros Dw Dh Ne.
  assert (Q : snd (to_latent_size (w, h)) <> []).
  { rewrite to_latent_size_quiet_iff. intros [_ E]. contradiction. }
  unfold to_latent_size in *. cbn [snd] in Q.
  rewrite (round16_fixed Dw), (round16_fixed Dh) in *.
  destruct (negb (pair_eqb (h, w) (w, h))); [reflexivity | contradiction].
Qed.

(** C1, at the input (512, 256): both dimensions are multiples of 16,
    the returned latent size is (256/8, 512/8) = (32, 64), and the
    resolver prints its size-correction warning although nothing was
    corrected, because line 19 compares (h, w) with the (w, h) pair. *)
Theorem C1_multiples_of_16_still_warn :
  to_latent_size (512, 256) = ((32, 64), [warning 512 256])
  /\ (16 | 512) /\ (16 | 256).
Proof.
  split; [reflexivity |].
  split; [exists 32 | exists 16]; reflexivity.
Qed.

(** C3: for positive width and height, each dimension is rounded up to
    the nearest multiple of 16 (a multiple of 16 that is at least the
    dimension and less than 16 above it, the dimension itself when it
    is a multiple), and the result is (rounded height / 8, rounded
    width / 8), both exact quotients and both positive. *)
Theorem C3_to_latent_size_rounds_up (w h : Z) :
  0 < w -> 0 < h ->
  let rh := round16 h in
  let rw := round16 w in
  fst (to_latent_size (w, h)) = (rh / 8, rw / 8)
  /\ ((16 | rh) /\ h <= rh < h + 16)
  /\ ((16 | rw) /\ w <= rw < w + 16)
  /\ ((16 | h) -> rh = h)
  /\ ((16 | w) -> rw = w)
  /\ (8 * (rh / 8) = rh /\ 8 * (rw / 8) = rw)
  /\ (0 < rh / 8 /\ 0 < rw / 8).
Proof.
  intros Hw Hh rh rw. subst rh rw.
  repeat split;
    auto using round16_multiple, round16_fixed, round16_eighth,
               round16_eighth_pos;
    apply round16_bounds.
Qed.

Lemma C3_to_latent_size_rounds_up_witness :
  fst (to_latent_size (500, 300)) = (38, 64)
  /\ round16 300 = 304 /\ round16 500 = 512.
Proof.
  split; [| split; reflexivity].
  exact (proj1 (C3_to_latent_size_rounds_up
                  (w := 500) (h := 300) eq_refl eq_refl)).
Defined.

End ResolverFacts.

(** ** Splitting and joining on a separator *)

Module PyFacts.

Import Py.

Lemma split_nonempty (sep : ascii) (s : string) : split sep s <> [].
Proof.
  destruct s as [| c r]; cbn [split]; [discriminate |].
  destruct (Ascii.eqb c sep); [discriminate |].
  destruct (split sep r); discriminate.
Qed.

Lemma split_app (sep : ascii) (a b : string) :
  split sep (a ++ String sep b) = split sep a ++ split sep b.
Proof.
  induction a as [| c a IH]; cbn [append split].
  - rewrite Ascii.eqb_refl. reflexivity.
  - destruct (Ascii.eqb c sep).
    + rewrite IH. reflexivity.
    + rewrite IH. pose proof (split_nonempty sep a) as N.
      destruct (split sep a); [contradiction | reflexivity].
Qed.

Lemma split_without (sep : ascii) (s : string) :
  contains sep s = false -> split sep s = [s].
Proof.
  induction s as [| c r IH]; cbn [contains split]; [reflexivity |].
  intros E. apply orb_false_iff in E as [E1 E2].
  rewrite E1, (IH E2). reflexivity.
Qed.

Lemma join_split (sep : ascii) (s : string) :
  join (String sep EmptyString) (split sep s) = s.
Proof.
  unfold join. induction s as [| c r IH]; cbn [split]; [reflexivity |].
  pose proof (split_nonempty sep r) as N.
  destruct (Ascii.eqb_spec c sep) as [-> | _].
  - destruct (split sep r) as [| h t]; [contradiction |].
    cbn [String.concat] in *. rewrite IH. reflexivity.
  - destruct (split sep r) as [| h t]; [contradiction |].
    cbn [String.concat] in *.
    destruct t; [rewrite IH; reflexivity |].
    rewrite <- IH. reflexivity.
Qed.

Lemma unpack_star_last_snoc {A} (xs : list A) (x : A) :
  unpack_star_last (xs ++ [x]) = Some (xs, x).
Proof.
  unfold unpack_star_last. rewrite rev_app_distr. cbn [rev app].
  rewrite rev_involutive. reflexivity.
Qed.

(** [*name, suffix = out.split(".")] on a path with an extension. *)
Lemma unpack_with_extension (base ext : string) :
  contains "." ext = false ->
  unpack_star_last (split "." (base ++ String "." ext))
  = Some (split "." base, ext).
Proof.
  intros E. rewrite split_app, (split_without _ _ E).
  apply unpack_star_last_snoc.
Qed.

(** The same on a path without any dot. *)
Lemma unpack_without_dot (out : string) :
  contains "." out = false ->
  unpack_star_last (split "." out) = Some ([], out).
Proof. intros E. rewrite (split_without _ _ E). reflexivity. Qed.

(** [max] of three numbers. *)







End PyFacts.

(** ** Ranges and slices *)

Module RangeFacts.

Import Py.

(** Cutting a list into [m] pieces of [b] elements loses nothing when
    [m * b] reaches its length. *)
Lemma pieces_concat {A} (b : nat) :
  forall (m : nat) (xs : list A),
    List.length xs <= m * b ->
    List.concat (map (fun j => firstn b (skipn (j * b) xs)) (seq 0 m)) = xs.
Proof.
  induction m as [| m IH]; intros xs Hlen.
  - destruct xs; [reflexivity | simpl in Hlen; lia].
  - cbn [seq]. rewrite <- seq_shift. cbn [map List.concat]. rewrite map_map.
    rewrite Nat.mul_0_l. cbn [skipn].
    transitivity (firstn b xs ++ skipn b xs); [| apply firstn_skipn].
    f_equal.
    assert (Hrest : List.length (skipn b xs) <= m * b)
      by (rewrite length_skipn; simpl in Hlen; lia).
    rewrite <- (IH _ Hrest) at 1.
    f_equal. apply map_ext. intros j.
    rewrite skipn_skipn. do 2 f_equal. lia.
Qed.

Lemma piece_length {A} (b j : nat) (xs : list A) :
  List.length (firstn b (skipn (j * b) xs))
  = Nat.min b (List.length xs - j * b).
Proof. rewrite length_firstn, length_skipn. reflexivity. Qed.

(** A slice with a non-negative start and a positive width. *)
Lemma slice_window {A} (xs : list A) (i width : Z) :
  (0 <= i)%Z -> (0 < width)%Z ->
  slice xs i (i + width)
  = firstn (Z.to_nat width) (skipn (Z.to_nat i) xs).
Proof.
  intros Hi Hw. unfold slice, clamp_index.
  destruct (Z.ltb_spec i 0); [lia |].
  destruct (Z.ltb_spec (i + width) 0); [lia |].
  set (len := List.length xs).
  destruct (Z.le_gt_cases i (Z.of_nat len)) as [Le | Gt].
  - rewrite (Z.min_l i) by lia.
    assert (E : Z.to_nat (Z.min (i + width) (Z.of_nat len) - i)
                = Nat.min (Z.to_nat width)
                          (List.length (skipn (Z.to_nat i) xs))).
    { rewrite length_skipn. fold len. lia. }
    rewrite E, <- firstn_firstn, firstn_all. reflexivity.
  - rewrite (Z.min_r i) by lia. rewrite (Z.min_r (i + width)) by lia.
    rewrite Z.sub_diag. cbn [Z.to_nat firstn].
    rewrite (skipn_all2 xs) by (fold len; lia).
    rewrite firstn_nil. reflexivity.
Qed.

(** [range(0, n, step)] for positive arguments. *)
Lemma range_positive (n step : Z) :
  (1 <= n)%Z -> (1 <= step)%Z ->
  range 0 n step
  = Some (map (fun j => (Z.of_nat j * step)%Z)
              (seq 0 (Z.to_nat ((n - 1) / step + 1)))).
Proof.
  intros Hn Hs. unfold range, range_len.
  destruct (Z.eqb_spec step 0); [lia |].
  destruct (Z.ltb_spec 0 step); [| lia].
  destruct (Z.ltb_spec 0 n); [| lia].
  rewrite Z.sub_0_r. reflexivity.
Qed.

Lemma chunk_count_covers (n step : Z) :
  (1 <= n)%Z -> (1 <= step)%Z ->
  (n <= ((n - 1) / step + 1) * step)%Z /\ (1 <= (n - 1) / step + 1)%Z.
Proof. intros Hn Hs. Z.to_euclidean_division_equations. nia. Qed.

Lemma chunk_start_inside (n step j : Z) :
  (1 <= n)%Z -> (1 <= step)%Z ->
  (0 <= j < (n - 1) / step + 1)%Z -> (j * step <= n - 1)%Z.
Proof.
  intros Hn Hs Hj.
  assert (Hq : (j <= (n - 1) / step)%Z) by lia.
  pose proof (Z.mul_div_le (n - 1) step ltac:(lia)).
  nia.
Qed.

Lemma chunk_count_single (n step : Z) :
  (1 <= n)%Z -> (n <= step)%Z -> ((n - 1) / step + 1 = 1)%Z.
Proof. intros Hn Hs. rewrite Z.div_small; lia. Qed.

End RangeFacts.

(** ** Arrays *)

Module TensorFacts.

Import Tensor.

Lemma ravel_lt (sh : list nat) :
  forall idx, in_bounds sh idx -> ravel sh idx < size sh.
Proof.
  induction sh as [| d sh IH]; intros [| i idx] Hb; cbn in *;
    try contradiction; [lia |].
  destruct Hb as [Hi Hb]. specialize (IH idx Hb).
  change (fold_right Nat.mul 1 sh) with (size sh). nia.
Qed.

Lemma unravel_ravel (sh : list nat) :
  forall idx, in_bounds sh idx -> unravel sh (ravel sh idx) = idx.
Proof.
  induction sh as [| d sh IH]; intros [| i idx] Hb; cbn [in_bounds] in *;
    try contradiction; [reflexivity |].
  destruct Hb as [Hi Hb]. pose proof (ravel_lt sh idx Hb) as Hlt.
  cbn [ravel unravel].
  assert (Hq : (i * size sh + ravel sh idx) / size sh = i).
  { symmetry. apply (Nat.div_unique _ _ _ (ravel sh idx)); lia. }
  assert (Hr : (i * size sh + ravel sh idx) mod size sh = ravel sh idx).
  { symmetry. apply (Nat.mod_unique _ _ i); lia. }
  rewrite Hq, Hr, (IH idx Hb). reflexivity.
Qed.

Lemma no_dim_below_minus_one (sh : list nat) :
  existsb (fun d => (d <? -1)%Z) (map Z.of_nat sh) = false.
Proof.
  induction sh as [| d sh IH]; [reflexivity |].
  cbn [map existsb]. rewrite IH.
  destruct (Z.ltb_spec (Z.of_nat d) (-1)); [lia | reflexivity].
Qed.

Lemma no_dim_to_infer (sh : list nat) :
  count_occ Z.eq_dec (map Z.of_nat sh) (-1)%Z = 0.
Proof.
  induction sh as [| d sh IH]; [reflexivity |].
  cbn [map count_occ].
  destruct (Z.eq_dec (Z.of_nat d) (-1)); [lia | exact IH].
Qed.

Lemma product_of_nat (sh : list nat) :
  fold_right Z.mul 1%Z (map Z.of_nat sh) = Z.of_nat (size sh).
Proof.
  induction sh as [| d sh IH]; [reflexivity |].
  cbn [map fold_right size]. rewrite IH.
  change (fold_right Nat.mul 1 sh) with (size sh). lia.
Qed.

(** A request without negative dimensions is accepted exactly when it
    keeps the number of elements. *)
Lemma reshape_shape_nat (sh : list nat) (n : nat) :
  reshape_shape (map Z.of_nat sh) n
  = if size sh =? n then Some sh else None.
Proof.
  unfold reshape_shape, infer_shape.
  rewrite no_dim_below_minus_one, no_dim_to_infer, product_of_nat.
  destruct (Nat.eqb_spec (size sh) n) as [E | N].
  - rewrite E, Z.eqb_refl, map_map. f_equal.
    rewrite <- (map_id sh) at 2. apply map_ext. intros d. apply Nat2Z.id.
  - destruct (Z.eqb_spec (Z.of_nat (size sh)) (Z.of_nat n)); [lia |].
    reflexivity.
Qed.

Lemma reshape_nat {A} (sh : list nat) (t : tensor A) :
  size sh = size (shape t) ->
  reshape (map Z.of_nat sh) t
  = Some (mk sh (fun idx => get t (unravel (shape t) (ravel sh idx)))).
Proof.
  intros E. unfold reshape. rewrite reshape_shape_nat, E, Nat.eqb_refl.
  reflexivity.
Qed.

Lemma reshape_nat_mismatch {A} (sh : list nat) (t : tensor A) :
  size sh <> size (shape t) -> reshape (map Z.of_nat sh) t = None.
Proof.
  intros N. unfold reshape. rewrite reshape_shape_nat.
  destruct (Nat.eqb_spec (size sh) (size (shape t))); [contradiction |].
  reflexivity.
Qed.

End TensorFacts.

(** ** The orchestrator *)

Module OrchestratorFacts.

Import Tensor Orchestrator.

Section Facts.

Variables (L px : Type) (px0 : px) (quantize : px -> Z).
Variables img_h img_w img_c : nat.
Variable decode : list L -> Z * Z -> list (image px).
Variable pil_save : string -> tensor Z -> option exn.
Variable dur : event L px -> Z.
Variable peak_memory : list (event L px) -> Z.

Implicit Type w : world L px.

Lemma extend_nil w : extend w [] = w.
Proof. destruct w. unfold extend. cbn. rewrite app_nil_r. reflexivity. Qed.

Lemma extend_extend w (a b : list (event L px)) :
  extend (extend w a) b = extend w (a ++ b).
Proof. unfold extend. cbn. rewrite app_assoc. reflexivity. Qed.

(** *** The decoding loop *)

Lemma decode_loop_bound (x : list L) (ls : Z * Z) (bs : Z) :
  forall (starts : list Z) (acc : list (list (image px))) w,
    decode_loop decode (Some x) ls bs starts acc w
    = (inr (acc ++ map (fun i => decode (Py.slice x i (i + bs)) ls) starts),
       extend w (flat_map (decode_events decode x ls bs) starts)).
Proof.
  induction starts as [| i rest IH]; intros acc w.
  - cbn. rewrite app_nil_r, extend_nil. reflexivity.
  - cbn [decode_loop]. unfold bind, mx_eval, emit.
    rewrite IH, !extend_extend, <- app_assoc. reflexivity.
Qed.

Lemma decode_loop_unbound (ls : Z * Z) (bs : Z) (i : Z)
      (rest : list Z) (acc : list (list (image px))) w :
  decode_loop decode None ls bs (i :: rest) acc w
  = (inl (NameError "x_t"), w).
Proof. reflexivity. Qed.

(** *** The output stage *)

Lemma save_each_outcome (name suffix : string) (x : tensor Z) :
  forall (indices : list nat) w,
    save_each pil_save name suffix x indices w
    = (match refusal pil_save name suffix x indices with
       | Some e => inl e
       | None => inr tt
       end,
       extend w (raw_saves name suffix x
                           (written pil_save name suffix x indices))).
Proof.
  induction indices as [| i rest IH]; intros w.
  - cbn. rewrite extend_nil. reflexivity.
  - cbn [save_each refusal written]. unfold bind, save_image, accepted.
    destruct (pil_save (raw_name name suffix i) (row x i)) as [e |].
    + unfold raise. cbn [raw_saves map]. rewrite extend_nil. reflexivity.
    + unfold emit. rewrite IH, extend_extend. reflexivity.
Qed.

Lemma refusal_none_written (name suffix : string) (x : tensor Z) :
  forall indices,
    refusal pil_save name suffix x indices = None ->
    written pil_save name suffix x indices = indices.
Proof.
  induction indices as [| i rest IH]; [reflexivity |].
  cbn [refusal written]. unfold accepted.
  destruct (pil_save (raw_name name suffix i) (row x i));
    [discriminate |].
  intros H. rewrite (IH H). reflexivity.
Qed.

Lemma accepted_never_refused (name suffix : string) (x : tensor Z) :
  forall indices,
    (forall i, In i indices ->
               pil_save (raw_name name suffix i) (row x i) = None) ->
    refusal pil_save name suffix x indices = None.
Proof.
  induction indices as [| i rest IH]; intros Hall; [reflexivity |].
  cbn [refusal]. rewrite (Hall i) by (left; reflexivity).
  apply IH. intros j Hj. apply Hall. right. exact Hj.
Qed.

Lemma refusal_some (name suffix : string) (x : tensor Z) (e : exn) :
  forall indices,
    refusal pil_save name suffix x indices = Some e ->
    exists i,
      In i indices /\ pil_save (raw_name name suffix i) (row x i) = Some e.
Proof.
  induction indices as [| i rest IH]; [discriminate |].
  cbn [refusal].
  destruct (pil_save (raw_name name suffix i) (row x i)) as [e' |] eqn:E.
  - intros [= ->]. exists i. split; [left; reflexivity | exact E].
  - intros H. destruct (IH H) as (j & Hj & Ej).
    exists j. split; [right; exact Hj | exact Ej].
Qed.

(** What is written before a refusal is an initial stretch of the
    batch, and the whole batch exactly when nothing is refused. *)
Lemma written_seq (name suffix : string) (x : tensor Z) :
  forall n s,
    exists k,
      written pil_save name suffix x (seq s n) = seq s k
      /\ k <= n
      /\ (refusal pil_save name suffix x (seq s n) = None <-> k = n).
Proof.
  induction n as [| n IH]; intros s.
  - exists 0. repeat split; reflexivity.
  - cbn [seq refusal written]. unfold accepted.
    destruct (pil_save (raw_name name suffix s) (row x s)) as [e |].
    + exists 0. split; [reflexivity |]. split; [lia |].
      split; [discriminate | lia].
    + destruct (IH (S s)) as (k & Hk & Hle & Hiff).
      exists (S k). rewrite Hk. split; [reflexivity |].
      split; [lia |]. rewrite Hiff. lia.
Qed.

(** The raw branch on a batch that is not empty, whatever PIL does. *)
Lemma save_raw_files_outcome (out : string) (parts : list string)
      (suffix : string) (decoded : list (list (image px))) w :
  Py.unpack_star_last (Py.split "." out) = Some (parts, suffix) ->
  decoded <> [] ->
  let name := Py.join "." parts in
  let x := tmap quantize
                (as_tensor px0 img_h img_w img_c (List.concat decoded)) in
  let indices := seq 0 (List.length (List.concat decoded)) in
  save_raw_files px0 quantize img_h img_w img_c pil_save out decoded w
  = (match refusal pil_save name suffix x indices with
     | Some e => inl e
     | None => inr tt
     end,
     extend w (raw_saves name suffix x
                         (written pil_save name suffix x indices))).
Proof.
  intros Hsplit Hne. cbv zeta. unfold save_raw_files. rewrite Hsplit.
  unfold bind, concatenate.
  destruct decoded as [| d rest]; [contradiction |].
  unfold ret. rewrite save_each_outcome. reflexivity.
Qed.

(** The raw branch when PIL takes every file. *)
Lemma save_raw_files_trace (out : string) (parts : list string)
      (suffix : string) (decoded : list (list (image px))) w :
  Py.unpack_star_last (Py.split "." out) = Some (parts, suffix) ->
  decoded <> [] ->
  (forall i,
      i < List.length (List.concat decoded) ->
      pil_save (raw_name (Py.join "." parts) suffix i)
               (row (tmap quantize
                          (as_tensor px0 img_h img_w img_c
                                     (List.concat decoded))) i)
      = None) ->
  save_raw_files px0 quantize img_h img_w img_c pil_save out decoded w
  = (inr tt,
     extend w
       (raw_saves (Py.join "." parts) suffix
          (tmap quantize
                (as_tensor px0 img_h img_w img_c (List.concat decoded)))
          (seq 0 (List.length (List.concat decoded))))).
Proof.
  intros Hsplit Hne Hall.
  rewrite (save_raw_files_outcome _ w Hsplit Hne). cbv zeta.
  assert (Hnone :
            refusal pil_save (Py.join "." parts) suffix
              (tmap quantize
                    (as_tensor px0 img_h img_w img_c (List.concat decoded)))
              (seq 0 (List.length (List.concat decoded))) = None).
  { apply accepted_never_refused. intros i Hi.
    apply in_seq in Hi. apply Hall. lia. }
  rewrite Hnone, (refusal_none_written _ _ _ _ Hnone). reflexivity.
Qed.

Lemma save_raw_files_empty (out : string) w :
  exists e,
    save_raw_files (L := L) px0 quantize img_h img_w img_c pil_save out [] w
    = (inl e, w).
Proof.
  unfold save_raw_files.
  destruct (Py.unpack_star_last (Py.split "." out)) as [[parts suffix] |];
    eexists; reflexivity.
Qed.

Lemma saved_names_app (a b : list (event L px)) :
  saved_names (a ++ b) = saved_names a ++ saved_names b.
Proof. apply flat_map_app. Qed.

Lemma saved_names_raw_saves (name suffix : string) (x : tensor Z)
      (indices : list nat) :
  saved_names (raw_saves (L := L) (px := px) name suffix x indices)
  = map (raw_name name suffix) indices.
Proof.
  induction indices as [| i rest IH]; [reflexivity |].
  cbn. f_equal. exact IH.
Qed.

Lemma raw_name_spelled (name suffix : string) (i : nat) :
  raw_name name suffix i
  = (name ++ "." ++ Py.str (Z.of_nat i) ++ "." ++ suffix)%string.
Proof. reflexivity. Qed.

(** The names of raw mode, whatever PIL does: image [i] is handed to
    PIL under [raw_name name suffix i]; the files written are those of
    the images before the first one PIL refuses. *)
Lemma raw_files_named (out : string) (parts : list string)
      (suffix : string) (decoded : list (list (image px))) w :
  Py.unpack_star_last (Py.split "." out) = Some (parts, suffix) ->
  decoded <> [] ->
  let n := List.length (List.concat decoded) in
  let name := raw_name (Py.join "." parts) suffix in
  let x := tmap quantize
                (as_tensor px0 img_h img_w img_c (List.concat decoded)) in
  exists outcome w' k,
    save_raw_files px0 quantize img_h img_w img_c pil_save out decoded w
    = (outcome, w')
    /\ saved_names (trace w')
       = saved_names (trace w) ++ map name (seq 0 k)
    /\ k <= n
    /\ (outcome = inr tt <-> k = n)
    /\ ((forall i, i < n -> pil_save (name i) (row x i) = None) ->
        outcome = inr tt)
    /\ (forall e, 0 < n -> pil_save (name 0) (row x 0) = Some e ->
                  outcome = inl e /\ k = 0).
Proof.
  intros Hsplit Hne n name x.
  pose proof (save_raw_files_outcome _ w Hsplit Hne) as E.
  cbv zeta in E. fold n name x in E.
  destruct (written_seq (Py.join "." parts) suffix x n 0)
    as (k & Hk & Hle & Hiff).
  rewrite Hk in E.
  eexists. eexists. exists k. split; [exact E |].
  split.
  { cbn [trace extend]. rewrite saved_names_app, saved_names_raw_saves.
    reflexivity. }
  split; [exact Hle |].
  split.
  { rewrite <- Hiff.
    destruct (refusal pil_save (Py.join "." parts) suffix x (seq 0 n));
      split; intros H; (discriminate || reflexivity). }
  split.
  { intros Hall.
    rewrite accepted_never_refused; [reflexivity |].
    intros i Hi. apply in_seq in Hi. apply Hall. lia. }
  intros e Hn He.
  destruct n as [| n']; [lia |].
  cbn [seq refusal written] in Hk |- *. unfold accepted in Hk.
  fold name in Hk |- *. rewrite He in Hk |- *.
  split; [reflexivity |]. destruct k; [reflexivity | discriminate].
Qed.

(** C7: in raw mode, on an output path [base.ext] whose extension
    [ext] holds no dot, and [n] decoded images, image [i] is handed to
    PIL under the name [base ++ "." ++ str(i) ++ "." ++ ext]: the files
    written are, in order, [base.0.ext], [base.1.ext], ... up to the
    first image PIL refuses, and all [n] of them, without an exception,
    when PIL takes each of them. *)
Theorem C7_raw_mode_file_names
        (base ext : string) (decoded : list (list (image px))) w :
  Py.contains "." ext = false ->
  decoded <> [] ->
  let n := List.length (List.concat decoded) in
  let name := fun i => (base ++ "." ++ Py.str (Z.of_nat i)
                             ++ "." ++ ext)%string in
  let x := tmap quantize
                (as_tensor px0 img_h img_w img_c (List.concat decoded)) in
  exists outcome w' k,
    save_raw_files px0 quantize img_h img_w img_c pil_save
                   (base ++ "." ++ ext) decoded w = (outcome, w')
    /\ saved_names (trace w')
       = saved_names (trace w) ++ map name (seq 0 k)
    /\ k <= n
    /\ (outcome = inr tt <-> k = n)
    /\ ((forall i, i < n -> pil_save (name i) (row x i) = None) ->
        outcome = inr tt).
Proof.
  intros Hext Hne n name x.
  pose proof (@raw_files_named (base ++ "." ++ ext) _ _ decoded w
                (@PyFacts.unpack_with_extension base ext Hext) Hne) as E.
  cbv zeta in E. rewrite PyFacts.join_split in E.
  destruct E as (outcome & w' & k & Hsave & Hnames & Hle & Hiff & Hall & _).
  exists outcome, w', k. repeat split; try assumption; apply Hiff.
Qed.

(** C10: in raw mode, on an output path without any dot, the name
    part left of the last dot is empty, so image [i] is handed to PIL
    under the name ["." ++ str(i) ++ "." ++ output]: these files are
    written, up to the first one PIL refuses; when PIL refuses the
    first, as it does when [output] is no extension it knows, the run
    ends with its exception and nothing is written. *)
Theorem C10_raw_mode_names_without_dot
        (out : string) (decoded : list (list (image px))) w :
  Py.contains "." out = false ->
  decoded <> [] ->
  let n := List.length (List.concat decoded) in
  let name := fun i => ("." ++ Py.str (Z.of_nat i) ++ "." ++ out)%string in
  let x := tmap quantize
                (as_tensor px0 img_h img_w img_c (List.concat decoded)) in
  Py.unpack_star_last (Py.split "." out) = Some ([], out)
  /\ Py.join "." [] = EmptyString
  /\ exists outcome w' k,
      save_raw_files px0 quantize img_h img_w img_c pil_save out decoded w
      = (outcome, w')
      /\ saved_names (trace w')
         = saved_names (trace w) ++ map name (seq 0 k)
      /\ k <= n
      /\ (outcome = inr tt <-> k = n)
      /\ ((forall i, i < n -> pil_save (name i) (row x i) = None) ->
          outcome = inr tt)
      /\ (forall e, 0 < n -> pil_save (name 0) (row x 0) = Some e ->
                    outcome = inl e /\ w' = w).
Proof.
  intros Hdot Hne n name x.
  split; [apply PyFacts.unpack_without_dot; exact Hdot |].
  split; [reflexivity |].
  pose proof (@raw_files_named out _ _ decoded w
                (@PyFacts.unpack_without_dot out Hdot) Hne) as E.
  cbv zeta in E.
  destruct E as (outcome & w' & k & Hsave & Hnames & Hle & Hiff & Hall
                 & Hfirst).
  exists outcome, w', k.
  split; [exact Hsave |]. split; [exact Hnames |]. split; [exact Hle |].
  split; [exact Hiff |]. split; [exact Hall |].
  intros e Hn He. destruct (Hfirst e Hn He) as [-> _].
  split; [reflexivity |].
  pose proof (save_raw_files_outcome _ w
                (@PyFacts.unpack_without_dot out Hdot) Hne) as E.
  cbv zeta in E. rewrite Hsave in E.
  fold n in E, Hn. destruct n as [| n']; [lia |].
  cbn [seq refusal written] in E. unfold accepted in E.
  change (raw_name (Py.join "." []) out 0) with (name 0) in E.
  fold x in E. rewrite He in E. cbn [raw_saves map] in E.
  rewrite extend_nil in E. congruence.
Qed.

(** *** The staged pull of the latent sequence *)

Lemma last_cons_default {A} (l : list A) :
  forall a d, last (a :: l) d = last l a.
Proof.
  induction l as [| b l IH]; intros a d; [reflexivity |].
  change (last (a :: b :: l) d) with (last (b :: l) d).
  rewrite !IH. reflexivity.
Qed.

Lemma for_latents_exhausts :
  forall (pending : list (list L)) (x_t : option (list L))
         (tr : list (event L px)),
    for_latents pending x_t {| latents := pending; trace := tr |}
    = (inr (last (map Some pending) x_t),
       {| latents := [];
          trace := tr ++ flat_map denoise_events pending |}).
Proof.
  induction pending as [| x rest IH]; intros x_t tr.
  - cbn. rewrite app_nil_r. reflexivity.
  - cbn [for_latents]. unfold bind, next_latents, mx_eval, emit, extend.
    cbn [latents trace]. rewrite IH, <- !app_assoc.
    cbn [flat_map denoise_events app map].
    rewrite last_cons_default. reflexivity.
Qed.

Lemma controller_empty (tr : list (event L px)) :
  controller dur peak_memory {| latents := []; trace := tr |}
  = (inl StopIteration, {| latents := []; trace := tr |}).
Proof. reflexivity. Qed.

Lemma controller_pulls (conditioning : list L) (rest : list (list L))
      (tr : list (event L px)) :
  controller dur peak_memory
             {| latents := conditioning :: rest; trace := tr |}
  = (inr (GB (peak_memory
                (tr ++ [EvNext conditioning; EvEval (Latent conditioning)])),
          clock dur (tr ++ conditioning_events conditioning),
          last (map Some rest) None),
     {| latents := [];
        trace := tr ++ conditioning_events conditioning
                    ++ [EvPerfCounter]
                    ++ flat_map denoise_events rest |}).
Proof.
  unfold controller, bind, next_latents, mx_eval, emit, get_peak_memory,
    perf_counter, denoising_loop, extend, ret.
  cbn [latents trace].
  rewrite for_latents_exhausts, <- !app_assoc. reflexivity.
Qed.

Lemma pulled_app (a b : list (event L px)) :
  pulled (a ++ b) = pulled a ++ pulled b.
Proof. apply flat_map_app. Qed.

Lemma pulled_denoise_events (items : list (list L)) :
  pulled (flat_map (@denoise_events L px) items) = items.
Proof.
  induction items as [| x rest IH]; [reflexivity |].
  cbn. f_equal. exact IH.
Qed.

(** C4: on the sequence of [num_steps + 1] items the pipeline yields
    for [num_steps = k], the controller makes the conditioning pull and
    evaluates it before it reads the start time, then pulls the [k]
    remaining items, each followed at once by its evaluation; the
    [k + 1] items are pulled in order, nothing is left in the sequence
    and one more pull would raise StopIteration. *)
Theorem C4_controller_pulls_all_items
        (conditioning : list L) (estimate : nat -> list L) (k : nat)
        (tr : list (event L px)) :
  let items := generate_latents conditioning estimate k in
  let steps := map estimate (seq 1 k) in
  exists v w',
    controller dur peak_memory {| latents := items; trace := tr |}
    = (inr v, w')
    /\ trace w' = tr ++ conditioning_events conditioning
                    ++ [EvPerfCounter]
                    ++ flat_map denoise_events steps
    /\ pulled (conditioning_events (px := px) conditioning)
       = [conditioning]
    /\ pulled (flat_map (@denoise_events L px) steps) = steps
    /\ List.length steps = k
    /\ pulled (trace w') = pulled tr ++ items
    /\ List.length items = k + 1
    /\ latents w' = []
    /\ next_latents w' = (inl StopIteration, w').
Proof.
  intros items steps. subst items. unfold generate_latents. fold steps.
  rewrite controller_pulls.
  eexists. eexists. split; [reflexivity |]. cbn [trace latents].
  split; [reflexivity |].
  split; [reflexivity |].
  split; [apply pulled_denoise_events |].
  split; [subst steps; rewrite length_map, length_seq; reflexivity |].
  split.
  { rewrite !pulled_app, pulled_denoise_events. reflexivity. }
  split.
  { cbn [List.length]. subst steps.
    rewrite length_map, length_seq. lia. }
  split; reflexivity.
Qed.

(** *** A run that ends without an exception *)

Lemma bind_prints {X} (lines : list string) (k : unit -> M L px X) :
  forall w, bind (prints lines) k w
            = k tt (extend w (map EvPrint lines)).
Proof.
  induction lines as [| l rest IH]; intros w.
  - cbn. rewrite extend_nil. reflexivity.
  - cbn [prints map]. unfold bind in *. unfold emit at 1.
    specialize (IH (extend w [EvPrint l])).
    destruct (prints rest (extend w [EvPrint l])) as [[e | []] w1];
      rewrite IH, extend_extend; reflexivity.
Qed.

Lemma decoding_inr (a : args) (ls : Z * Z) (x_t : option (list L))
      w (decoded : list (list (image px))) w' :
  decoding decode a ls x_t w = (inr decoded, w') ->
  exists starts,
    Py.range 0 (n_images a) (decoding_batch_size a) = Some starts
    /\ w' = extend w (decoding_events decode x_t ls
                                      (decoding_batch_size a) starts)
    /\ (starts <> [] -> x_t <> None)
    /\ (decoded <> [] -> starts <> []).
Proof.
  unfold decoding, bind, lift.
  destruct (Py.range 0 (n_images a) (decoding_batch_size a))
    as [starts |]; [| discriminate].
  unfold ret. intros Hrun. exists starts.
  split; [reflexivity |].
  destruct x_t as [x |].
  - rewrite decode_loop_bound in Hrun. inversion Hrun; subst.
    split; [reflexivity |]. split; [discriminate |].
    destruct starts; [intros N; contradiction N; reflexivity
                     | discriminate].
  - destruct starts as [| i rest].
    + cbn in Hrun. inversion Hrun; subst.
      cbn [decoding_events]. rewrite extend_nil.
      split; [reflexivity |]. split; intros N; contradiction N;
        reflexivity.
    + cbn in Hrun. discriminate.
Qed.

Lemma unpack_split_some (sep : ascii) (s : string) :
  exists parts suffix,
    Py.unpack_star_last (Py.split sep s) = Some (parts, suffix).
Proof.
  pose proof (PyFacts.split_nonempty sep s) as N.
  destruct (exists_last N) as [parts [suffix E]].
  exists parts, suffix. rewrite E.
  apply PyFacts.unpack_star_last_snoc.
Qed.

Lemma forallb_is_save_raw_saves (name suffix : string) (x : tensor Z)
      (indices : list nat) :
  forallb (@is_save L px) (raw_saves name suffix x indices) = true.
Proof. induction indices; [reflexivity | exact IHindices]. Qed.

Lemma save_output_inr (a : args) (decoded : list (list (image px)))
      w (u : unit) w' :
  save_output px0 quantize img_h img_w img_c pil_save a decoded w = (inr u, w') ->
  exists saves,
    w' = extend w saves
    /\ forallb (@is_save L px) saves = true
    /\ decoded <> [].
Proof.
  unfold save_output. destruct (save_raw a).
  - destruct decoded as [| d rest].
    + destruct (save_raw_files_empty (output a) w) as [e E].
      rewrite E. discriminate.
    + destruct (unpack_split_some "." (output a))
        as [parts [suffix Hsplit]].
      rewrite (save_raw_files_outcome _ w Hsplit) by discriminate.
      cbv zeta. intros Hrun.
      apply (f_equal snd) in Hrun. cbn [snd] in Hrun. subst w'.
      eexists. split; [reflexivity |].
      split; [apply forallb_is_save_raw_saves | discriminate].
  - unfold save_grid, bind, concatenate.
    destruct decoded as [| d rest]; [discriminate |].
    unfold ret.
    destruct (grid px0 quantize img_h img_w img_c (n_rows a)
                   (List.concat (d :: rest))) as [e | x];
      [discriminate |].
    unfold save_image. destruct (pil_save (output a) x); [discriminate |].
    unfold emit. intros Hrun. inversion Hrun; subst.
    eexists. split; [reflexivity |].
    split; [reflexivity | discriminate].
Qed.

Lemma bind_emit {X} (e : event L px) (k : unit -> M L px X) w :
  bind (emit e) k w = k tt (extend w [e]).
Proof. reflexivity. Qed.

Lemma bind_get_peak_memory {X} (k : Q -> M L px X) w :
  bind (get_peak_memory peak_memory) k w
  = k (GB (peak_memory (trace w))) (extend w [EvGetPeak]).
Proof. reflexivity. Qed.

Lemma bind_perf_counter {X} (k : Z -> M L px X) w :
  bind (perf_counter dur) k w
  = k (clock dur (trace w)) (extend w [EvPerfCounter]).
Proof. reflexivity. Qed.

Lemma bind_preload {X} (a : args) (k : unit -> M L px X) w :
  bind (if preload_models a then emit EvEnsureLoaded else ret tt) k w
  = k tt (extend w (if preload_models a then [EvEnsureLoaded] else [])).
Proof.
  destruct (preload_models a); [reflexivity |].
  rewrite extend_nil. reflexivity.
Qed.

(** The history and the measurements of a run that returns. *)
Lemma run_success (a : args) (items : list (list L)) (t : telemetry) w' :
  run px0 quantize img_h img_w img_c decode pil_save dur peak_memory a items
  = (inr t, w') ->
  exists conditioning rest starts saves,
    let ls := fst (Resolver.to_latent_size (image_size a)) in
    let bs := decoding_batch_size a in
    let pre := startup_events a ++ conditioning_events conditioning in
    let win := timed_events decode rest ls bs starts saves in
    let x_t := last (map Some rest) None in
    items = conditioning :: rest
    /\ trace w' = pre ++ [EvPerfCounter] ++ win ++ [EvPerfCounter]
                      ++ (if verbose a then [EvReport t] else [])
    /\ Py.range 0 (n_images a) bs = Some starts
    /\ starts <> []
    /\ x_t <> None
    /\ forallb (@is_save L px) saves = true
    /\ elapsed_time t
       = (clock dur (pre ++ [EvPerfCounter] ++ win) - clock dur pre)%Z
    /\ peak_mem_conditioning t
       = GB (peak_memory
               (startup_events a
                  ++ [EvNext conditioning; EvEval (Latent conditioning)]))
    /\ peak_mem_generation t
       = GB (peak_memory
               (pre ++ [EvPerfCounter]
                    ++ flat_map denoise_events rest ++ [EvDelFlow]))
    /\ peak_mem_decoding t
       = GB (peak_memory
               (pre ++ [EvPerfCounter]
                    ++ flat_map denoise_events rest
                    ++ [EvDelFlow; EvGetPeak; EvResetPeak]
                    ++ decoding_events decode x_t ls bs starts))
    /\ peak_mem_overall t
       = Py.max3 (peak_mem_conditioning t) (peak_mem_generation t)
                 (peak_mem_decoding t).
Proof.
  unfold run, main. rewrite !bind_emit, bind_preload.
  assert (Estart :
            [EvPrint (Py.str (n_images a))] ++ [EvPipeline]
              ++ (if preload_models a then [EvEnsureLoaded] else [])
              ++ map EvPrint
                     (snd (Resolver.to_latent_size (image_size a)))
              ++ [EvGenerate (n_images a) (steps a)
                    (fst (Resolver.to_latent_size (image_size a)))]
            = startup_events (L := L) (px := px) a) by reflexivity.
  destruct (Resolver.to_latent_size (image_size a)) as [ls printed].
  cbn [fst snd] in *.
  rewrite bind_prints, bind_emit, !extend_extend, Estart.
  clear Estart. generalize (startup_events (L := L) (px := px) a).
  intros startup.
  unfold extend at 1. cbn [latents trace app].
  destruct items as [| conditioning rest].
  { unfold bind at 1. rewrite controller_empty. discriminate. }
  unfold bind at 1. rewrite controller_pulls.
  rewrite bind_emit, bind_get_peak_memory, bind_emit.
  unfold bind at 1.
  match goal with
  | |- context [decoding decode a ls ?x ?w] =>
      destruct (decoding decode a ls x w) as [[e | decoded] w1] eqn:Hdec
  end; [discriminate |].
  apply decoding_inr in Hdec.
  destruct Hdec as [starts [Hrange [-> [Hbound Hstarts]]]].
  rewrite bind_get_peak_memory. unfold bind at 1.
  match goal with
  | |- context [save_output px0 quantize img_h img_w img_c pil_save a decoded ?w] =>
      destruct (save_output px0 quantize img_h img_w img_c pil_save a decoded w)
        as [[e | u] w2] eqn:Hsave
  end; [discriminate |].
  apply save_output_inr in Hsave.
  destruct Hsave as [saves [-> [Hsaves Hdecoded]]].
  rewrite bind_perf_counter, !extend_extend.
  unfold extend. cbn [latents trace].
  assert (Hx : last (map Some rest) None <> None)
    by (apply Hbound, Hstarts, Hdecoded).
  assert (Hne : starts <> []) by (apply Hstarts, Hdecoded).
  intros Hrun.
  exists conditioning, rest, starts, saves. cbn zeta.
  unfold timed_events.
  destruct (verbose a); unfold bind, emit, ret, extend in Hrun;
    cbn [latents trace] in Hrun; inversion Hrun; subst; clear Hrun;
    cbn [peak_mem_conditioning peak_mem_generation peak_mem_decoding
         peak_mem_overall elapsed_time];
    repeat (progress (rewrite <- ?app_assoc; cbn [app trace]));
    repeat split; try reflexivity; try assumption.
Qed.

(** *** What the elapsed time covers *)

Lemma quiet_app (a b : list (event L px)) :
  quiet a -> quiet b -> quiet (a ++ b).
Proof.
  unfold quiet. intros Ha Hb. rewrite forallb_app, Ha, Hb. reflexivity.
Qed.

Lemma after_perf_counter_app (a b : list (event L px)) :
  quiet a -> after_perf_counter (a ++ EvPerfCounter :: b) = b.
Proof.
  unfold quiet. induction a as [| e a IH]; cbn; [reflexivity |].
  intros Hq. apply andb_true_iff in Hq as [He Ha].
  destruct (is_perf_counter e); [discriminate | exact (IH Ha)].
Qed.

Lemma until_perf_counter_app (a b : list (event L px)) :
  quiet a -> until_perf_counter (a ++ EvPerfCounter :: b) = a.
Proof.
  unfold quiet. induction a as [| e a IH]; cbn; [reflexivity |].
  intros Hq. apply andb_true_iff in Hq as [He Ha].
  destruct (is_perf_counter e); [discriminate |].
  rewrite (IH Ha). reflexivity.
Qed.

Lemma quiet_startup_events (a : args) :
  quiet (startup_events (L := L) (px := px) a).
Proof.
  unfold startup_events. repeat apply quiet_app; try reflexivity.
  - destruct (preload_models a); reflexivity.
  - unfold quiet.
    induction (snd (Resolver.to_latent_size (image_size a)));
      [reflexivity | assumption].
Qed.

Lemma quiet_denoise_events (items : list (list L)) :
  quiet (flat_map (@denoise_events L px) items).
Proof. unfold quiet. induction items; [reflexivity | assumption]. Qed.

Lemma quiet_decoding_events (x_t : option (list L)) (ls : Z * Z)
      (bs : Z) (starts : list Z) :
  quiet (decoding_events decode x_t ls bs starts).
Proof.
  unfold quiet. destruct x_t as [x |]; [| reflexivity].
  cbn [decoding_events]. induction starts; [reflexivity | assumption].
Qed.

Lemma quiet_saves (saves : list (event L px)) :
  forallb (@is_save L px) saves = true -> quiet saves.
Proof.
  unfold quiet. induction saves as [| e saves IH]; [reflexivity |].
  cbn. intros H. apply andb_true_iff in H as [He Hs].
  rewrite (IH Hs). destruct e; try discriminate. reflexivity.
Qed.

Lemma pulled_startup_events (a : args) :
  pulled (startup_events (L := L) (px := px) a) = [].
Proof.
  unfold startup_events. rewrite !pulled_app. cbn.
  destruct (preload_models a); cbn;
    induction (snd (Resolver.to_latent_size (image_size a)));
    cbn; assumption || reflexivity.
Qed.

Lemma pulled_decoding_events (x_t : option (list L)) (ls : Z * Z)
      (bs : Z) (starts : list Z) :
  pulled (decoding_events decode x_t ls bs starts) = [].
Proof.
  destruct x_t as [x |]; [| reflexivity].
  cbn [decoding_events]. induction starts; [reflexivity | assumption].
Qed.

Lemma pulled_saves (saves : list (event L px)) :
  forallb (@is_save L px) saves = true -> pulled saves = [].
Proof.
  induction saves as [| e saves IH]; [reflexivity |].
  cbn [forallb]. intros H. apply andb_true_iff in H as [He Hs].
  unfold pulled in *. cbn [flat_map].
  rewrite (IH Hs). destruct e; try discriminate. reflexivity.
Qed.

Lemma clock_app (a b : list (event L px)) :
  clock dur (a ++ b) = (clock dur a + clock dur b)%Z.
Proof.
  induction a as [| e a IH]; [reflexivity |].
  change (clock dur ((e :: a) ++ b))
    with (dur e + clock dur (a ++ b))%Z.
  change (clock dur (e :: a)) with (dur e + clock dur a)%Z.
  rewrite IH. lia.
Qed.

Lemma decoding_events_start (x_t : option (list L)) (ls : Z * Z)
      (bs : Z) (starts : list Z) :
  starts <> [] -> x_t <> None ->
  existsb (@is_decode L px) (decoding_events decode x_t ls bs starts)
  = true.
Proof.
  intros Hs Hx. destruct x_t as [x |]; [| contradiction].
  destruct starts as [| i rest]; [contradiction | reflexivity].
Qed.

(** C2, as the code has it: in every run that returns, the timer is
    read for the first time after the conditioning phase (the pull of
    the conditioning item, its evaluation and the peak-memory
    bookkeeping) and for the second time after the output has been
    saved.  The events between the two readings are the denoising
    pulls and evaluations, the release of the flow model with the
    peak-memory bookkeeping, every decode call with its evaluation,
    and every save; the conditioning pull is not among them, at
    least one decode call is, and the elapsed time is the time these
    events take. *)
Theorem C2_elapsed_time_spans_denoising_to_saving
        (a : args) (items : list (list L)) (t : telemetry) w' :
  run px0 quantize img_h img_w img_c decode pil_save dur peak_memory a items
  = (inr t, w') ->
  exists conditioning rest starts saves,
    let ls := fst (Resolver.to_latent_size (image_size a)) in
    let bs := decoding_batch_size a in
    let pre := startup_events a ++ conditioning_events conditioning in
    let win := timed_events decode rest ls bs starts saves in
    items = conditioning :: rest
    /\ trace w' = pre ++ [EvPerfCounter] ++ win ++ [EvPerfCounter]
                      ++ (if verbose a then [EvReport t] else [])
    /\ timed_window (trace w') = win
    /\ elapsed_time t = clock dur (EvPerfCounter :: win)
    /\ pulled pre = [conditioning]
    /\ pulled win = rest
    /\ existsb (@is_decode L px) win = true
    /\ forallb (@is_save L px) saves = true.
Proof.
  intros Hrun. apply run_success in Hrun.
  destruct Hrun as (conditioning & rest & starts & saves & Hrun).
  cbn zeta in Hrun.
  destruct Hrun as (Hitems & Htrace & Hrange & Hstarts & Hx & Hsaves
                    & Helapsed & _).
  exists conditioning, rest, starts, saves. cbn zeta.
  assert (Qpre : quiet (startup_events a
                          ++ conditioning_events conditioning))
    by (apply quiet_app; [apply quiet_startup_events | reflexivity]).
  assert (Qwin : quiet (timed_events decode rest
                          (fst (Resolver.to_latent_size (image_size a)))
                          (decoding_batch_size a) starts saves)).
  { unfold timed_events.
    repeat apply quiet_app;
      auto using quiet_denoise_events, quiet_decoding_events, quiet_saves;
      reflexivity. }
  split; [exact Hitems |].
  split; [exact Htrace |].
  split.
  { rewrite Htrace. unfold timed_window. cbn [app].
    rewrite (after_perf_counter_app _ Qpre).
    apply (until_perf_counter_app _ Qwin). }
  split.
  { rewrite Helapsed, clock_app. cbn [app]. lia. }
  split.
  { rewrite pulled_app, pulled_startup_events. reflexivity. }
  split.
  { unfold timed_events.
    rewrite !pulled_app, pulled_denoise_events, pulled_decoding_events,
      (pulled_saves _ Hsaves).
    cbn. rewrite app_nil_r. reflexivity. }
  split; [| exact Hsaves].
  unfold timed_events. rewrite !existsb_app.
  rewrite (decoding_events_start _ _ Hstarts Hx).
  rewrite !orb_true_r. reflexivity.
Qed.

(** *** The overall peak *)


(** *** The grid *)

Lemma get_padded (imgs : list (image px)) (b y x ch : nat) :
  b < List.length imgs -> ch < img_c ->
  get (pad px0 [(0, 0); (4, 4); (4, 4); (0, 0)]
           (as_tensor px0 img_h img_w img_c imgs))
      [b; y; x; ch]
  = padded_image px0 img_h img_w (nth b imgs (fun _ => px0)) [y; x; ch].
Proof.
  intros Hb Hc. unfold pad, as_tensor, padded_image.
  cbn [get shape unpad_index].
  assert (E1 : (0 <=? b) && (b <? 0 + List.length imgs) = true)
    by (apply andb_true_iff; split;
        [reflexivity | apply Nat.ltb_lt; lia]).
  assert (E2 : (0 <=? ch) && (ch <? 0 + img_c) = true)
    by (apply andb_true_iff; split;
        [reflexivity | apply Nat.ltb_lt; lia]).
  rewrite E1, E2, !Nat.sub_0_r.
  destruct (4 <=? y), (y <? 4 + img_h), (4 <=? x), (x <? 4 + img_w);
    reflexivity.
Qed.

Lemma grid_tiles (R cols : nat) (imgs : list (image px)) :
  0 < R -> List.length imgs = R * cols ->
  exists g,
    grid px0 quantize img_h img_w img_c (Z.of_nat R) imgs = inr g
    /\ shape g = [R * (img_h + 8); cols * (img_w + 8); img_c]
    /\ forall r c y x ch,
        r < R -> c < cols -> y < img_h + 8 -> x < img_w + 8 ->
        ch < img_c ->
        get g [r * (img_h + 8) + y; c * (img_w + 8) + x; ch]
        = quantize (padded_image px0 img_h img_w
                      (nth (r * cols + c) imgs (fun _ => px0))
                      [y; x; ch]).
Proof.
  intros HR HB. unfold grid.
  set (xp := pad px0 [(0, 0); (4, 4); (4, 4); (0, 0)]
                 (as_tensor px0 img_h img_w img_c imgs)).
  assert (Hshape : shape xp
                   = [List.length imgs; img_h + 8; img_w + 8; img_c]).
  { subst xp. cbn [shape pad as_tensor map combine fst snd].
    f_equal; [lia |]. f_equal; [lia |]. f_equal; [lia |].
    f_equal. lia. }
  rewrite Hshape.
  destruct (Z.eqb_spec (Z.of_nat R) 0); [lia |].
  assert (Hcols : (Z.of_nat (List.length imgs) / Z.of_nat R)%Z
                  = Z.of_nat cols).
  { rewrite HB, Nat2Z.inj_mul, Z.mul_comm, Z.div_mul by lia.
    reflexivity. }
  rewrite Hcols.
  change [Z.of_nat R; Z.of_nat cols; Z.of_nat (img_h + 8);
          Z.of_nat (img_w + 8); Z.of_nat img_c]
    with (map Z.of_nat [R; cols; img_h + 8; img_w + 8; img_c]).
  rewrite TensorFacts.reshape_nat
    by (rewrite Hshape; cbn [size fold_right]; rewrite HB; lia).
  rewrite <- !Nat2Z.inj_mul.
  change [Z.of_nat (R * (img_h + 8)); Z.of_nat (cols * (img_w + 8));
          Z.of_nat img_c]
    with (map Z.of_nat [R * (img_h + 8); cols * (img_w + 8); img_c]).
  rewrite TensorFacts.reshape_nat by (cbn; lia).
  eexists. split; [reflexivity |]. split; [reflexivity |].
  intros r c y x ch Hr Hc Hy Hx Hch.
  cbn [get tmap transpose shape map nth].
  set (H8 := img_h + 8) in *. set (W8 := img_w + 8) in *.
  assert (E3 : ravel [R * H8; cols * W8; img_c]
                     [r * H8 + y; c * W8 + x; ch]
               = ravel [R; H8; cols; W8; img_c] [r; y; c; x; ch])
    by (cbn [ravel size fold_right]; ring).
  rewrite E3, TensorFacts.unravel_ravel
    by (cbn [in_bounds]; repeat split; assumption).
  cbn [map seq List.length nth axis_pos Nat.eqb].
  assert (E5 : ravel [R; cols; H8; W8; img_c] [r; c; y; x; ch]
               = ravel (shape xp) [r * cols + c; y; x; ch])
    by (rewrite Hshape; cbn [ravel size fold_right]; ring).
  assert (Hb : r * cols + c < List.length imgs) by nia.
  rewrite E5, TensorFacts.unravel_ravel
    by (rewrite Hshape; cbn [in_bounds]; repeat split; assumption).
  subst xp. rewrite get_padded by assumption. reflexivity.
Qed.

Lemma save_grid_trace (rows : Z) (out : string)
      (decoded : list (list (image px))) w :
  decoded <> [] ->
  save_grid (L := L) px0 quantize img_h img_w img_c pil_save rows out decoded w
  = match grid px0 quantize img_h img_w img_c rows (List.concat decoded)
    with
    | inl e => (inl e, w)
    | inr g =>
        match pil_save out g with
        | Some e => (inl e, w)
        | None => (inr tt, extend w [EvSave out g])
        end
    end.
Proof.
  intros Hne. unfold save_grid, bind, concatenate.
  destruct decoded as [| d rest]; [contradiction |].
  unfold ret.
  destruct (grid px0 quantize img_h img_w img_c rows
                 (List.concat (d :: rest))) as [e | g]; [reflexivity |].
  unfold save_image. destruct (pil_save out g); reflexivity.
Qed.

Lemma grid_rejects (rows : Z) (imgs : list (image px)) :
  (0 <= rows)%Z -> 0 < img_c ->
  ~ (rows | Z.of_nat (List.length imgs))%Z ->
  grid px0 quantize img_h img_w img_c rows imgs
  = inl (if (rows =? 0)%Z then ZeroDivisionError
         else ValueError "[reshape]").
Proof.
  intros Hrows Hc Hnd. unfold grid.
  set (xp := pad px0 [(0, 0); (4, 4); (4, 4); (0, 0)]
                 (as_tensor px0 img_h img_w img_c imgs)).
  assert (Hshape : shape xp
                   = [List.length imgs; img_h + 8; img_w + 8; img_c]).
  { subst xp. cbn [shape pad as_tensor map combine fst snd].
    f_equal; [lia |]. f_equal; [lia |]. f_equal; [lia |].
    f_equal. lia. }
  rewrite Hshape.
  destruct (Z.eqb_spec rows 0) as [| Hnz]; [reflexivity |].
  set (B := List.length imgs) in *.
  set (R := Z.to_nat rows).
  assert (ER : rows = Z.of_nat R) by (subst R; lia).
  assert (HR : 0 < R) by lia.
  assert (Hmod : B mod R <> 0).
  { intros Hz. apply Hnd. exists (Z.of_nat (B / R)).
    rewrite ER, <- Nat2Z.inj_mul. f_equal.
    pose proof (Nat.div_mod_eq B R). lia. }
  rewrite ER, <- Nat2Z.inj_div.
  change [Z.of_nat R; Z.of_nat (B / R); Z.of_nat (img_h + 8);
          Z.of_nat (img_w + 8); Z.of_nat img_c]
    with (map Z.of_nat [R; B / R; img_h + 8; img_w + 8; img_c]).
  rewrite TensorFacts.reshape_nat_mismatch; [reflexivity |].
  rewrite Hshape. cbn [size fold_right].
  pose proof (Nat.div_mod_eq B R) as Hdm.
  assert (Hlt : R * (B / R) < B) by lia.
  assert (Hpos : 0 < (img_h + 8) * ((img_w + 8) * (img_c * 1))) by nia.
  rewrite Nat.mul_assoc. nia.
Qed.

(** C8: in grid mode, for [B = n_rows * cols] decoded images of shape
    (H, W, C), the assembled image, which is saved once under the
    output path when PIL takes it, has shape
    (n_rows (H + 8), cols (W + 8), C), and its pixel
    at offset (y, x) of the tile in row [r] and column [c] is the
    quantized pixel (y, x) of image [r * cols + c] with its border of
    four zero pixels around the height and the width. *)
Theorem C8_grid_shape_and_tiles
        (R cols : nat) (out : string)
        (decoded : list (list (image px))) w :
  0 < R ->
  decoded <> [] ->
  List.length (List.concat decoded) = R * cols ->
  exists g,
    grid px0 quantize img_h img_w img_c (Z.of_nat R)
         (List.concat decoded) = inr g
    /\ (pil_save out g = None ->
        save_grid px0 quantize img_h img_w img_c pil_save (Z.of_nat R) out
                  decoded w
        = (inr tt, extend w [EvSave out g]))
    /\ shape g = [R * (img_h + 8); cols * (img_w + 8); img_c]
    /\ forall r c y x ch,
        r < R -> c < cols -> y < img_h + 8 -> x < img_w + 8 ->
        ch < img_c ->
        get g [r * (img_h + 8) + y; c * (img_w + 8) + x; ch]
        = quantize (padded_image px0 img_h img_w
                      (nth (r * cols + c) (List.concat decoded)
                           (fun _ => px0))
                      [y; x; ch]).
Proof.
  intros HR Hne HB.
  destruct (@grid_tiles R cols (List.concat decoded) HR HB)
    as [g [Hgrid [Hshape Htiles]]].
  exists g. split; [exact Hgrid |].
  split; [| split; assumption].
  intros Hpil. rewrite (save_grid_trace _ _ w Hne), Hgrid, Hpil.
  reflexivity.
Qed.

(** C9: in grid mode, when the number of decoded images is not
    divisible by the (non-negative) number of rows, the output stage
    ends with an exception and leaves the history as it was, so no file
    is written, and whatever follows it in the block is skipped: the
    exception is the outcome.  With at least one row the exception
    comes from the reshape; with zero rows from the division. *)
Theorem C9_nondivisible_grid_rejected
        (rows : Z) (out : string)
        (decoded : list (list (image px))) w :
  (0 <= rows)%Z ->
  0 < img_c ->
  ~ (rows | Z.of_nat (List.length (List.concat decoded)))%Z ->
  exists e,
    save_grid px0 quantize img_h img_w img_c pil_save rows out decoded w
    = (inl e, w)
    /\ (forall (X : Type) (k : unit -> M L px X),
          bind (save_grid px0 quantize img_h img_w img_c pil_save rows out decoded)
               k w
          = (inl e, w))
    /\ (decoded <> [] ->
        e = if (rows =? 0)%Z then ZeroDivisionError
            else ValueError "[reshape]").
Proof.
  intros Hrows Hc Hnd.
  assert (Hstage :
            exists e,
              save_grid (L := L) px0 quantize img_h img_w img_c pil_save rows out
                        decoded w = (inl e, w)
              /\ (decoded <> [] ->
                  e = if (rows =? 0)%Z then ZeroDivisionError
                      else ValueError "[reshape]")).
  { destruct decoded as [| d rest].
    - eexists. split; [reflexivity |].
      intros N. contradiction N. reflexivity.
    - rewrite save_grid_trace by discriminate.
      rewrite (@grid_rejects rows _ Hrows Hc Hnd).
      eexists. split; reflexivity. }
  destruct Hstage as [e [Hsave He]].
  exists e. split; [exact Hsave |]. split; [| exact He].
  intros X k. unfold bind. rewrite Hsave. reflexivity.
Qed.

(** C5: for [n_images >= 1] and a positive batch size, the decoding
    loop runs over the starts [0, bs, 2 bs, ...], one per sub-range;
    sub-range [j] holds the latents of indices [j bs .. j bs + bs)
    cut at [n_images], so every sub-range but the last has [bs]
    elements, the last between 1 and [bs], there is one sub-range
    when [bs >= n_images], and the sub-ranges in order make up the
    whole batch; when [decode] maps a per-image function over its
    batch, the concatenation of the decoded sub-batches in order is
    the decode of the whole batch, index for index. *)
Theorem C5_batched_decode_equals_full
        (n bs : Z) (x : list L) (f : L -> image px) (ls : Z * Z) w :
  (1 <= n)%Z -> (1 <= bs)%Z ->
  Z.of_nat (List.length x) = n ->
  (forall xs, decode xs ls = map f xs) ->
  let m := Z.to_nat ((n - 1) / bs + 1) in
  let b := Z.to_nat bs in
  let piece := fun j => firstn b (skipn (j * b) x) in
  exists starts decoded,
    Py.range 0 n bs = Some starts
    /\ decode_loop decode (Some x) ls bs starts [] w
       = (inr decoded,
          extend w (flat_map (decode_events decode x ls bs) starts))
    /\ starts = map (fun j => (Z.of_nat j * bs)%Z) (seq 0 m)
    /\ map (fun i => Py.slice x i (i + bs)) starts = map piece (seq 0 m)
    /\ decoded = map (fun j => decode (piece j) ls) (seq 0 m)
    /\ (forall j, j < m ->
                  1 <= List.length (piece j) <= b
                  /\ (S j < m -> List.length (piece j) = b))
    /\ ((n <= bs)%Z -> m = 1)
    /\ List.concat (map piece (seq 0 m)) = x
    /\ List.concat decoded = decode x ls
    /\ (forall i, nth_error (List.concat decoded) i
                  = nth_error (decode x ls) i).
Proof.
  intros Hn Hbs Hlen Hdec m b piece.
  destruct (RangeFacts.chunk_count_covers Hn Hbs) as [Hcover Hm1].
  assert (Em : Z.of_nat m = ((n - 1) / bs + 1)%Z) by (subst m; lia).
  assert (Eb : Z.of_nat b = bs) by (subst b; lia).
  assert (Hslices :
            map (fun i => Py.slice x i (i + bs))
                (map (fun j => (Z.of_nat j * bs)%Z) (seq 0 m))
            = map piece (seq 0 m)).
  { rewrite map_map. apply map_ext. intros j.
    rewrite RangeFacts.slice_window by lia.
    subst piece. cbn beta. do 2 f_equal. subst b. nia. }
  assert (Hpieces : List.concat (map piece (seq 0 m)) = x).
  { apply RangeFacts.pieces_concat. nia. }
  assert (Hdecoded :
            map (fun i => decode (Py.slice x i (i + bs)) ls)
                (map (fun j => (Z.of_nat j * bs)%Z) (seq 0 m))
            = map (fun j => decode (piece j) ls) (seq 0 m)).
  { rewrite <- (map_map (fun i => Py.slice x i (i + bs))
                        (fun batch => decode batch ls)).
    rewrite Hslices, map_map. reflexivity. }
  assert (Hfull : List.concat (map (fun j => decode (piece j) ls) (seq 0 m))
                  = decode x ls).
  { transitivity (List.concat (map (fun j => map f (piece j)) (seq 0 m))).
    - f_equal. apply map_ext. intros j. apply Hdec.
    - rewrite <- (map_map piece (map f)), <- concat_map, Hpieces.
      symmetry. apply Hdec. }
  exists (map (fun j => (Z.of_nat j * bs)%Z) (seq 0 m)).
  exists (map (fun j => decode (piece j) ls) (seq 0 m)).
  split; [apply RangeFacts.range_positive; assumption |].
  split; [rewrite decode_loop_bound, Hdecoded; reflexivity |].
  split; [reflexivity |].
  split; [exact Hslices |].
  split; [reflexivity |].
  split.
  { intros j Hj. subst piece. cbn beta.
    rewrite RangeFacts.piece_length.
    pose proof (@RangeFacts.chunk_start_inside n bs (Z.of_nat j)
                  Hn Hbs ltac:(lia)) as Hin.
    assert (Hjb : Z.of_nat (j * b) = (Z.of_nat j * bs)%Z)
      by (rewrite Nat2Z.inj_mul, Eb; reflexivity).
    split; [lia |]. intros HS.
    pose proof (@RangeFacts.chunk_start_inside n bs (Z.of_nat (S j))
                  Hn Hbs ltac:(lia)) as Hnext.
    assert (HSjb : Z.of_nat (j * b + b) = (Z.of_nat (S j) * bs)%Z)
      by (rewrite <- Eb; lia).
    lia. }
  split; [intros Hle; subst m;
          rewrite (RangeFacts.chunk_count_single Hn Hle); reflexivity |].
  split; [exact Hpieces |].
  split; [exact Hfull |].
  intros i. rewrite Hfull. reflexivity.
Qed.

End Facts.

(** *** The properties on the small pipeline *)

Lemma run_raw_returns (c g d : Z) :
  Mock.run_raw c g d
  = (inr (Mock.telemetry_of (Mock.run_raw c g d)),
     snd (Mock.run_raw c g d)).
Proof. reflexivity. Qed.

(** C2 fails as stated: on three images of three channels, saved as
    [result.0.png], [result.1.png] and [result.2.png], with pulls of 1
    tick, decode calls of 5 and saves of 2, the two denoising steps take
    2 ticks, while the run reports 18: the two decode calls and the
    three saves lie between the two readings of the clock. *)
Lemma C2_elapsed_time_includes_decoding_and_saving :
  let r := Mock.run_raw 6 15 21 in
  let window := timed_window (trace (snd r)) in
  let denoising := flat_map (@denoise_events nat Z) (tl Mock.items) in
  fst r = inr (Mock.telemetry_of r)
  /\ elapsed_time (Mock.telemetry_of r) = 18%Z
  /\ clock Mock.dur denoising = 2%Z
  /\ elapsed_time (Mock.telemetry_of r) <> clock Mock.dur denoising
  /\ List.length (filter (@is_decode nat Z) window) = 2
  /\ List.length (filter (@is_save nat Z) window) = 3
  /\ saved_names (trace (snd r))
     = ["result.0.png"; "result.1.png"; "result.2.png"]%string.
Proof.
  cbv zeta. repeat split; try reflexivity.
  vm_compute. discriminate.
Qed.

Lemma C2_elapsed_time_spans_denoising_to_saving_witness :
  let r := Mock.run_raw 6 15 21 in
  r = (inr (Mock.telemetry_of r), snd r)
  /\ existsb (@is_decode nat Z) (timed_window (trace (snd r))) = true
  /\ elapsed_time (Mock.telemetry_of r) = 18%Z.
Proof.
  cbv zeta.
  pose proof (run_raw_returns 6 15 21) as Hrun.
  split; [exact Hrun |].
  destruct (C2_elapsed_time_spans_denoising_to_saving
              0%Z (fun v => v) 1 1 3 Mock.decode Mock.pil Mock.dur
              (fixed_phase_backend 6 15 21) Mock.raw_args Mock.items Hrun)
    as (conditioning & rest & starts & saves & Hc).
  cbv zeta in Hc.
  destruct Hc as (_ & _ & Hwin & _ & _ & _ & Hdec & _).
  split; [rewrite Hwin; exact Hdec | reflexivity].
Defined.


Lemma C5_batched_decode_equals_full_witness :
  (1 <= 3)%Z /\ (1 <= 2)%Z
  /\ exists starts decoded,
      Py.range 0 3 2 = Some starts
      /\ fst (decode_loop Mock.decode (Some [7; 8; 9]) (64, 64)%Z 2
                          starts [] Mock.start_world) = inr decoded
      /\ List.concat decoded = Mock.decode [7; 8; 9] (64, 64)%Z.
Proof.
  assert (H3 : (1 <= 3)%Z) by lia.
  assert (H2 : (1 <= 2)%Z) by lia.
  split; [exact H3 |]. split; [exact H2 |].
  destruct (@C5_batched_decode_equals_full
              nat Z Mock.decode 3 2 [7; 8; 9] Mock.flat (64, 64)%Z
              Mock.start_world H3 H2 eq_refl (fun xs => eq_refl))
    as (starts & decoded & Hrange & Hloop & _ & _ & _ & _ & _ & _
        & Hfull & _).
  exists starts, decoded.
  split; [exact Hrange |].
  split; [rewrite Hloop; reflexivity | exact Hfull].
Defined.

Lemma C7_raw_mode_file_names_witness :
  Py.contains "." "png" = false
  /\ exists w',
      save_raw_files 0%Z (fun v => v) 1 1 3 Mock.pil "result.png"
                     [[Mock.flat 1; Mock.flat 2]; [Mock.flat 3]]
                     Mock.start_world
      = (inr tt, w')
      /\ saved_names (trace w')
         = ["result.0.png"; "result.1.png"; "result.2.png"]%string.
Proof.
  split; [reflexivity |].
  destruct (@C7_raw_mode_file_names
              nat Z 0%Z (fun v => v) 1 1 3 Mock.pil "result" "png"
              [[Mock.flat 1; Mock.flat 2]; [Mock.flat 3]]
              Mock.start_world eq_refl ltac:(discriminate))
    as (outcome & w' & k & Hsave & Hnames & _ & Hiff & Hall).
  assert (Hout : outcome = inr tt).
  { apply Hall. intros [| [| [| i]]] Hi; try reflexivity.
    cbn in Hi. lia. }
  subst outcome. destruct Hiff as [Hk _]. specialize (Hk eq_refl).
  subst k. exists w'. split; [exact Hsave | exact Hnames].
Defined.

(** C10 fails as stated: on [--output out] no file [.0.out] is written.
    PIL knows no format for the extension [.out], so the first
    [im.save] raises a ValueError and the run ends there, with nothing
    written. *)
Lemma C10_no_file_is_written_for_output_out :
  Py.contains "." "out" = false
  /\ save_raw_files 0%Z (fun v => v) 1 1 3 Mock.pil "out"
                    [[Mock.flat 1; Mock.flat 2]] Mock.start_world
     = (inl (ValueError "unknown file extension: .out"), Mock.start_world)
  /\ saved_names (trace Mock.start_world) = [].
Proof. repeat split; reflexivity. Qed.

(** On [--output png] the names are [.0.png] and [.1.png], which PIL
    takes. *)
Lemma C10_raw_mode_names_without_dot_witness :
  Py.contains "." "png" = false
  /\ exists w',
      save_raw_files 0%Z (fun v => v) 1 1 3 Mock.pil "png"
                     [[Mock.flat 1; Mock.flat 2]] Mock.start_world
      = (inr tt, w')
      /\ saved_names (trace w') = [".0.png"; ".1.png"]%string.
Proof.
  split; [reflexivity |].
  destruct (@C10_raw_mode_names_without_dot
              nat Z 0%Z (fun v => v) 1 1 3 Mock.pil "png"
              [[Mock.flat 1; Mock.flat 2]]
              Mock.start_world eq_refl ltac:(discriminate))
    as (_ & _ & outcome & w' & k & Hsave & Hnames & _ & Hiff & Hall & _).
  assert (Hout : outcome = inr tt).
  { apply Hall. intros [| [| i]] Hi; try reflexivity.
    cbn in Hi. lia. }
  subst outcome. destruct Hiff as [Hk _]. specialize (Hk eq_refl).
  subst k. exists w'. split; [exact Hsave | exact Hnames].
Defined.

(** The grid of four 64 x 64 x 3 images on two rows is 144 x 144 x 3. *)
Lemma C8_grid_shape_and_tiles_witness :
  0 < 2
  /\ exists g,
      grid 0%Z (fun v => v) 64 64 3 2
           (List.concat [[Mock.flat 1; Mock.flat 2; Mock.flat 3];
                         [Mock.flat 4]])
      = inr g
      /\ shape g = [144; 144; 3]
      /\ get g [72 + 4; 72 + 4; 0] = 4%Z
      /\ get g [72 + 3; 72 + 4; 0] = 0%Z.
Proof.
  assert (H2 : 0 < 2) by lia.
  split; [exact H2 |].
  destruct (@C8_grid_shape_and_tiles
              nat Z 0%Z (fun v => v) 64 64 3 Mock.pil 2 2 "out.png"
              [[Mock.flat 1; Mock.flat 2; Mock.flat 3]; [Mock.flat 4]]
              Mock.start_world H2 ltac:(discriminate) eq_refl)
    as (g & Hgrid & _ & Hshape & Htiles).
  exists g. split; [exact Hgrid |]. split; [exact Hshape |].
  split.
  - exact (Htiles 1 1 4 4 0 ltac:(lia) ltac:(lia) ltac:(lia) ltac:(lia)
                  ltac:(lia)).
  - exact (Htiles 1 1 3 4 0 ltac:(lia) ltac:(lia) ltac:(lia) ltac:(lia)
                  ltac:(lia)).
Defined.

(** Five images on two rows: the reshape is refused, nothing is saved. *)
Lemma C9_nondivisible_grid_rejected_witness :
  ~ (2 | Z.of_nat 5)%Z
  /\ save_grid 0%Z (fun v => v) 64 64 3 Mock.pil 2 "out.png"
               [[Mock.flat 1; Mock.flat 2; Mock.flat 3];
                [Mock.flat 4; Mock.flat 5]]
               Mock.start_world
     = (inl (ValueError "[reshape]"), Mock.start_world).
Proof.
  assert (Hnd : ~ (2 | Z.of_nat 5)%Z) by (intros [q Hq]; lia).
  split; [exact Hnd |].
  destruct (@C9_nondivisible_grid_rejected
              nat Z 0%Z (fun v => v) 64 64 3 Mock.pil 2 "out.png"
              [[Mock.flat 1; Mock.flat 2; Mock.flat 3];
               [Mock.flat 4; Mock.flat 5]]
              Mock.start_world ltac:(lia) ltac:(lia) Hnd)
    as (e & Hsave & _ & He).
  rewrite Hsave, (He ltac:(discriminate)). reflexivity.
Defined.

End OrchestratorFacts.

(** ** More on the resolver and on the parser of [--image-size] *)

Module SizeFacts.

Import Resolver Cli.
Local Open Scope Z_scope.

Lemma round16_idempotent (d : Z) : round16 (round16 d) = round16 d.
Proof. apply ResolverFacts.round16_fixed, ResolverFacts.round16_multiple. Qed.

Lemma round16_eighth_twice (d : Z) : round16 d / 8 = 2 * ((d + 15) / 16).
Proof. unfold round16. Z.to_euclidean_division_equations. lia. Qed.

(** X1: for every integer width and height, not only positive ones, each
    component of the latent size is even, namely twice the number of
    16-pixel blocks needed to cover the dimension, so eight times the
    component is the dimension rounded up; a component is positive
    exactly when its dimension is. *)
Theorem latent_size_is_twice_the_block_count (w h : Z) :
  let lh := fst (fst (to_latent_size (w, h))) in
  let lw := snd (fst (to_latent_size (w, h))) in
  (lh = 2 * ((h + 15) / 16) /\ lw = 2 * ((w + 15) / 16))
  /\ (h <= 8 * lh < h + 16 /\ w <= 8 * lw < w + 16)
  /\ ((0 < lh <-> 0 < h) /\ (0 < lw <-> 0 < w)).
Proof.
  cbn zeta. rewrite ResolverFacts.to_latent_size_value. cbn [fst snd].
  rewrite !round16_eighth_twice.
  repeat split; try reflexivity;
    Z.to_euclidean_division_equations; lia.
Qed.

(** X2: the resolver never corrects a size silently: whenever rounding
    changes the width or the height, it prints exactly one line, the
    warning that names the rounded width and height. *)
Theorem changed_size_is_always_reported (w h : Z) :
  round16 w <> w \/ round16 h <> h ->
  snd (to_latent_size (w, h)) = [warning (round16 w) (round16 h)].
Proof.
  intros Hchanged.
  assert (Hloud : snd (to_latent_size (w, h)) <> []).
  { rewrite ResolverFacts.to_latent_size_quiet_iff. intros [Hd E].
    subst h. pose proof (ResolverFacts.round16_fixed Hd). tauto. }
  unfold to_latent_size in *. cbn [snd] in *.
  destruct (negb (pair_eqb (round16 h, round16 w) (w, h)));
    [reflexivity | contradiction].
Qed.

Lemma changed_size_is_always_reported_witness :
  round16 500 <> 500
  /\ snd (to_latent_size (500, 300)) = [warning 512 304].
Proof.
  assert (H : round16 500 <> 500) by discriminate.
  split; [exact H |].
  exact (@changed_size_is_always_reported 500 300 (or_introl H)).
Defined.

(** X3: the corrected size is a fixed point: resolving the rounded width
    and height gives the latent size of the original request again, and
    rounds nothing further. *)
Theorem corrected_size_resolves_to_the_same_latent_size (w h : Z) :
  fst (to_latent_size (round16 w, round16 h)) = fst (to_latent_size (w, h))
  /\ round16 (round16 w) = round16 w
  /\ round16 (round16 h) = round16 h.
Proof.
  rewrite !ResolverFacts.to_latent_size_value, !round16_idempotent.
  repeat split; reflexivity.
Qed.

(** *** The parser *)

Lemma length_split (sep : ascii) (s : string) :
  List.length (Py.split sep s) = S (count sep s).
Proof.
  induction s as [| c r IH]; [reflexivity |].
  cbn [Py.split count].
  destruct (Ascii.eqb c sep).
  - cbn [List.length]. rewrite IH. reflexivity.
  - pose proof (PyFacts.split_nonempty sep r) as N.
    destruct (Py.split sep r); [contradiction |].
    cbn [List.length] in *. exact IH.
Qed.

Lemma map_int_length (int_of : string -> option Z) :
  forall parts t,
    map_int int_of parts = Some t -> List.length t = List.length parts.
Proof.
  induction parts as [| p rest IH]; intros t; cbn [map_int].
  - intros [= <-]. reflexivity.
  - destruct (int_of p); [| discriminate].
    destruct (map_int int_of rest) as [zs |]; [| discriminate].
    intros [= <-]. cbn [List.length]. rewrite (IH zs eq_refl). reflexivity.
Qed.

Lemma resolve_some_iff (t : list Z) :
  resolve t <> None <-> List.length t = 2%nat.
Proof.
  destruct t as [| w [| h [| z t]]]; cbn; split;
    (discriminate || intros N; (contradiction N; reflexivity) || lia).
Qed.

(** X4: the parser does not check how many numbers it reads: an argument
    it accepts yields one number more than it has ["x"] separators, and
    the resolver's [w, h = image_size] accepts the result exactly when
    there is one separator.  ["512"] and ["1x2x3"] get past the parser
    and raise in the resolver. *)
Theorem parser_leaves_the_arity_to_the_resolver
        (int_of : string -> option Z) (s : string) (t : list Z) :
  parse_image_size int_of s = Some t ->
  List.length t = S (count "x" s)
  /\ (resolve t <> None <-> count "x" s = 1%nat).
Proof.
  unfold parse_image_size. intros Hparse.
  apply map_int_length in Hparse. rewrite length_split in Hparse.
  split; [exact Hparse |].
  rewrite resolve_some_iff, Hparse. lia.
Qed.

Lemma parser_leaves_the_arity_to_the_resolver_witness :
  parse_image_size plain_int "1x2x3" = Some [1; 2; 3]
  /\ List.length [1; 2; 3] = S (count "x" "1x2x3")
  /\ (resolve [1; 2; 3] <> None <-> count "x" "1x2x3" = 1%nat).
Proof.
  assert (H3 : parse_image_size plain_int "1x2x3" = Some [1; 2; 3])
    by reflexivity.
  exact (conj H3 (parser_leaves_the_arity_to_the_resolver plain_int _ H3)).
Defined.

Lemma digits_without (c : ascii) (d : Decimal.uint) :
  Py.contains c "0123456789" = false ->
  Py.contains c (NilEmpty.string_of_uint d) = false.
Proof.
  intros Hc. cbn [Py.contains] in Hc.
  repeat (apply orb_false_iff in Hc; destruct Hc as [? Hc]).
  induction d; cbn [NilEmpty.string_of_uint Py.contains];
    rewrite ?IHd, ?orb_false_r; assumption || reflexivity.
Qed.

Lemma str_without (c : ascii) (z : Z) :
  Py.contains c "-0123456789" = false -> Py.contains c (Py.str z) = false.
Proof.
  intros Hc. cbn [Py.contains] in Hc.
  apply orb_false_iff in Hc. destruct Hc as [Hminus Hc].
  assert (Hu : forall d, Py.contains c (NilZero.string_of_uint d) = false).
  { intros d. pose proof (digits_without c d Hc) as Hd.
    destruct d; try exact Hd. cbn [NilZero.string_of_uint Py.contains].
    cbn [Py.contains] in Hc.
    apply orb_false_iff in Hc. destruct Hc as [H0 _].
    rewrite H0. reflexivity. }
  unfold Py.str, NilZero.string_of_int.
  destruct (Z.to_int z) as [d | d]; [apply Hu |].
  cbn [Py.contains]. rewrite Hminus, Hu. reflexivity.
Qed.

(** X5: the size the warning names can be passed back: when [int] reads
    the two numbers the way [str] printed them, the parser turns the
    text [f"{w}x{h}"] into the pair [(w, h)], and for the corrected size
    the resolver then returns the latent size of the original request. *)
Theorem warned_size_parses_back
        (int_of : string -> option Z) (w h : Z) :
  int_of (Py.str w) = Some w ->
  int_of (Py.str h) = Some h ->
  parse_image_size int_of (size_text w h) = Some [w; h]
  /\ (forall w0 h0,
         w = round16 w0 -> h = round16 h0 ->
         option_map fst (resolve [w; h])
         = Some (fst (to_latent_size (w0, h0)))).
Proof.
  intros Hw Hh. split.
  - unfold parse_image_size, size_text.
    change (Py.str w ++ "x" ++ Py.str h)%string
      with (Py.str w ++ String "x" (Py.str h))%string.
    rewrite PyFacts.split_app.
    rewrite !PyFacts.split_without by (apply str_without; reflexivity).
    cbn [app map_int]. rewrite Hw, Hh. reflexivity.
  - intros w0 h0 -> ->. cbn [resolve option_map]. f_equal.
    rewrite !ResolverFacts.to_latent_size_value, !round16_idempotent.
    reflexivity.
Qed.

Lemma plain_int_str (z : Z) : plain_int (Py.str z) = Some z.
Proof.
  unfold plain_int, Py.str.
  assert (Hnorm : forall d, Z.to_int z = d ->
                            Z.to_int (Z.of_int d) = d).
  { intros d <-. rewrite DecimalZ.of_to. reflexivity. }
  rewrite NilZero.isi.
  - cbn [option_map]. rewrite DecimalZ.of_to. reflexivity.
  - intros E. apply Hnorm in E. discriminate.
  - intros E. apply Hnorm in E. discriminate.
Qed.

Lemma warned_size_parses_back_witness :
  plain_int (Py.str 512) = Some 512
  /\ parse_image_size plain_int "512x304" = Some [512; 304].
Proof.
  split; [reflexivity |].
  exact (proj1 (@warned_size_parses_back plain_int 512 304
                  eq_refl eq_refl)).
Defined.

End SizeFacts.


(** ** File names *)

Module NameFacts.

Import Orchestrator.

Lemma append_inv_head (p s t : string) :
  (p ++ s)%string = (p ++ t)%string -> s = t.
Proof.
  induction p as [| c p IH]; cbn [String.append]; intros H; [exact H |].
  injection H as H. exact (IH H).
Qed.

Lemma append_length (s t : string) :
  String.length (s ++ t) = String.length s + String.length t.
Proof.
  induction s as [| c s IH]; [reflexivity |].
  cbn [String.append String.length]. rewrite IH. reflexivity.
Qed.

Lemma append_inv_tail (u s t : string) :
  (s ++ u)%string = (t ++ u)%string -> s = t.
Proof.
  revert t. induction s as [| c s IH]; intros [| d t] H.
  - reflexivity.
  - apply (f_equal String.length) in H.
    cbn [String.append String.length] in H.
    rewrite append_length in H. lia.
  - apply (f_equal String.length) in H.
    cbn [String.append String.length] in H.
    rewrite append_length in H. lia.
  - cbn [String.append] in H. injection H as -> H.
    f_equal. exact (IH _ H).
Qed.

(** [str] never gives two integers the same text. *)
Lemma str_injective (a b : Z) : Py.str a = Py.str b -> a = b.
Proof.
  intros H. pose proof (SizeFacts.plain_int_str a) as Ha.
  rewrite H, SizeFacts.plain_int_str in Ha. congruence.
Qed.

Lemma raw_name_injective (name suffix : string) (i j : nat) :
  raw_name name suffix i = raw_name name suffix j -> i = j.
Proof.
  unfold raw_name, Py.join. cbn [String.concat]. intros H.
  apply append_inv_head in H. apply append_inv_head in H.
  apply append_inv_tail in H. apply str_injective in H. lia.
Qed.

Lemma NoDup_map_injective {A B} (f : A -> B) (l : list A) :
  (forall x y, f x = f y -> x = y) -> NoDup l -> NoDup (map f l).
Proof.
  intros Hinj Hl. induction Hl as [| x l Hx Hl IH]; cbn [map].
  - constructor.
  - constructor; [| exact IH].
    rewrite in_map_iff. intros [y [E Hy]].
    apply Hinj in E. subst y. contradiction.
Qed.

End NameFacts.

(** ** Every outcome of a run *)

Module RunFacts.

Import Tensor Orchestrator History.

Section Runs.

Variables (L px : Type) (px0 : px) (quantize : px -> Z).
Variables img_h img_w img_c : nat.
Variable decode : list L -> Z * Z -> list (image px).
Variable pil_save : string -> tensor Z -> option exn.
Variable dur : event L px -> Z.
Variable peak_memory : list (event L px) -> Z.

Implicit Type w : world L px.

(** The batches the decoding loop collects. *)
Lemma decoding_returns (a : args) (ls : Z * Z) (x_t : option (list L))
      (starts : list Z) w :
  Py.range 0 (n_images a) (decoding_batch_size a) = Some starts ->
  (starts <> [] -> x_t <> None) ->
  decoding decode a ls x_t w
  = (inr (decoded_batches decode x_t ls (decoding_batch_size a) starts),
     extend w (decoding_events decode x_t ls (decoding_batch_size a)
                               starts)).
Proof.
  intros Hrange Hbound. unfold decoding, bind, lift. rewrite Hrange.
  unfold ret. destruct x_t as [x |].
  - rewrite OrchestratorFacts.decode_loop_bound. reflexivity.
  - destruct starts as [| i more].
    + cbn. rewrite OrchestratorFacts.extend_nil. reflexivity.
    + exfalso. apply Hbound; [discriminate | reflexivity].
Qed.

Lemma decoding_bad_step (a : args) (ls : Z * Z) (x_t : option (list L)) w :
  Py.range 0 (n_images a) (decoding_batch_size a) = None ->
  decoding decode a ls x_t w
  = (inl (ValueError "range() arg 3 must not be zero"), w).
Proof.
  intros Hrange. unfold decoding, bind, lift. rewrite Hrange. reflexivity.
Qed.

Lemma decoding_unbound (a : args) (ls : Z * Z) (i : Z) (more : list Z) w :
  Py.range 0 (n_images a) (decoding_batch_size a) = Some (i :: more) ->
  decoding decode a ls None w = (inl (NameError "x_t"), w).
Proof.
  intros Hrange. unfold decoding, bind, lift. rewrite Hrange. reflexivity.
Qed.

(** When the output stage raises, it has written raw files at most,
    and if it has written any, the exception is the one PIL raised on
    a later file. *)
Lemma save_output_raises (a : args) (decoded : list (list (image px)))
      w (e : exn) w1 :
  save_output px0 quantize img_h img_w img_c pil_save a decoded w
  = (inl e, w1) ->
  exists saves,
    w1 = extend w saves
    /\ forallb (@is_save L px) saves = true
    /\ (saves = []
        \/ (save_raw a = true
            /\ exists name im, pil_save name im = Some e)).
Proof.
  unfold save_output. destruct (save_raw a) eqn:Hraw.
  - destruct decoded as [| d rest].
    + destruct (OrchestratorFacts.save_raw_files_empty
                  px0 quantize img_h img_w img_c pil_save (output a) w)
        as [e' E].
      rewrite E. intros [= _ <-]. exists [].
      rewrite OrchestratorFacts.extend_nil.
      split; [reflexivity |]. split; [reflexivity | left; reflexivity].
    + destruct (OrchestratorFacts.unpack_split_some "." (output a))
        as [parts [suffix Hsplit]].
      rewrite (OrchestratorFacts.save_raw_files_outcome
                 px0 quantize img_h img_w img_c pil_save _ w Hsplit)
        by discriminate.
      cbv zeta.
      match goal with
      | |- context [refusal pil_save ?n ?sf ?x ?ix] =>
          destruct (refusal pil_save n sf x ix) as [e' |] eqn:Href
      end; [| discriminate].
      intros [= <- <-]. eexists. split; [reflexivity |].
      split; [apply OrchestratorFacts.forallb_is_save_raw_saves |].
      right. split; [reflexivity |].
      destruct (OrchestratorFacts.refusal_some _ _ _ _ _ Href)
        as (i & _ & Hi).
      eexists. eexists. exact Hi.
  - exists []. rewrite OrchestratorFacts.extend_nil.
    assert (Hw : w1 = w); [| subst w1; repeat split; left; reflexivity].
    revert H. destruct decoded as [| d rest].
    + cbn. intros [= _ <-]. reflexivity.
    + rewrite OrchestratorFacts.save_grid_trace by discriminate.
      destruct (grid px0 quantize img_h img_w img_c (n_rows a)
                     (List.concat (d :: rest))) as [e' | g];
        [intros [= _ <-]; reflexivity |].
      destruct (pil_save (output a) g);
        [intros [= _ <-]; reflexivity | discriminate].
Qed.

(** Running the block up to its first stage that can raise. *)
Ltac run_startup a :=
  match goal with |- _ = ?r => remember r as outcome eqn:Eoutcome end;
  unfold run, main, measured in *; unfold generated in *;
  rewrite !OrchestratorFacts.bind_emit, OrchestratorFacts.bind_preload;
  assert (Estart :
            [EvPrint (Py.str (n_images a))] ++ [EvPipeline]
              ++ (if preload_models a then [EvEnsureLoaded] else [])
              ++ map EvPrint
                     (snd (Resolver.to_latent_size (image_size a)))
              ++ [EvGenerate (n_images a) (steps a)
                    (fst (Resolver.to_latent_size (image_size a)))]
            = startup_events (L := L) (px := px) a) by reflexivity;
  destruct (Resolver.to_latent_size (image_size a)) as [ls printed];
  cbn [fst snd] in *;
  rewrite OrchestratorFacts.bind_prints, OrchestratorFacts.bind_emit,
    !OrchestratorFacts.extend_extend, Estart;
  clear Estart;
  generalize dependent (startup_events (L := L) (px := px) a);
  intros startup; intros;
  unfold extend at 1; cbn [latents trace app];
  unfold bind at 1.

Ltac run_generation :=
  rewrite OrchestratorFacts.controller_pulls;
  rewrite OrchestratorFacts.bind_emit,
    OrchestratorFacts.bind_get_peak_memory, OrchestratorFacts.bind_emit;
  rewrite !OrchestratorFacts.extend_extend;
  unfold extend at 1; cbn [latents trace];
  unfold bind at 1.

Ltac tidy :=
  unfold extend in *; cbn [latents trace] in *;
  repeat (progress (rewrite <- ?app_assoc in *;
                    cbn [app latents trace] in * )).

Lemma run_empty (a : args) :
  run px0 quantize img_h img_w img_c decode pil_save dur peak_memory a []
  = (inl StopIteration, {| latents := []; trace := startup_events a |}).
Proof.
  run_startup a. rewrite OrchestratorFacts.controller_empty.
  subst outcome. reflexivity.
Qed.

Lemma run_bad_step (a : args) (conditioning : list L)
      (rest : list (list L)) :
  Py.range 0 (n_images a) (decoding_batch_size a) = None ->
  run px0 quantize img_h img_w img_c decode pil_save dur peak_memory a
      (conditioning :: rest)
  = (inl (ValueError "range() arg 3 must not be zero"),
     {| latents := []; trace := generated a conditioning rest |}).
Proof.
  intros Hrange. run_startup a. run_generation.
  rewrite decoding_bad_step by exact Hrange.
  subst outcome. tidy. reflexivity.
Qed.

Lemma run_unbound (a : args) (conditioning : list L) (i : Z)
      (more : list Z) :
  Py.range 0 (n_images a) (decoding_batch_size a) = Some (i :: more) ->
  run px0 quantize img_h img_w img_c decode pil_save dur peak_memory a
      [conditioning]
  = (inl (NameError "x_t"),
     {| latents := []; trace := generated a conditioning [] |}).
Proof.
  intros Hrange. run_startup a. run_generation.
  cbn [map last].
  rewrite (decoding_unbound _ _ _ Hrange).
  subst outcome. tidy. reflexivity.
Qed.

Lemma run_output_raises (a : args) (conditioning : list L)
      (rest : list (list L)) (starts : list Z) (e : exn)
      (saves : list (event L px)) :
  let ls := fst (Resolver.to_latent_size (image_size a)) in
  let bs := decoding_batch_size a in
  let x_t := last (map Some rest) None in
  let decodes := decoding_events decode x_t ls bs starts in
  let w2 := {| latents := [];
               trace := generated a conditioning rest
                          ++ decodes ++ [EvGetPeak] |} in
  Py.range 0 (n_images a) bs = Some starts ->
  (starts <> [] -> x_t <> None) ->
  save_output px0 quantize img_h img_w img_c pil_save a
              (decoded_batches decode x_t ls bs starts) w2
  = (inl e, extend w2 saves) ->
  run px0 quantize img_h img_w img_c decode pil_save dur peak_memory a
      (conditioning :: rest)
  = (inl e, extend w2 saves).
Proof.
  cbv zeta. intros Hrange Hbound Hsave. run_startup a. run_generation.
  rewrite (@decoding_returns a ls _ starts _ Hrange Hbound).
  rewrite OrchestratorFacts.bind_get_peak_memory.
  rewrite !OrchestratorFacts.extend_extend.
  unfold bind at 1. tidy. rewrite Hsave. subst outcome. reflexivity.
Qed.

Lemma run_returns (a : args) (conditioning : list L)
      (rest : list (list L)) (starts : list Z) (u : unit)
      (saves : list (event L px)) :
  let ls := fst (Resolver.to_latent_size (image_size a)) in
  let bs := decoding_batch_size a in
  let x_t := last (map Some rest) None in
  let decodes := decoding_events decode x_t ls bs starts in
  let w2 := {| latents := [];
               trace := generated a conditioning rest
                          ++ decodes ++ [EvGetPeak] |} in
  let t := measured dur peak_memory a conditioning rest decodes saves in
  Py.range 0 (n_images a) bs = Some starts ->
  (starts <> [] -> x_t <> None) ->
  save_output px0 quantize img_h img_w img_c pil_save a
              (decoded_batches decode x_t ls bs starts) w2
  = (inr u, extend w2 saves) ->
  run px0 quantize img_h img_w img_c decode pil_save dur peak_memory a
      (conditioning :: rest)
  = (inr t,
     extend w2 (saves ++ [EvPerfCounter]
                  ++ if verbose a then [EvReport t] else [])).
Proof.
  cbv zeta. intros Hrange Hbound Hsave. run_startup a. run_generation.
  rewrite (@decoding_returns a ls _ starts _ Hrange Hbound).
  rewrite OrchestratorFacts.bind_get_peak_memory.
  rewrite !OrchestratorFacts.extend_extend.
  unfold bind at 1. tidy. rewrite Hsave.
  rewrite OrchestratorFacts.bind_perf_counter.
  subst outcome.
  destruct (verbose a); unfold bind, emit, ret; tidy; reflexivity.
Qed.

(** *** Kinds of events, stage by stage *)

Lemma free_of_app (k : kind) (a b : list (event L px)) :
  free_of k (a ++ b) = free_of k a && free_of k b.
Proof. apply forallb_app. Qed.

Lemma free_of_startup (k : kind) (a : args) :
  existsb (kind_eqb k) [KPrint; KPipeline; KEnsureLoaded; KGenerate] = false ->
  free_of k (startup_events (L := L) (px := px) a) = true.
Proof.
  intros Hk. unfold startup_events. rewrite !free_of_app.
  assert (Hprints : forall lines,
             free_of k (map (@EvPrint L px) lines) = true).
  { unfold free_of.
    induction lines as [| l lines IH]; [reflexivity |].
    cbn [map forallb kind_of]. rewrite IH.
    destruct k; try reflexivity; discriminate. }
  rewrite Hprints.
  destruct (preload_models a); destruct k; try reflexivity; discriminate.
Qed.

Lemma free_of_conditioning (k : kind) (c : list L) :
  existsb (kind_eqb k) [KNext; KEval; KGetPeak; KResetPeak; KDelT5] = false ->
  free_of k (conditioning_events (px := px) c) = true.
Proof. intros Hk. destruct k; try reflexivity; discriminate. Qed.

Lemma free_of_denoise (k : kind) (items : list (list L)) :
  existsb (kind_eqb k) [KNext; KEval] = false ->
  free_of k (flat_map (@denoise_events L px) items) = true.
Proof.
  intros Hk. induction items as [| x items IH]; [reflexivity |].
  cbn [flat_map]. rewrite free_of_app, IH.
  destruct k; try reflexivity; discriminate.
Qed.

Lemma free_of_decoding (k : kind) (x_t : option (list L)) (ls : Z * Z)
      (bs : Z) (starts : list Z) :
  existsb (kind_eqb k) [KDecode; KEval] = false ->
  free_of k (decoding_events decode x_t ls bs starts) = true.
Proof.
  intros Hk. destruct x_t as [x |]; [| reflexivity].
  cbn [decoding_events].
  induction starts as [| i starts IH]; [reflexivity |].
  cbn [flat_map]. rewrite free_of_app, IH.
  destruct k; try reflexivity; discriminate.
Qed.

Lemma free_of_saves (k : kind) (saves : list (event L px)) :
  kind_eqb k KSave = false ->
  forallb (@is_save L px) saves = true ->
  free_of k saves = true.
Proof.
  intros Hk. induction saves as [| e saves IH]; [reflexivity |].
  unfold free_of in *. cbn [forallb]. intros H.
  apply andb_true_iff in H. destruct H as [He Hs].
  rewrite (IH Hs).
  destruct e; try discriminate. destruct k; try reflexivity; discriminate.
Qed.

Lemma free_of_generated (k : kind) (a : args) (c : list L)
      (rest : list (list L)) :
  existsb (kind_eqb k)
          [KPrint; KPipeline; KEnsureLoaded; KGenerate; KNext; KEval;
           KGetPeak; KResetPeak; KDelT5; KPerfCounter; KDelFlow] = false ->
  free_of k (generated (px := px) a c rest) = true.
Proof.
  intros Hk. unfold generated. rewrite !free_of_app.
  rewrite free_of_startup, free_of_conditioning, free_of_denoise
    by (destruct k; try reflexivity; discriminate).
  destruct k; try reflexivity; discriminate.
Qed.

Lemma saved_files_free (tr : list (event L px)) :
  free_of KSave tr = true -> saved_files tr = [].
Proof.
  induction tr as [| e tr IH]; [reflexivity |].
  unfold free_of, saved_files in *. cbn [forallb flat_map]. intros H.
  apply andb_true_iff in H. destruct H as [He Ht].
  rewrite (IH Ht).
  destruct e; try reflexivity; discriminate.
Qed.

Lemma saved_files_app (a b : list (event L px)) :
  saved_files (a ++ b) = saved_files a ++ saved_files b.
Proof. apply flat_map_app. Qed.

Lemma last_some_default (l : list (list L)) (d : list L) :
  last (map Some l) (Some d) <> None.
Proof.
  revert d. induction l as [| x l IH]; intros d; [discriminate |].
  cbn [map]. rewrite OrchestratorFacts.last_cons_default. apply IH.
Qed.

Lemma last_none (rest : list (list L)) :
  last (map Some rest) None = None -> rest = [].
Proof.
  destruct rest as [| x rest]; [reflexivity |].
  cbn [map]. rewrite OrchestratorFacts.last_cons_default.
  intros H. exfalso. exact (last_some_default _ _ H).
Qed.

Lemma decoded_batches_nonempty (x_t : option (list L)) (ls : Z * Z)
      (bs : Z) (starts : list Z) :
  decoded_batches decode x_t ls bs starts <> [] ->
  starts <> [] /\ x_t <> None.
Proof.
  destruct x_t as [x |]; cbn [decoded_batches].
  - destruct starts; [intros N; contradiction N; reflexivity |].
    intros _. split; discriminate.
  - intros N. contradiction N. reflexivity.
Qed.

(** What a run does, case by case. *)
Lemma run_outcomes (a : args) (items : list (list L)) :
  let go := run px0 quantize img_h img_w img_c decode pil_save dur peak_memory a in
  (items = []
   /\ go items = (inl StopIteration,
                  {| latents := []; trace := startup_events a |}))
  \/ exists conditioning rest,
      items = conditioning :: rest
      /\ let ls := fst (Resolver.to_latent_size (image_size a)) in
         let bs := decoding_batch_size a in
         let x_t := last (map Some rest) None in
         let w1 := {| latents := [];
                      trace := generated a conditioning rest |} in
         (Py.range 0 (n_images a) bs = None
          /\ go items
             = (inl (ValueError "range() arg 3 must not be zero"), w1))
         \/ (exists i more,
                Py.range 0 (n_images a) bs = Some (i :: more)
                /\ rest = []
                /\ go items = (inl (NameError "x_t"), w1))
         \/ exists starts,
             let decodes := decoding_events decode x_t ls bs starts in
             let w2 := {| latents := [];
                          trace := generated a conditioning rest
                                     ++ decodes ++ [EvGetPeak] |} in
             Py.range 0 (n_images a) bs = Some starts
             /\ (starts <> [] -> x_t <> None)
             /\ ((exists e saves,
                     save_output px0 quantize img_h img_w img_c pil_save a
                                 (decoded_batches decode x_t ls bs starts) w2
                     = (inl e, extend w2 saves)
                     /\ forallb (@is_save L px) saves = true
                     /\ (saves = []
                         \/ (save_raw a = true
                             /\ exists name im, pil_save name im = Some e))
                     /\ go items = (inl e, extend w2 saves))
                 \/ exists saves,
                     let t := measured dur peak_memory a conditioning rest
                                       decodes saves in
                     save_output px0 quantize img_h img_w img_c pil_save a
                                 (decoded_batches decode x_t ls bs starts) w2
                     = (inr tt, extend w2 saves)
                     /\ forallb (@is_save L px) saves = true
                     /\ starts <> [] /\ x_t <> None
                     /\ go items
                        = (inr t,
                           extend w2 (saves ++ [EvPerfCounter]
                                        ++ if verbose a then [EvReport t]
                                           else []))).
Proof.
  cbv zeta. destruct items as [| conditioning rest].
  { left. split; [reflexivity | apply run_empty]. }
  right. exists conditioning, rest. split; [reflexivity |].
  destruct (Py.range 0 (n_images a) (decoding_batch_size a))
    as [starts |] eqn:Hrange.
  2: { left. split; [reflexivity | apply run_bad_step; exact Hrange]. }
  right.
  destruct (last (map Some rest) None) as [x |] eqn:Hlast.
  - right. exists starts. split; [reflexivity |].
    split; [intros _; discriminate |].
    match goal with
    | |- context [save_output px0 quantize img_h img_w img_c pil_save a ?d ?w] =>
        destruct (save_output px0 quantize img_h img_w img_c pil_save a d w)
          as [[e | u] w3] eqn:Hsave
    end.
    + left.
      destruct (save_output_raises _ _ _ Hsave)
        as (saves & -> & Hsaves & Horigin).
      exists e, saves.
      split; [reflexivity |]. split; [exact Hsaves |].
      split; [exact Horigin |].
      rewrite <- Hlast in *.
      apply run_output_raises with (starts := starts); try assumption.
      rewrite Hlast. discriminate.
    + right.
      pose proof Hsave as Hout.
      apply OrchestratorFacts.save_output_inr in Hout.
      destruct Hout as [saves [-> [Hsaves Hdecoded]]].
      exists saves. destruct u.
      split; [reflexivity |]. split; [exact Hsaves |].
      apply decoded_batches_nonempty in Hdecoded.
      destruct Hdecoded as [Hstarts _].
      split; [exact Hstarts |]. split; [discriminate |].
      rewrite <- Hlast in *.
      apply run_returns with (u := tt); try assumption.
      rewrite Hlast. discriminate.
  - apply last_none in Hlast. subst rest.
    destruct starts as [| i more].
    + right. exists []. split; [reflexivity |].
      split; [intros N; contradiction N; reflexivity |].
      left. cbn [decoded_batches decoding_events map last app].
      match goal with
      | |- context [save_output px0 quantize img_h img_w img_c pil_save a [] ?w] =>
          destruct (save_output px0 quantize img_h img_w img_c pil_save a [] w)
            as [[e | u] w3] eqn:Hsave
      end.
      * destruct (save_output_raises _ _ _ Hsave)
          as (saves & -> & Hsaves & Horigin).
        exists e, saves.
        split; [reflexivity |]. split; [exact Hsaves |].
        split; [exact Horigin |].
        apply (@run_output_raises a conditioning [] [] e saves Hrange);
          [intros N; contradiction N; reflexivity | exact Hsave].
      * apply OrchestratorFacts.save_output_inr in Hsave.
        destruct Hsave as [saves [_ [_ Hdecoded]]].
        contradiction Hdecoded. reflexivity.
    + left. exists i, more. split; [reflexivity |].
      split; [reflexivity |].
      apply run_unbound with (i := i) (more := more). exact Hrange.
Qed.


(** *** Properties of every run *)

Lemma pulled_generated (a : args) (c : list L) (rest : list (list L)) :
  pulled (generated (px := px) a c rest) = c :: rest.
Proof.
  unfold generated.
  rewrite !OrchestratorFacts.pulled_app,
    OrchestratorFacts.pulled_startup_events,
    OrchestratorFacts.pulled_denoise_events.
  cbn. rewrite app_nil_r. reflexivity.
Qed.

(** X6: whatever [--steps] says, the block drains the generator: after
    any run, returned or raised, the items pulled are exactly the items
    the generator had to yield, in order, and none is left. *)
Theorem every_run_drains_the_generator (a : args) (items : list (list L)) :
  let r := run px0 quantize img_h img_w img_c decode pil_save dur peak_memory
               a items in
  pulled (trace (snd r)) = items /\ latents (snd r) = [].
Proof.
  cbv zeta.
  destruct (run_outcomes a items) as [[-> Hrun] | Hrun].
  { rewrite Hrun. cbn [snd trace latents].
    rewrite OrchestratorFacts.pulled_startup_events. split; reflexivity. }
  destruct Hrun as (c & rest & -> & Hrun). cbv zeta in Hrun.
  destruct Hrun as [[_ Hrun] | [(i & more & _ & _ & Hrun) | Hrun]];
    try (rewrite Hrun; cbn [snd trace latents];
         rewrite pulled_generated; split; reflexivity).
  destruct Hrun as (starts & _ & _ & Hrun).
  destruct Hrun as [(e & saves & _ & Hsaves & _ & Hrun)
                   | (saves & _ & Hsaves & _ & _ & Hrun)];
    rewrite Hrun; cbn [snd trace latents extend];
    rewrite !OrchestratorFacts.pulled_app, pulled_generated,
      OrchestratorFacts.pulled_decoding_events.
  - rewrite (OrchestratorFacts.pulled_saves _ Hsaves).
    cbn. rewrite ?app_nil_r. split; reflexivity.
  - rewrite (OrchestratorFacts.pulled_saves _ Hsaves).
    destruct (verbose a); cbn; rewrite ?app_nil_r; split; reflexivity.
Qed.

Lemma saved_names_free (tr : list (event L px)) :
  free_of KSave tr = true -> saved_names tr = [].
Proof.
  intros Hfree. induction tr as [| ev tr IH]; [reflexivity |].
  unfold free_of in *. cbn [forallb] in Hfree.
  apply andb_true_iff in Hfree. destruct Hfree as [He Ht].
  unfold saved_names in *. cbn [flat_map]. rewrite (IH Ht).
  destruct ev; try reflexivity; discriminate.
Qed.

(** X7: every exception the block raises itself (exhausted generator,
    unbound [x_t], zero range step, nothing to concatenate, zero rows,
    refused reshape) is raised before the first save: a run that ends
    with an exception has written no file, unless it is a run in raw
    mode and the exception is the one PIL raised on one of the files. *)
Theorem a_raised_run_has_saved_nothing
        (a : args) (items : list (list L)) (e : exn) w' :
  run px0 quantize img_h img_w img_c decode pil_save dur peak_memory a items
  = (inl e, w') ->
  (saved_files (trace w') = [] /\ saved_names (trace w') = [])
  \/ (save_raw a = true /\ exists name im, pil_save name im = Some e).
Proof.
  intros Hraised.
  assert (Hfree : free_of KSave (trace w') = true
                  \/ (save_raw a = true
                      /\ exists name im, pil_save name im = Some e)).
  { destruct (run_outcomes a items) as [[-> Hrun] | Hrun].
    { left. rewrite Hrun in Hraised. apply (f_equal snd) in Hraised.
      cbn [snd] in Hraised. subst w'.
      apply free_of_startup. reflexivity. }
    destruct Hrun as (c & rest & -> & Hrun). cbv zeta in Hrun.
    destruct Hrun as [[_ Hrun] | [(i & more & _ & _ & Hrun) | Hrun]];
      try (left; rewrite Hrun in Hraised; apply (f_equal snd) in Hraised;
           cbn [snd] in Hraised; subst w';
           apply free_of_generated; reflexivity).
    destruct Hrun as (starts & _ & _ & Hrun).
    destruct Hrun as [(e' & saves & _ & _ & Horigin & Hrun)
                     | (saves & _ & _ & _ & _ & Hrun)];
      rewrite Hrun in Hraised; [| discriminate].
    pose proof (f_equal fst Hraised) as He. cbn [fst] in He.
    injection He as <-.
    apply (f_equal snd) in Hraised. cbn [snd] in Hraised. subst w'.
    destruct Horigin as [-> | Hpil]; [left | right; exact Hpil].
    rewrite OrchestratorFacts.extend_nil. cbv beta iota delta [trace].
    rewrite !free_of_app, free_of_generated, free_of_decoding
      by reflexivity.
    reflexivity. }
  destruct Hfree as [Hfree | Hpil]; [left | right; exact Hpil].
  split; [apply saved_files_free | apply saved_names_free]; exact Hfree.
Qed.

(** X8: on a generator that yields nothing, the first [next] raises
    StopIteration after the pipeline has been constructed (and preloaded
    when asked) and the size warning printed; nothing is pulled, timed,
    measured, decoded or saved. *)
Theorem empty_generator_stops_after_startup (a : args) :
  run px0 quantize img_h img_w img_c decode pil_save dur peak_memory a []
  = (inl StopIteration, {| latents := []; trace := startup_events a |})
  /\ select [KPipeline; KEnsureLoaded] (startup_events (L := L) (px := px) a)
     = KPipeline :: (if preload_models a then [KEnsureLoaded] else [])
  /\ forallb (fun k => free_of k (startup_events (L := L) (px := px) a))
             [KNext; KPerfCounter; KGetPeak; KDecode; KSave] = true.
Proof.
  split; [apply run_empty |]. split.
  - unfold select, startup_events. rewrite !map_app, !filter_app.
    assert (Hprints : forall lines,
               filter (fun k => existsb (kind_eqb k)
                                        [KPipeline; KEnsureLoaded])
                      (map kind_of (map (@EvPrint L px) lines)) = []).
    { induction lines as [| l lines IH]; [reflexivity | exact IH]. }
    rewrite Hprints. destruct (preload_models a); reflexivity.
  - cbn [forallb]. rewrite !free_of_startup by reflexivity. reflexivity.
Qed.

Lemma range_positive_cons (n bs : Z) :
  (1 <= n)%Z -> (1 <= bs)%Z ->
  exists more, Py.range 0 n bs = Some (0%Z :: more).
Proof.
  intros Hn Hbs. rewrite (RangeFacts.range_positive Hn Hbs).
  destruct (RangeFacts.chunk_count_covers Hn Hbs) as [_ Hm].
  destruct (Z.to_nat ((n - 1) / bs + 1)) as [| m] eqn:Em; [lia |].
  cbn [seq map]. eexists. reflexivity.
Qed.

(** X9: when the generator yields the conditioning item only (no
    denoising step), [x_t] is never bound: with at least one image and a
    positive batch size the run ends with NameError at the first pass of
    the decoding loop, after the generation bookkeeping; nothing is
    decoded or saved. *)
Theorem no_denoising_step_leaves_x_t_unbound
        (a : args) (conditioning : list L) :
  (1 <= n_images a)%Z -> (1 <= decoding_batch_size a)%Z ->
  run px0 quantize img_h img_w img_c decode pil_save dur peak_memory a
      [conditioning]
  = (inl (NameError "x_t"),
     {| latents := []; trace := generated a conditioning [] |})
  /\ free_of KDecode (generated (px := px) a conditioning []) = true
  /\ free_of KSave (generated (px := px) a conditioning []) = true.
Proof.
  intros Hn Hbs.
  destruct (range_positive_cons Hn Hbs) as [more Hrange].
  split; [apply run_unbound with (i := 0%Z) (more := more); exact Hrange |].
  split; apply free_of_generated; reflexivity.
Qed.

Lemma range_nonempty_signs (n bs : Z) (starts : list Z) :
  Py.range 0 n bs = Some starts -> starts <> [] ->
  (0 < n /\ 0 < bs)%Z \/ (n < 0 /\ bs < 0)%Z.
Proof.
  unfold Py.range, Py.range_len.
  destruct (Z.eqb_spec bs 0); [discriminate |].
  intros [= <-] Hne.
  destruct (Z.ltb_spec 0 bs).
  - destruct (Z.ltb_spec 0 n); [left; lia |].
    contradiction Hne. reflexivity.
  - destruct (Z.ltb_spec n 0); [right; lia |].
    contradiction Hne. reflexivity.
Qed.

(** X10: a run returns only when the image count and the decoding batch
    size have the same sign and neither is zero: with a batch size of
    zero or below and a non-negative image count, or with no image, it
    always ends with an exception. *)
Theorem a_returned_run_had_batches_to_decode
        (a : args) (items : list (list L)) (t : telemetry) w' :
  run px0 quantize img_h img_w img_c decode pil_save dur peak_memory a items
  = (inr t, w') ->
  (0 < n_images a /\ 0 < decoding_batch_size a)%Z
  \/ (n_images a < 0 /\ decoding_batch_size a < 0)%Z.
Proof.
  intros Hret.
  destruct (run_outcomes a items) as [[-> Hrun] | Hrun];
    [rewrite Hrun in Hret; discriminate |].
  destruct Hrun as (c & rest & -> & Hrun). cbv zeta in Hrun.
  destruct Hrun as [[_ Hrun] | [(i & more & _ & _ & Hrun) | Hrun]];
    try (rewrite Hrun in Hret; discriminate).
  destruct Hrun as (starts & Hrange & _ & Hrun).
  destruct Hrun as [(e & failed & _ & _ & _ & Hrun)
                   | (saves & _ & _ & Hstarts & _ & _)];
    [rewrite Hrun in Hret; discriminate |].
  exact (range_nonempty_signs _ _ Hrange Hstarts).
Qed.

(** X11: [--verbose] only adds the report: with the flag and without it
    a run ends the same way, with the same measurements or the same
    exception, and the history with the flag is the history without it
    followed, when the run returns, by the report of these
    measurements. *)
Theorem verbose_only_adds_the_report (a : args) (items : list (list L)) :
  let quiet_run := run px0 quantize img_h img_w img_c decode pil_save dur peak_memory
                       (with_verbose a false) items in
  let loud_run := run px0 quantize img_h img_w img_c decode pil_save dur peak_memory
                      (with_verbose a true) items in
  fst loud_run = fst quiet_run
  /\ trace (snd loud_run)
     = trace (snd quiet_run)
         ++ match fst quiet_run with
            | inr t => [EvReport t]
            | inl _ => []
            end.
Proof.
  cbv zeta.
  destruct (run_outcomes (with_verbose a false) items)
    as [[-> Hrun] | Hrun].
  { rewrite Hrun, (run_empty (with_verbose a true)).
    cbn [fst snd trace]. rewrite app_nil_r. split; reflexivity. }
  destruct Hrun as (c & rest & -> & Hrun). cbv zeta in Hrun.
  destruct Hrun as [[Hrange Hrun] | [(i & more & Hrange & -> & Hrun) | Hrun]].
  { rewrite Hrun,
      (@run_bad_step (with_verbose a true) c rest Hrange).
    cbn [fst snd trace]. rewrite app_nil_r. split; reflexivity. }
  { rewrite Hrun,
      (@run_unbound (with_verbose a true) c i more Hrange).
    cbn [fst snd trace]. rewrite app_nil_r. split; reflexivity. }
  destruct Hrun as (starts & Hrange & Hbound & Hrun).
  destruct Hrun as [(e & failed & Hsave & _ & _ & Hrun)
                   | (saves & Hsave & _ & _ & _ & Hrun)].
  { rewrite Hrun,
      (@run_output_raises (with_verbose a true) c rest starts e failed
                          Hrange Hbound Hsave).
    cbn [fst snd trace]. rewrite app_nil_r. split; reflexivity. }
  rewrite Hrun,
    (@run_returns (with_verbose a true) c rest starts tt saves
                  Hrange Hbound Hsave).
  cbn [fst snd verbose with_verbose].
  split; [reflexivity |].
  unfold extend. cbn [trace]. rewrite !app_nil_r, <- !app_assoc.
  reflexivity.
Qed.


(** *** The order of events in a run that returns *)

Lemma kinds_startup (a : args) :
  map kind_of (startup_events (L := L) (px := px) a)
  = [KPrint; KPipeline]
      ++ (if preload_models a then [KEnsureLoaded] else [])
      ++ repeat KPrint
                (List.length (snd (Resolver.to_latent_size (image_size a))))
      ++ [KGenerate].
Proof.
  unfold startup_events. rewrite !map_app.
  assert (Hprints : forall lines,
             map kind_of (map (@EvPrint L px) lines)
             = repeat KPrint (List.length lines)).
  { induction lines as [| l lines IH]; [reflexivity |].
    cbn [map List.length repeat kind_of]. rewrite IH. reflexivity. }
  rewrite Hprints. destruct (preload_models a); reflexivity.
Qed.

Lemma kinds_denoise (items : list (list L)) :
  map kind_of (flat_map (@denoise_events L px) items)
  = List.concat (repeat [KNext; KEval] (List.length items)).
Proof.
  induction items as [| x items IH]; [reflexivity |].
  cbn [flat_map List.length repeat List.concat].
  rewrite map_app, IH. reflexivity.
Qed.

Lemma kinds_decoding (x : list L) (ls : Z * Z) (bs : Z) (starts : list Z) :
  map kind_of (decoding_events decode (Some x) ls bs starts)
  = List.concat (repeat [KDecode; KEval] (List.length starts)).
Proof.
  cbn [decoding_events].
  induction starts as [| i starts IH]; [reflexivity |].
  cbn [flat_map List.length repeat List.concat].
  rewrite map_app, IH. reflexivity.
Qed.

Lemma kinds_saves (saves : list (event L px)) :
  forallb (@is_save L px) saves = true ->
  map kind_of saves = repeat KSave (List.length saves).
Proof.
  induction saves as [| e saves IH]; [reflexivity |].
  cbn [forallb]. intros H. apply andb_true_iff in H.
  destruct H as [He Hs].
  cbn [map List.length repeat]. rewrite (IH Hs).
  destruct e; try discriminate. reflexivity.
Qed.

Lemma at_most_one_warning (size : Z * Z) :
  List.length (snd (Resolver.to_latent_size size)) <= 1.
Proof.
  destruct size as [w h]. unfold Resolver.to_latent_size. cbn [snd].
  destruct (negb _); cbn; lia.
Qed.

Lemma save_output_grid_returns (a : args)
      (decoded : list (list (image px))) w (saves : list (event L px)) :
  save_raw a = false ->
  save_output px0 quantize img_h img_w img_c pil_save a decoded w
  = (inr tt, extend w saves) ->
  exists g,
    grid px0 quantize img_h img_w img_c (n_rows a) (List.concat decoded)
    = inr g
    /\ saves = [EvSave (output a) g].
Proof.
  intros Hraw. unfold save_output. rewrite Hraw.
  destruct decoded as [| d rest]; [discriminate |].
  rewrite OrchestratorFacts.save_grid_trace by discriminate.
  destruct (grid px0 quantize img_h img_w img_c (n_rows a)
                 (List.concat (d :: rest))) as [e | g]; [discriminate |].
  destruct (pil_save (output a) g); [discriminate |].
  intros Hsave. exists g. split; [reflexivity |].
  apply (f_equal snd) in Hsave. cbn [snd] in Hsave.
  apply (f_equal (@trace L px)) in Hsave. unfold extend in Hsave.
  cbn [trace] in Hsave. apply app_inv_head in Hsave. symmetry. exact Hsave.
Qed.

(** The kinds of the events of a run that returns, in order. *)
Lemma returned_run_kinds
      (a : args) (items : list (list L)) (t : telemetry) w' :
  run px0 quantize img_h img_w img_c decode pil_save dur peak_memory a items
  = (inr t, w') ->
  exists p k starts s,
    p <= 1
    /\ List.length items = S k /\ 1 <= k
    /\ Py.range 0 (n_images a) (decoding_batch_size a) = Some starts
    /\ 1 <= List.length starts
    /\ (save_raw a = false -> s = 1)
    /\ map kind_of (trace w')
       = [KPrint; KPipeline]
           ++ (if preload_models a then [KEnsureLoaded] else [])
           ++ repeat KPrint p
           ++ [KGenerate; KNext; KEval; KGetPeak; KResetPeak; KDelT5;
               KPerfCounter]
           ++ List.concat (repeat [KNext; KEval] k)
           ++ [KDelFlow; KGetPeak; KResetPeak]
           ++ List.concat (repeat [KDecode; KEval] (List.length starts))
           ++ [KGetPeak]
           ++ repeat KSave s
           ++ [KPerfCounter]
           ++ (if verbose a then [KReport] else []).
Proof.
  intros Hret.
  destruct (run_outcomes a items) as [[-> Hrun] | Hrun];
    [rewrite Hrun in Hret; discriminate |].
  destruct Hrun as (c & rest & -> & Hrun). cbv zeta in Hrun.
  destruct Hrun as [[_ Hrun] | [(i & more & _ & _ & Hrun) | Hrun]];
    try (rewrite Hrun in Hret; discriminate).
  destruct Hrun as (starts & Hrange & _ & Hrun).
  destruct Hrun as [(e & failed & _ & _ & _ & Hrun)
                   | (saves & Hsave & Hsaves & Hstarts & Hx & Hrun)];
    [rewrite Hrun in Hret; discriminate |].
  rewrite Hrun in Hret. apply (f_equal snd) in Hret. cbn [snd] in Hret.
  subst w'.
  exists (List.length (snd (Resolver.to_latent_size (image_size a)))),
    (List.length rest), starts, (List.length saves).
  split; [apply at_most_one_warning |].
  split; [reflexivity |].
  split.
  { destruct rest; [contradiction Hx; reflexivity | cbn; lia]. }
  split; [exact Hrange |].
  split; [destruct starts; [contradiction Hstarts; reflexivity | cbn; lia] |].
  split.
  { intros Hraw.
    destruct (@save_output_grid_returns _ _ _ _ Hraw Hsave) as [g [_ ->]].
    reflexivity. }
  destruct (last (map Some rest) None) as [x |] eqn:Hlast;
    [| contradiction Hx; reflexivity].
  unfold extend, generated. cbv beta iota delta [trace].
  rewrite !map_app, kinds_startup, kinds_denoise, kinds_decoding,
    (kinds_saves _ Hsaves).
  destruct (verbose a); cbn [map kind_of conditioning_events];
    rewrite <- !app_assoc; reflexivity.
Qed.

Lemma filter_repeat_drop {A} (f : A -> bool) (x : A) (n : nat) :
  f x = false -> filter f (repeat x n) = [].
Proof.
  intros Hx. induction n as [| n IH]; [reflexivity |].
  cbn [repeat filter]. rewrite Hx. exact IH.
Qed.

Lemma filter_repeat_keep {A} (f : A -> bool) (x : A) (n : nat) :
  f x = true -> filter f (repeat x n) = repeat x n.
Proof.
  intros Hx. induction n as [| n IH]; [reflexivity |].
  cbn [repeat filter]. rewrite Hx, IH. reflexivity.
Qed.

Lemma filter_concat_repeat {A} (f : A -> bool) (l : list A) (n : nat) :
  filter f (List.concat (repeat l n))
  = List.concat (repeat (filter f l) n).
Proof.
  induction n as [| n IH]; [reflexivity |].
  cbn [repeat List.concat]. rewrite filter_app, IH. reflexivity.
Qed.

Lemma concat_repeat_nil {A} (n : nat) :
  List.concat (repeat (@nil A) n) = [].
Proof. induction n as [| n IH]; [reflexivity | exact IH]. Qed.

(** X12: in every run that returns the stages follow one another and
    the models are released at the stage boundaries: the conditioning
    item is pulled and evaluated, the text encoder released, the timer
    started; then every denoising item is pulled and at once evaluated;
    only then is the flow model released; then every sub-batch is
    decoded and at once evaluated; then the files are saved (one file in
    grid mode) and the timer is read.  There is at least one denoising
    step and one decoded sub-batch per start of the range. *)
Theorem stages_and_releases_in_order
        (a : args) (items : list (list L)) (t : telemetry) w' :
  run px0 quantize img_h img_w img_c decode pil_save dur peak_memory a items
  = (inr t, w') ->
  exists k starts s,
    List.length items = S k /\ 1 <= k
    /\ Py.range 0 (n_images a) (decoding_batch_size a) = Some starts
    /\ 1 <= List.length starts
    /\ (save_raw a = false -> s = 1)
    /\ select [KNext; KEval; KDelT5; KPerfCounter; KDelFlow; KDecode; KSave]
              (trace w')
       = [KNext; KEval; KDelT5; KPerfCounter]
           ++ List.concat (repeat [KNext; KEval] k)
           ++ [KDelFlow]
           ++ List.concat (repeat [KDecode; KEval] (List.length starts))
           ++ repeat KSave s
           ++ [KPerfCounter].
Proof.
  intros Hret.
  destruct (@returned_run_kinds _ _ _ _ Hret)
    as (p & k & starts & s & _ & Hlen & Hk & Hrange & Hm & Hs & Hkinds).
  exists k, starts, s.
  repeat (split; [assumption |]).
  unfold select. rewrite Hkinds, !filter_app, !filter_concat_repeat.
  rewrite (filter_repeat_drop _ KPrint) by reflexivity.
  rewrite (filter_repeat_keep _ KSave) by reflexivity.
  destruct (preload_models a), (verbose a); reflexivity.
Qed.

(** X13: in every run that returns the peak-memory counter is read
    three times and reset twice, a reset directly after each of the
    first two readings: the first reading is taken before any reset has
    happened, so it counts everything since the process started, and
    the counter is left unreset after the last. *)
Theorem three_readings_two_resets
        (a : args) (items : list (list L)) (t : telemetry) w' :
  run px0 quantize img_h img_w img_c decode pil_save dur peak_memory a items
  = (inr t, w') ->
  select [KGetPeak; KResetPeak] (trace w')
  = [KGetPeak; KResetPeak; KGetPeak; KResetPeak; KGetPeak].
Proof.
  intros Hret.
  destruct (@returned_run_kinds _ _ _ _ Hret)
    as (p & k & starts & s & _ & _ & _ & _ & _ & _ & Hkinds).
  unfold select. rewrite Hkinds, !filter_app, !filter_concat_repeat.
  rewrite (filter_repeat_drop _ KPrint) by reflexivity.
  rewrite (filter_repeat_drop _ KSave) by reflexivity.
  cbn [filter existsb kind_eqb orb].
  rewrite !concat_repeat_nil.
  destruct (preload_models a), (verbose a); reflexivity.
Qed.


(** *** The files of a run that returns *)

Lemma saved_names_files (tr : list (event L px)) :
  saved_names tr = map fst (saved_files tr).
Proof.
  induction tr as [| e tr IH]; [reflexivity |].
  unfold saved_names, saved_files in *. cbn [flat_map].
  rewrite map_app, IH. destruct e; reflexivity.
Qed.

Lemma saved_files_raw_saves (name suffix : string) (x : tensor Z)
      (indices : list nat) :
  saved_files (raw_saves (L := L) (px := px) name suffix x indices)
  = map (fun i => (raw_name name suffix i, row x i)) indices.
Proof.
  induction indices as [| i indices IH]; [reflexivity |].
  unfold saved_files, raw_saves in *. cbn [map flat_map app].
  rewrite IH. reflexivity.
Qed.

(** What a run that returns has saved is what its output stage saved. *)
Lemma returned_run_files
      (a : args) (items : list (list L)) (t : telemetry) w' :
  run px0 quantize img_h img_w img_c decode pil_save dur peak_memory a items
  = (inr t, w') ->
  exists x starts w2 saves,
    last (map Some (tl items)) None = Some x
    /\ Py.range 0 (n_images a) (decoding_batch_size a) = Some starts
    /\ save_output px0 quantize img_h img_w img_c pil_save a
         (decoded_batches decode (Some x)
            (fst (Resolver.to_latent_size (image_size a)))
            (decoding_batch_size a) starts) w2
       = (inr tt, extend w2 saves)
    /\ saved_files (trace w') = saved_files saves.
Proof.
  intros Hret.
  destruct (run_outcomes a items) as [[-> Hrun] | Hrun];
    [rewrite Hrun in Hret; discriminate |].
  destruct Hrun as (c & rest & -> & Hrun). cbv zeta in Hrun.
  destruct Hrun as [[_ Hrun] | [(i & more & _ & _ & Hrun) | Hrun]];
    try (rewrite Hrun in Hret; discriminate).
  destruct Hrun as (starts & Hrange & _ & Hrun).
  destruct Hrun as [(e & failed & _ & _ & _ & Hrun)
                   | (saves & Hsave & Hsaves & Hstarts & Hx & Hrun)];
    [rewrite Hrun in Hret; discriminate |].
  rewrite Hrun in Hret. apply (f_equal snd) in Hret. cbn [snd] in Hret.
  subst w'. cbn [tl].
  destruct (last (map Some rest) None) as [x |] eqn:Hlast;
    [| contradiction Hx; reflexivity].
  eexists x, starts, _, saves.
  split; [reflexivity |]. split; [exact Hrange |].
  split; [exact Hsave |].
  unfold extend. cbv beta iota delta [trace].
  rewrite !saved_files_app.
  rewrite (saved_files_free (generated a c rest))
    by (apply free_of_generated; reflexivity).
  rewrite (saved_files_free (decoding_events _ _ _ _ _))
    by (apply free_of_decoding; reflexivity).
  destruct (verbose a); cbn [saved_files flat_map app];
    rewrite ?app_nil_r; reflexivity.
Qed.

Lemma save_output_raw_returns (a : args)
      (decoded : list (list (image px))) w (saves : list (event L px)) :
  save_raw a = true ->
  save_output px0 quantize img_h img_w img_c pil_save a decoded w
  = (inr tt, extend w saves) ->
  exists parts suffix,
    Py.unpack_star_last (Py.split "." (output a)) = Some (parts, suffix)
    /\ saves
       = raw_saves (Py.join "." parts) suffix
           (tmap quantize
                 (as_tensor px0 img_h img_w img_c (List.concat decoded)))
           (seq 0 (List.length (List.concat decoded))).
Proof.
  intros Hraw. unfold save_output. rewrite Hraw.
  destruct decoded as [| d rest].
  { destruct (OrchestratorFacts.save_raw_files_empty
                px0 quantize img_h img_w img_c pil_save (output a) w) as [e E].
    rewrite E. discriminate. }
  destruct (OrchestratorFacts.unpack_split_some "." (output a))
    as [parts [suffix Hsplit]].
  rewrite (OrchestratorFacts.save_raw_files_outcome
             px0 quantize img_h img_w img_c pil_save _ w Hsplit)
    by discriminate.
  cbv zeta.
  match goal with
  | |- context [refusal pil_save ?n ?sf ?x ?ix] =>
      destruct (refusal pil_save n sf x ix) as [e |] eqn:Href
  end; [discriminate |].
  rewrite (OrchestratorFacts.refusal_none_written _ _ _ _ _ Href).
  intros Hsave. exists parts, suffix. split; [exact Hsplit |].
  apply (f_equal snd) in Hsave. cbn [snd] in Hsave.
  apply (f_equal (@trace L px)) in Hsave. unfold extend in Hsave.
  cbn [trace] in Hsave. apply app_inv_head in Hsave. symmetry. exact Hsave.
Qed.

Lemma returned_raw_run_files
      (a : args) (items : list (list L)) (t : telemetry) w' :
  run px0 quantize img_h img_w img_c decode pil_save dur peak_memory a items
  = (inr t, w') ->
  save_raw a = true ->
  exists x starts parts suffix,
    last (map Some (tl items)) None = Some x
    /\ Py.range 0 (n_images a) (decoding_batch_size a) = Some starts
    /\ Py.unpack_star_last (Py.split "." (output a)) = Some (parts, suffix)
    /\ let imgs :=
         List.concat
           (decoded_batches decode (Some x)
              (fst (Resolver.to_latent_size (image_size a)))
              (decoding_batch_size a) starts) in
       saved_files (trace w')
       = map (fun i =>
                (raw_name (Py.join "." parts) suffix i,
                 row (tmap quantize
                           (as_tensor px0 img_h img_w img_c imgs)) i))
             (seq 0 (List.length imgs)).
Proof.
  intros Hret Hraw.
  destruct (@returned_run_files _ _ _ _ Hret)
    as (x & starts & w2 & saves & Hlast & Hrange & Hsave & Hfiles).
  destruct (@save_output_raw_returns _ _ _ _ Hraw Hsave)
    as (parts & suffix & Hsplit & ->).
  exists x, starts, parts, suffix.
  repeat (split; [assumption |]).
  cbv zeta. rewrite Hfiles. apply saved_files_raw_saves.
Qed.

(** X14: in raw mode a run that returns has written as many files as the
    decoder returned images, whatever [--n-images] says, and no two of
    them under the same name: no image overwrites another. *)
Theorem raw_mode_never_overwrites_a_file
        (a : args) (items : list (list L)) (t : telemetry) w' :
  run px0 quantize img_h img_w img_c decode pil_save dur peak_memory a items
  = (inr t, w') ->
  save_raw a = true ->
  exists x starts,
    last (map Some (tl items)) None = Some x
    /\ Py.range 0 (n_images a) (decoding_batch_size a) = Some starts
    /\ List.length (saved_names (trace w'))
       = List.length
           (List.concat
              (decoded_batches decode (Some x)
                 (fst (Resolver.to_latent_size (image_size a)))
                 (decoding_batch_size a) starts))
    /\ NoDup (saved_names (trace w')).
Proof.
  intros Hret Hraw.
  destruct (@returned_raw_run_files _ _ _ _ Hret Hraw)
    as (x & starts & parts & suffix & Hlast & Hrange & _ & Hfiles).
  cbv zeta in Hfiles.
  exists x, starts. split; [exact Hlast |]. split; [exact Hrange |].
  rewrite saved_names_files, Hfiles, map_map. cbn [fst].
  split; [rewrite length_map, length_seq; reflexivity |].
  apply NameFacts.NoDup_map_injective; [| apply seq_NoDup].
  intros i j. apply NameFacts.raw_name_injective.
Qed.

(** X15: in raw mode the files are written in the order of the decoded
    batch, and file [i] holds image [i] of it, quantized, as an array of
    shape (H, W, C): the batches of the decoding loop are put back
    together in order before anything is saved. *)
Theorem raw_mode_file_holds_its_image
        (a : args) (items : list (list L)) (t : telemetry) w' :
  run px0 quantize img_h img_w img_c decode pil_save dur peak_memory a items
  = (inr t, w') ->
  save_raw a = true ->
  exists x starts parts suffix,
    last (map Some (tl items)) None = Some x
    /\ Py.range 0 (n_images a) (decoding_batch_size a) = Some starts
    /\ Py.unpack_star_last (Py.split "." (output a)) = Some (parts, suffix)
    /\ let imgs :=
         List.concat
           (map (fun i =>
                   decode (Py.slice x i (i + decoding_batch_size a))
                          (fst (Resolver.to_latent_size (image_size a))))
                starts) in
       forall i, i < List.length imgs ->
         exists im,
           nth_error (saved_files (trace w')) i
           = Some (raw_name (Py.join "." parts) suffix i, im)
           /\ shape im = [img_h; img_w; img_c]
           /\ forall idx,
               get im idx = quantize (nth i imgs (fun _ => px0) idx).
Proof.
  intros Hret Hraw.
  destruct (@returned_raw_run_files _ _ _ _ Hret Hraw)
    as (x & starts & parts & suffix & Hlast & Hrange & Hsplit & Hfiles).
  cbv zeta in Hfiles. cbn [decoded_batches] in Hfiles.
  exists x, starts, parts, suffix.
  repeat (split; [assumption |]).
  cbv zeta. intros i Hi. eexists.
  split; [| split; [| intros idx]].
  - rewrite Hfiles, nth_error_map.
    rewrite (nth_error_nth' _ 0) by (rewrite length_seq; exact Hi).
    rewrite seq_nth by exact Hi. cbn [option_map Nat.add]. reflexivity.
  - reflexivity.
  - reflexivity.
Qed.


Lemma grid_without_rows (imgs : list (image px)) :
  grid px0 quantize img_h img_w img_c 0 imgs = inl ZeroDivisionError.
Proof. reflexivity. Qed.

(** X16: in grid mode a run that returns (with a row count that is not
    negative, and images of at least one channel) has written exactly
    one file, under the output path as given; the row count is positive
    and divides the number of decoded images, and the file is an array
    of [n_rows] rows of tiles of (H+8) by (W+8) pixels. *)
Theorem grid_mode_writes_one_file_of_full_rows
        (a : args) (items : list (list L)) (t : telemetry) w' :
  run px0 quantize img_h img_w img_c decode pil_save dur peak_memory a items
  = (inr t, w') ->
  save_raw a = false ->
  (0 <= n_rows a)%Z ->
  0 < img_c ->
  exists x starts cols g,
    last (map Some (tl items)) None = Some x
    /\ Py.range 0 (n_images a) (decoding_batch_size a) = Some starts
    /\ (0 < n_rows a)%Z
    /\ Z.of_nat
         (List.length
            (List.concat
               (map (fun i =>
                       decode (Py.slice x i (i + decoding_batch_size a))
                              (fst (Resolver.to_latent_size
                                      (image_size a))))
                    starts)))
       = (n_rows a * Z.of_nat cols)%Z
    /\ saved_files (trace w') = [(output a, g)]
    /\ shape g
       = [Z.to_nat (n_rows a) * (img_h + 8); cols * (img_w + 8); img_c].
Proof.
  intros Hret Hraw Hrows Hc.
  destruct (@returned_run_files _ _ _ _ Hret)
    as (x & starts & w2 & saves & Hlast & Hrange & Hsave & Hfiles).
  destruct (@save_output_grid_returns _ _ _ _ Hraw Hsave)
    as (g & Hgrid & ->).
  cbn [decoded_batches] in Hgrid.
  set (imgs := List.concat _) in Hgrid.
  assert (Hpos : (0 < n_rows a)%Z).
  { destruct (Z.eq_dec (n_rows a) 0) as [E |]; [| lia].
    rewrite E, grid_without_rows in Hgrid. discriminate. }
  destruct (Z.eq_dec (Z.of_nat (List.length imgs) mod n_rows a) 0)
    as [Hmod | Hmod].
  2: { assert (Hnd : ~ (n_rows a | Z.of_nat (List.length imgs))%Z).
       { intros Hd. apply Hmod. apply Z.mod_divide; [lia | exact Hd]. }
       rewrite (OrchestratorFacts.grid_rejects
                  px0 quantize img_h img_w imgs Hrows Hc Hnd) in Hgrid.
       destruct (n_rows a =? 0)%Z; discriminate. }
  apply Z.mod_divide in Hmod; [| lia]. destruct Hmod as [q Hq].
  assert (Hcols : List.length imgs
                  = Z.to_nat (n_rows a) * Z.to_nat q) by nia.
  assert (HR : 0 < Z.to_nat (n_rows a)) by lia.
  destruct (@OrchestratorFacts.grid_tiles
              px px0 quantize img_h img_w img_c
              (Z.to_nat (n_rows a)) (Z.to_nat q) imgs HR Hcols)
    as (g' & Hgrid' & Hshape & _).
  rewrite Z2Nat.id in Hgrid' by lia.
  rewrite Hgrid in Hgrid'. injection Hgrid' as <-.
  exists x, starts, (Z.to_nat q), g.
  split; [exact Hlast |]. split; [exact Hrange |].
  split; [exact Hpos |].
  split; [fold imgs; nia |].
  split; [rewrite Hfiles; reflexivity | exact Hshape].
Qed.


(** *** Runs that return *)

Lemma last_latent (rest : list (list L)) (x : list L) :
  last (map Some (rest ++ [x])) None = Some x.
Proof. rewrite map_app. cbn [map]. apply last_last. Qed.

(** The sub-batches of the decoding loop make up the whole batch. *)
Lemma decoded_batches_whole
      (n bs : Z) (x : list L) (f : L -> image px) (ls : Z * Z) :
  (1 <= n)%Z -> (1 <= bs)%Z ->
  Z.of_nat (List.length x) = n ->
  (forall xs, decode xs ls = map f xs) ->
  exists starts,
    Py.range 0 n bs = Some starts
    /\ starts <> []
    /\ List.concat (decoded_batches decode (Some x) ls bs starts)
       = map f x.
Proof.
  intros Hn Hbs Hlen Hdec.
  destruct (RangeFacts.chunk_count_covers Hn Hbs) as [Hcover Hm1].
  set (m := Z.to_nat ((n - 1) / bs + 1)).
  set (b := Z.to_nat bs).
  exists (map (fun j => (Z.of_nat j * bs)%Z) (seq 0 m)).
  split; [apply RangeFacts.range_positive; assumption |].
  split.
  { assert (Hm : m <> 0) by (subst m; lia).
    destruct m; [contradiction | discriminate]. }
  cbn [decoded_batches]. rewrite map_map.
  transitivity
    (List.concat
       (map (map f) (map (fun j => firstn b (skipn (j * b) x)) (seq 0 m)))).
  - f_equal. rewrite map_map. apply map_ext. intros j.
    rewrite Hdec. f_equal.
    rewrite RangeFacts.slice_window by lia.
    do 2 f_equal. subst b. nia.
  - rewrite <- concat_map. f_equal.
    apply RangeFacts.pieces_concat. subst m b. nia.
Qed.

(** A run on a generator with at least one denoising item returns when
    its output stage does. *)
Lemma run_returns_when_output_does
      (a : args) (c : list L) (rest : list (list L)) (x : list L)
      (starts : list Z) :
  Py.range 0 (n_images a) (decoding_batch_size a) = Some starts ->
  (forall w, exists saves,
        save_output px0 quantize img_h img_w img_c pil_save a
          (decoded_batches decode (Some x)
             (fst (Resolver.to_latent_size (image_size a)))
             (decoding_batch_size a) starts) w
        = (inr tt, extend w saves)) ->
  exists t w',
    run px0 quantize img_h img_w img_c decode pil_save dur peak_memory a
        (c :: rest ++ [x])
    = (inr t, w').
Proof.
  intros Hrange Hout.
  destruct (run_outcomes a (c :: rest ++ [x])) as [[E _] | Hrun];
    [discriminate |].
  destruct Hrun as (c' & rest' & E & Hrun). injection E as <- <-.
  cbv zeta in Hrun. rewrite last_latent, Hrange in Hrun.
  destruct Hrun as [[E _] | [(i & more & _ & E & _) | Hrun]];
    [discriminate | destruct rest; discriminate |].
  destruct Hrun as (starts' & E & _ & Hrun). injection E as <-.
  destruct Hrun as [(e & failed & Hsave & _)
                   | (saves & _ & _ & _ & _ & Hrun)].
  - match type of Hsave with
    | save_output _ _ _ _ _ _ _ _ ?w = _ =>
        destruct (Hout w) as [saves E]
    end.
    rewrite E in Hsave. discriminate.
  - eexists. eexists. exact Hrun.
Qed.

Lemma save_output_raw_total (a : args) (parts : list string)
      (suffix : string) (decoded : list (list (image px))) w :
  save_raw a = true -> decoded <> [] ->
  Py.unpack_star_last (Py.split "." (output a)) = Some (parts, suffix) ->
  (forall i,
      i < List.length (List.concat decoded) ->
      pil_save (raw_name (Py.join "." parts) suffix i)
               (row (tmap quantize
                          (as_tensor px0 img_h img_w img_c
                                     (List.concat decoded))) i)
      = None) ->
  exists saves,
    save_output px0 quantize img_h img_w img_c pil_save a decoded w
    = (inr tt, extend w saves).
Proof.
  intros Hraw Hne Hsplit Hall. unfold save_output. rewrite Hraw.
  rewrite (OrchestratorFacts.save_raw_files_trace
             px0 quantize img_h img_w img_c pil_save _ w Hsplit Hne Hall).
  eexists. reflexivity.
Qed.

Lemma decoded_batches_some_nonempty (x : list L) (ls : Z * Z) (bs : Z)
      (starts : list Z) :
  starts <> [] -> decoded_batches decode (Some x) ls bs starts <> [].
Proof. destruct starts; [contradiction | discriminate]. Qed.

(** X17: raw mode on a healthy input returns, and what it writes does
    not depend on the decoding batch size: with at least one image, a
    positive batch size, a generator that yields at least one denoising
    item, a last item of [n_images] latents, a decoder that works
    latent by latent, and a PIL that takes each of the [n_images] files
    (their arrays and their names), the run ends without an exception
    and has written file [i] with the quantized decoded image of latent
    [i], for every [i] below [n_images], in order. *)
Theorem raw_mode_returns_the_same_files_for_every_batch_size
        (a : args) (c : list L) (rest : list (list L)) (x : list L)
        (f : L -> image px) (parts : list string) (suffix : string) :
  (1 <= n_images a)%Z ->
  (1 <= decoding_batch_size a)%Z ->
  Z.of_nat (List.length x) = n_images a ->
  (forall xs, decode xs (fst (Resolver.to_latent_size (image_size a)))
              = map f xs) ->
  save_raw a = true ->
  Py.unpack_star_last (Py.split "." (output a)) = Some (parts, suffix) ->
  (forall i,
      i < List.length x ->
      pil_save (raw_name (Py.join "." parts) suffix i)
               (row (tmap quantize
                          (as_tensor px0 img_h img_w img_c (map f x))) i)
      = None) ->
  exists t w',
    run px0 quantize img_h img_w img_c decode pil_save dur peak_memory a
        (c :: rest ++ [x])
    = (inr t, w')
    /\ saved_files (trace w')
       = map (fun i =>
                (raw_name (Py.join "." parts) suffix i,
                 row (tmap quantize
                           (as_tensor px0 img_h img_w img_c (map f x))) i))
             (seq 0 (List.length x)).
Proof.
  intros Hn Hbs Hlen Hdec Hraw Hsplit Hpil.
  destruct (@decoded_batches_whole _ _ x f _ Hn Hbs Hlen Hdec)
    as (starts & Hrange & Hstarts & Hwhole).
  destruct (@run_returns_when_output_does a c rest x starts Hrange)
    as (t & w' & Hret).
  { intros w.
    apply save_output_raw_total with (parts := parts) (suffix := suffix);
      [exact Hraw | | exact Hsplit |].
    - apply decoded_batches_some_nonempty. exact Hstarts.
    - rewrite Hwhole, length_map. exact Hpil. }
  destruct (@returned_raw_run_files _ _ _ _ Hret Hraw)
    as (x' & starts' & parts' & suffix' & Hlast & Hrange' & Hsplit'
        & Hfiles).
  cbn [tl] in Hlast. rewrite last_latent in Hlast. injection Hlast as <-.
  rewrite Hrange in Hrange'. injection Hrange' as <-.
  rewrite Hsplit in Hsplit'. injection Hsplit' as <- <-.
  cbv zeta in Hfiles. rewrite Hwhole, length_map in Hfiles.
  exists t, w'. split; [exact Hret | exact Hfiles].
Qed.

(** X18: grid mode on a healthy input returns when the row count
    divides the image count: with a positive row count that divides
    [n_images], the conditions of X17 on the generator and the decoder,
    and a PIL that takes the assembled grid under the output path, the
    run ends without an exception and has written one file, the grid of
    all [n_images] decoded images: tile (r, c) is the padded image of
    latent [r * cols + c], whatever the decoding batch size. *)
Theorem grid_mode_returns_when_the_rows_divide_the_images
        (a : args) (c : list L) (rest : list (list L)) (x : list L)
        (f : L -> image px) (R cols : nat) :
  (1 <= n_images a)%Z ->
  (1 <= decoding_batch_size a)%Z ->
  Z.of_nat (List.length x) = n_images a ->
  (forall xs, decode xs (fst (Resolver.to_latent_size (image_size a)))
              = map f xs) ->
  save_raw a = false ->
  0 < R -> n_rows a = Z.of_nat R -> List.length x = R * cols ->
  (forall g,
      grid px0 quantize img_h img_w img_c (n_rows a) (map f x) = inr g ->
      pil_save (output a) g = None) ->
  exists t w' g,
    run px0 quantize img_h img_w img_c decode pil_save dur peak_memory a
        (c :: rest ++ [x])
    = (inr t, w')
    /\ saved_files (trace w') = [(output a, g)]
    /\ shape g = [R * (img_h + 8); cols * (img_w + 8); img_c]
    /\ forall r k y z ch,
        r < R -> k < cols -> y < img_h + 8 -> z < img_w + 8 ->
        ch < img_c ->
        get g [r * (img_h + 8) + y; k * (img_w + 8) + z; ch]
        = quantize (padded_image px0 img_h img_w
                      (nth (r * cols + k) (map f x) (fun _ => px0))
                      [y; z; ch]).
Proof.
  intros Hn Hbs Hlen Hdec Hraw HR Hrows Hcols Hpil.
  destruct (@decoded_batches_whole _ _ x f _ Hn Hbs Hlen Hdec)
    as (starts & Hrange & Hstarts & Hwhole).
  assert (Hlen' : List.length (map f x) = R * cols)
    by (rewrite length_map; exact Hcols).
  destruct (@OrchestratorFacts.grid_tiles
              px px0 quantize img_h img_w img_c R cols (map f x) HR Hlen')
    as (g & Hgrid & Hshape & Htiles).
  rewrite <- Hrows in Hgrid.
  assert (Hout : forall w,
             save_output px0 quantize img_h img_w img_c pil_save a
               (decoded_batches decode (Some x)
                  (fst (Resolver.to_latent_size (image_size a)))
                  (decoding_batch_size a) starts) w
             = (inr tt, extend w [EvSave (output a) g])).
  { intros w. unfold save_output. rewrite Hraw.
    rewrite OrchestratorFacts.save_grid_trace
      by (apply decoded_batches_some_nonempty; exact Hstarts).
    rewrite Hwhole, Hgrid, (Hpil g Hgrid). reflexivity. }
  destruct (@run_returns_when_output_does a c rest x starts Hrange)
    as (t & w' & Hret).
  { intros w. eexists. apply Hout. }
  destruct (@returned_run_files _ _ _ _ Hret)
    as (x' & starts' & w2 & saves & Hlast & Hrange' & Hsave & Hfiles).
  cbn [tl] in Hlast. rewrite last_latent in Hlast. injection Hlast as <-.
  rewrite Hrange in Hrange'. injection Hrange' as <-.
  rewrite Hout in Hsave.
  apply (f_equal snd) in Hsave. cbn [snd] in Hsave.
  apply (f_equal (@trace L px)) in Hsave. unfold extend in Hsave.
  cbn [trace] in Hsave. apply app_inv_head in Hsave. subst saves.
  exists t, w', g.
  split; [exact Hret |]. split; [exact Hfiles |].
  split; [exact Hshape | exact Htiles].
Qed.

End Runs.

(** *** The properties on the small pipeline *)

Lemma run_grid_returns :
  Mock.run_grid 3
  = (inr (Mock.telemetry_of (Mock.run_grid 3)), snd (Mock.run_grid 3)).
Proof. reflexivity. Qed.

Lemma run_grid_raises :
  Mock.run_grid 2
  = (inl (ValueError "[reshape]"), snd (Mock.run_grid 2)).
Proof. reflexivity. Qed.


Lemma a_raised_run_has_saved_nothing_witness :
  Mock.run_grid 2
  = (inl (ValueError "[reshape]"), snd (Mock.run_grid 2))
  /\ saved_files (trace (snd (Mock.run_grid 2))) = []
  /\ saved_names (trace (snd (Mock.run_grid 2))) = [].
Proof.
  split; [exact run_grid_raises |].
  destruct (a_raised_run_has_saved_nothing
              0%Z (fun v => v) 1 1 3 Mock.decode Mock.pil Mock.dur
              (fixed_phase_backend 6 15 21) (Mock.grid_args 2) Mock.items
              run_grid_raises)
    as [Hnone | [Hraw _]]; [exact Hnone | discriminate Hraw].
Defined.

Lemma no_denoising_step_leaves_x_t_unbound_witness :
  (1 <= n_images Mock.raw_args)%Z
  /\ (1 <= decoding_batch_size Mock.raw_args)%Z
  /\ fst (run 0%Z (fun v => v) 1 1 3 Mock.decode Mock.pil Mock.dur
              (fixed_phase_backend 6 15 21) Mock.raw_args [[0; 0; 0]])
     = inl (NameError "x_t").
Proof.
  assert (Hn : (1 <= n_images Mock.raw_args)%Z) by (cbn; lia).
  assert (Hbs : (1 <= decoding_batch_size Mock.raw_args)%Z) by (cbn; lia).
  split; [exact Hn |]. split; [exact Hbs |].
  destruct (no_denoising_step_leaves_x_t_unbound
              0%Z (fun v => v) 1 1 3 Mock.decode Mock.pil Mock.dur
              (fixed_phase_backend 6 15 21) Mock.raw_args [0; 0; 0] Hn Hbs)
    as [Hrun _].
  rewrite Hrun. reflexivity.
Defined.

Lemma a_returned_run_had_batches_to_decode_witness :
  Mock.run_grid 3
  = (inr (Mock.telemetry_of (Mock.run_grid 3)), snd (Mock.run_grid 3))
  /\ ((0 < n_images (Mock.grid_args 3)
       /\ 0 < decoding_batch_size (Mock.grid_args 3))%Z
      \/ (n_images (Mock.grid_args 3) < 0
          /\ decoding_batch_size (Mock.grid_args 3) < 0)%Z).
Proof.
  split; [exact run_grid_returns |].
  exact (a_returned_run_had_batches_to_decode
           0%Z (fun v => v) 1 1 3 Mock.decode Mock.pil Mock.dur
           (fixed_phase_backend 6 15 21) (Mock.grid_args 3) Mock.items
           run_grid_returns).
Defined.

Lemma stages_and_releases_in_order_witness :
  Mock.run_grid 3
  = (inr (Mock.telemetry_of (Mock.run_grid 3)), snd (Mock.run_grid 3))
  /\ exists k starts s,
      List.length Mock.items = S k /\ 1 <= k
      /\ Py.range 0 3 2 = Some starts
      /\ 1 <= List.length starts
      /\ (save_raw (Mock.grid_args 3) = false -> s = 1)
      /\ select [KNext; KEval; KDelT5; KPerfCounter; KDelFlow; KDecode;
                 KSave]
                (trace (snd (Mock.run_grid 3)))
         = [KNext; KEval; KDelT5; KPerfCounter]
             ++ List.concat (repeat [KNext; KEval] k)
             ++ [KDelFlow]
             ++ List.concat (repeat [KDecode; KEval] (List.length starts))
             ++ repeat KSave s
             ++ [KPerfCounter].
Proof.
  split; [exact run_grid_returns |].
  exact (stages_and_releases_in_order
           0%Z (fun v => v) 1 1 3 Mock.decode Mock.pil Mock.dur
           (fixed_phase_backend 6 15 21) (Mock.grid_args 3) Mock.items
           run_grid_returns).
Defined.

Lemma three_readings_two_resets_witness :
  Mock.run_grid 3
  = (inr (Mock.telemetry_of (Mock.run_grid 3)), snd (Mock.run_grid 3))
  /\ select [KGetPeak; KResetPeak] (trace (snd (Mock.run_grid 3)))
     = [KGetPeak; KResetPeak; KGetPeak; KResetPeak; KGetPeak].
Proof.
  split; [exact run_grid_returns |].
  exact (three_readings_two_resets
           0%Z (fun v => v) 1 1 3 Mock.decode Mock.pil Mock.dur
           (fixed_phase_backend 6 15 21) (Mock.grid_args 3) Mock.items
           run_grid_returns).
Defined.


Lemma run_raw_returned :
  run 0%Z (fun v => v) 1 1 3 Mock.decode Mock.pil Mock.dur
      (fixed_phase_backend 6 15 21) Mock.raw_args Mock.items
  = (inr (Mock.telemetry_of (Mock.run_raw 6 15 21)),
     snd (Mock.run_raw 6 15 21)).
Proof. reflexivity. Qed.

Lemma raw_mode_never_overwrites_a_file_witness :
  save_raw Mock.raw_args = true
  /\ List.length (saved_names (trace (snd (Mock.run_raw 6 15 21)))) = 3
  /\ NoDup (saved_names (trace (snd (Mock.run_raw 6 15 21)))).
Proof.
  assert (Hraw : save_raw Mock.raw_args = true) by reflexivity.
  split; [exact Hraw |].
  destruct (raw_mode_never_overwrites_a_file
              0%Z (fun v => v) 1 1 3 Mock.decode Mock.pil Mock.dur
              (fixed_phase_backend 6 15 21) Mock.raw_args Mock.items
              run_raw_returned Hraw)
    as (x & starts & Hlast & Hrange & Hlen & Hnodup).
  split; [| exact Hnodup].
  injection Hlast as <-. injection Hrange as <-. exact Hlen.
Defined.

Lemma raw_mode_file_holds_its_image_witness :
  save_raw Mock.raw_args = true
  /\ exists im,
      nth_error (saved_files (trace (snd (Mock.run_raw 6 15 21)))) 2
      = Some ("result.2.png"%string, im)
      /\ shape im = [1; 1; 3]
      /\ get im [0; 0; 0] = 22%Z.
Proof.
  assert (Hraw : save_raw Mock.raw_args = true) by reflexivity.
  split; [exact Hraw |].
  destruct (raw_mode_file_holds_its_image
              0%Z (fun v => v) 1 1 3 Mock.decode Mock.pil Mock.dur
              (fixed_phase_backend 6 15 21) Mock.raw_args Mock.items
              run_raw_returned Hraw)
    as (x & starts & parts & suffix & Hlast & Hrange & Hsplit & Hfile).
  injection Hlast as <-. injection Hrange as <-.
  injection Hsplit as <- <-. cbv zeta in Hfile.
  destruct (Hfile 2) as (im & Him & Hshape & Hget);
    [vm_compute; lia |].
  exists im. split; [exact Him |]. split; [exact Hshape |].
  rewrite Hget. reflexivity.
Defined.

Lemma grid_mode_writes_one_file_of_full_rows_witness :
  save_raw (Mock.grid_args 3) = false
  /\ (0 <= n_rows (Mock.grid_args 3))%Z
  /\ 0 < 3
  /\ exists g,
      saved_files (trace (snd (Mock.run_grid 3))) = [("grid.png"%string, g)]
      /\ shape g = [27; 9; 3].
Proof.
  assert (Hraw : save_raw (Mock.grid_args 3) = false) by reflexivity.
  assert (Hrows : (0 <= n_rows (Mock.grid_args 3))%Z) by (cbn; lia).
  assert (Hc : 0 < 3) by lia.
  split; [exact Hraw |]. split; [exact Hrows |]. split; [exact Hc |].
  destruct (grid_mode_writes_one_file_of_full_rows
              0%Z (fun v => v) 1 1 Mock.decode Mock.pil Mock.dur
              (fixed_phase_backend 6 15 21) (Mock.grid_args 3) Mock.items
              run_grid_returns Hraw Hrows Hc)
    as (x & starts & cols & g & Hlast & Hrange & _ & Hcols & Hfiles
        & Hshape).
  injection Hlast as <-. injection Hrange as <-.
  change (Z.of_nat 3 = 3 * Z.of_nat cols)%Z in Hcols.
  assert (Ecols : cols = 1) by lia. subst cols.
  exists g. split; [exact Hfiles | exact Hshape].
Defined.


Lemma raw_mode_returns_the_same_files_for_every_batch_size_witness :
  (1 <= n_images Mock.raw_args)%Z
  /\ (1 <= decoding_batch_size Mock.raw_args)%Z
  /\ save_raw Mock.raw_args = true
  /\ exists t w',
      run 0%Z (fun v => v) 1 1 3 Mock.decode Mock.pil Mock.dur
          (fixed_phase_backend 6 15 21) Mock.raw_args
          ([0; 0; 0] :: [[1; 11; 21]] ++ [[2; 12; 22]])
      = (inr t, w')
      /\ map fst (saved_files (trace w'))
         = ["result.0.png"; "result.1.png"; "result.2.png"]%string.
Proof.
  assert (Hn : (1 <= n_images Mock.raw_args)%Z) by (cbn; lia).
  assert (Hbs : (1 <= decoding_batch_size Mock.raw_args)%Z) by (cbn; lia).
  assert (Hraw : save_raw Mock.raw_args = true) by reflexivity.
  split; [exact Hn |]. split; [exact Hbs |]. split; [exact Hraw |].
  assert (Hpil : forall i,
             i < List.length [2; 12; 22] ->
             Mock.pil (raw_name (Py.join "." ["result"%string]) "png" i)
                      (row (tmap (fun v : Z => v)
                                 (as_tensor 0%Z 1 1 3
                                            (map Mock.flat [2; 12; 22]))) i)
             = None).
  { intros [| [| [| i]]] Hi; try reflexivity. cbn in Hi. lia. }
  destruct (@raw_mode_returns_the_same_files_for_every_batch_size
              nat Z 0%Z (fun v => v) 1 1 3 Mock.decode Mock.pil Mock.dur
              (fixed_phase_backend 6 15 21) Mock.raw_args
              [0; 0; 0] [[1; 11; 21]] [2; 12; 22] Mock.flat
              ["result"%string] "png"
              Hn Hbs eq_refl (fun xs => eq_refl) Hraw eq_refl Hpil)
    as (t & w' & Hret & Hfiles).
  exists t, w'. split; [exact Hret |].
  rewrite Hfiles. reflexivity.
Defined.

Lemma grid_mode_returns_when_the_rows_divide_the_images_witness :
  (1 <= n_images (Mock.grid_args 3))%Z
  /\ (1 <= decoding_batch_size (Mock.grid_args 3))%Z
  /\ save_raw (Mock.grid_args 3) = false
  /\ 0 < 3
  /\ exists t w' g,
      run 0%Z (fun v => v) 1 1 3 Mock.decode Mock.pil Mock.dur
          (fixed_phase_backend 6 15 21) (Mock.grid_args 3)
          ([0; 0; 0] :: [[1; 11; 21]] ++ [[2; 12; 22]])
      = (inr t, w')
      /\ saved_files (trace w') = [("grid.png"%string, g)]
      /\ shape g = [27; 9; 3]
      /\ get g [22; 4; 0] = 22%Z.
Proof.
  assert (Hn : (1 <= n_images (Mock.grid_args 3))%Z) by (cbn; lia).
  assert (Hbs : (1 <= decoding_batch_size (Mock.grid_args 3))%Z)
    by (cbn; lia).
  assert (Hraw : save_raw (Mock.grid_args 3) = false) by reflexivity.
  assert (HR : 0 < 3) by lia.
  split; [exact Hn |]. split; [exact Hbs |]. split; [exact Hraw |].
  split; [exact HR |].
  assert (Hpil : forall g,
             grid 0%Z (fun v : Z => v) 1 1 3 (n_rows (Mock.grid_args 3))
                  (map Mock.flat [2; 12; 22]) = inr g ->
             Mock.pil (output (Mock.grid_args 3)) g = None).
  { intros g Hg.
    destruct (@OrchestratorFacts.grid_tiles
                Z 0%Z (fun v : Z => v) 1 1 3 3 1
                (map Mock.flat [2; 12; 22]) HR eq_refl)
      as (g' & Hg' & Hshape & _).
    change (Z.of_nat 3) with (n_rows (Mock.grid_args 3)) in Hg'.
    rewrite Hg in Hg'. injection Hg' as <-.
    unfold Mock.pil. rewrite Hshape. reflexivity. }
  destruct (@grid_mode_returns_when_the_rows_divide_the_images
              nat Z 0%Z (fun v => v) 1 1 3 Mock.decode Mock.pil Mock.dur
              (fixed_phase_backend 6 15 21) (Mock.grid_args 3)
              [0; 0; 0] [[1; 11; 21]] [2; 12; 22] Mock.flat 3 1
              Hn Hbs eq_refl (fun xs => eq_refl) Hraw HR eq_refl eq_refl
              Hpil)
    as (t & w' & g & Hret & Hfiles & Hshape & Htiles).
  exists t, w', g. split; [exact Hret |]. split; [exact Hfiles |].
  split; [exact Hshape |].
  exact (Htiles 2 0 4 4 0 ltac:(lia) ltac:(lia) ltac:(lia) ltac:(lia)
                ltac:(lia)).
Defined.

End RunFacts.

(* ================================================================== *)
(** ** The two helpers the block does not call *)
(* ================================================================== *)

Module AdapterFacts.

Import Adapter.

Local Open Scope Z_scope.

(** X19: [quantization_predicate] answers True exactly for a module
    that has a [to_quantized] attribute and a weight of at least two
    dimensions whose second dimension, the input width, is a multiple
    of 512; the first dimension and the name play no part.  A module
    without [to_quantized] is answered False without its weight being
    looked at, so one without a weight raises nothing. *)
Theorem quantization_predicate_selects_input_widths_in_steps_of_512
        (name : string) (m : layer) :
  (quantization_predicate name m = inr true
   <-> has_to_quantized m = true
       /\ exists d0 d1 rest,
           weight_shape m = Some (d0 :: d1 :: rest) /\ (512 | d1))
  /\ (has_to_quantized m = false
      -> quantization_predicate name m = inr false).
Proof.
  unfold quantization_predicate. split.
  2: { intros ->. reflexivity. }
  destruct (has_to_quantized m).
  2: { split; [discriminate | intros [H _]; discriminate]. }
  destruct (weight_shape m) as [[| d0 [| d1 rest]] |]; cbn [nth_error].
  - split; [discriminate | intros [_ (? & ? & ? & H & _)]; discriminate].
  - split; [discriminate | intros [_ (? & ? & ? & H & _)]; discriminate].
  - split.
    + intros H. injection H as H. apply Z.eqb_eq in H.
      split; [reflexivity |]. exists d0, d1, rest.
      split; [reflexivity |]. apply Z.mod_divide; [lia | exact H].
    + intros [_ (e0 & e1 & erest & H & Hd)]. injection H as -> -> ->.
      apply Z.mod_divide in Hd; [| lia]. rewrite Hd. reflexivity.
  - split; [discriminate | intros [_ (? & ? & ? & H & _)]; discriminate].
Qed.

Section Load.

Variable W : Type.
Variable int_of : string -> option Z.

(** X20: [load_adapter] reads both metadata values before it touches
    the model: a load that fails (a missing key, a value that is no
    integer) has made no call on the model, with [fuse] or without; a
    load that succeeds has converted the layers, then loaded the
    weights of the file non-strictly, and fused only when asked, as
    the last call.  Whether it fails does not depend on [fuse]. *)
Theorem a_failed_load_leaves_the_model_untouched
        (file : adapter W) (fuse : bool) :
  fst (load_adapter int_of file (negb fuse))
  = fst (load_adapter int_of file fuse)
  /\ match load_adapter int_of file fuse with
     | (inl e, calls) =>
         calls = []
         /\ (e = KeyError "lora_rank" \/ e = KeyError "lora_blocks"
             \/ exists text, e = IntValueError text /\ int_of text = None)
     | (inr _, calls) =>
         exists rank num_blocks,
           int_field int_of "lora_rank" (lora_config file) = inr rank
           /\ int_field int_of "lora_blocks" (lora_config file)
              = inr num_blocks
           /\ calls
              = LinearToLoraLayers rank num_blocks
                  :: LoadWeights (weights file) false
                  :: (if fuse then [FuseLoraLayers] else [])
     end.
Proof.
  unfold load_adapter.
  assert (Hfield : forall key,
             match int_field int_of key (lora_config file) with
             | inl e => e = KeyError key
                        \/ exists text,
                            e = IntValueError text /\ int_of text = None
             | inr _ => True
             end).
  { intros key. unfold int_field.
    destruct (lookup key (lora_config file)) as [text |]; [| left; reflexivity].
    destruct (int_of text) eqn:E; [exact I |].
    right. exists text. split; [reflexivity | exact E]. }
  pose proof (Hfield "lora_rank"%string) as Hrank.
  pose proof (Hfield "lora_blocks"%string) as Hblocks.
  destruct (int_field int_of "lora_rank" (lora_config file)) as [e | rank].
  { split; [reflexivity |]. split; [reflexivity |].
    destruct Hrank as [-> | H]; [left; reflexivity | right; right; exact H]. }
  destruct (int_field int_of "lora_blocks" (lora_config file))
    as [e | num_blocks].
  { split; [reflexivity |]. split; [reflexivity |].
    destruct Hblocks as [-> | H];
      [right; left; reflexivity | right; right; exact H]. }
  split; [reflexivity |].
  exists rank, num_blocks. repeat split; reflexivity.
Qed.

End Load.

End AdapterFacts.
